(** * Debate generator: persona catalog, resilient API client, voice enhancer
      and orchestrator

    A shallow embedding of the TypeScript sources

      - [src/lib/persona-registry.ts]            (module [PersonaRegistry])
      - [nextjs-app/src/lib/grok-client.ts]      (module [GrokClient])
      - [nextjs-app/src/lib/voice-enhancer.ts]   (module [VoiceEnhancer])
      - [nextjs-app/src/lib/debate-generator.ts] (module [DebateGenerator])

    Conventions of the embedding.

      - A JavaScript string is a [string]: a sequence of 8-bit code units
        (the Latin-1 range of UTF-16).  [String.length] is [.length].
        Strings with code units beyond U+00FF are not represented; for
        them the case mappings of JavaScript need not keep the length.
      - A JavaScript [number] that is a count (tokens, sources, attempt
        index) is a [nat]; a [number] that is a quantity (temperature,
        bias level, cost) is an exact rational [Q]: the rounding of
        IEEE-754 doubles is not modelled, and a statement about such a
        quantity is made only where it survives that rounding.  The retry
        budget [maxRetries] is a configured [number] that the code only
        compares with the attempt index: it is a [Q] too, so that a
        negative or fractional budget is told apart from a count.  NaN and
        the infinities are not represented.
      - An optional field or argument ([x?: T]) is an [option T].
      - [async] code that talks to the upstream API is a state-and-exception
        computation over the log of the requests issued so far; what the
        upstream answers to the n-th request is given by an arbitrary
        function, so a statement quantified over that function holds for
        every sequence of upstream outcomes.
      - The two persona tasks of [generateDebate] share no state; each is
        run to its end against its own upstream function, and
        [Promise.all] joins the two settlements.  Which of two rejections
        came first in time is a parameter. *)

From Stdlib Require Import String Ascii List Bool Arith ZArith QArith Qround Lia.
From Stdlib Require Import DecimalString FinFun.
Import ListNotations.

Local Close Scope Q_scope.
Local Open Scope list_scope.
Local Open Scope string_scope.
Local Open Scope nat_scope.

(* ===================================================================== *)
(** * JavaScript string primitives *)
(* ===================================================================== *)

Module Js.

(** The double-quote character, as a one-character string. *)
Definition dq : string := String (ascii_of_nat 34) EmptyString.

(** White space as [String.prototype.trim] and the regular expression class
    [\s] see it, restricted to 8-bit code units: TAB, LF, VT, FF, CR, SPACE
    and NBSP. *)
Definition isWhiteSpace (c : ascii) : bool :=
  let n := nat_of_ascii c in
  ((9 <=? n) && (n <=? 13)) || (n =? 32) || (n =? 160).

Fixpoint trimStart (s : string) : string :=
  match s with
  | EmptyString => EmptyString
  | String c s' => if isWhiteSpace c then trimStart s' else s
  end.

Fixpoint trimEnd (s : string) : string :=
  match s with
  | EmptyString => EmptyString
  | String c s' =>
      match trimEnd s' with
      | EmptyString => if isWhiteSpace c then EmptyString else String c EmptyString
      | t => String c t
      end
  end.

(** [s.trim()] *)
Definition trim (s : string) : string := trimEnd (trimStart s).

(** Truthiness of a string: only the empty string is falsy. *)
Definition truthy (s : string) : bool :=
  match s with EmptyString => false | _ => true end.

Fixpoint take (n : nat) (s : string) : string :=
  match n, s with
  | S n', String c s' => String c (take n' s')
  | _, _ => EmptyString
  end.

Fixpoint drop (n : nat) (s : string) : string :=
  match n, s with
  | S n', String _ s' => drop n' s'
  | _, _ => s
  end.

(** [s.substring(a, b)]: both indices are clamped to the length and swapped
    when out of order. *)
Definition substring2 (s : string) (a b : nat) : string :=
  let a' := Nat.min a (String.length s) in
  let b' := Nat.min b (String.length s) in
  take (Nat.max a' b' - Nat.min a' b') (drop (Nat.min a' b') s).

(** [s.substring(a)] *)
Definition substring1 (s : string) (a : nat) : string :=
  substring2 s a (String.length s).

(** Case mapping of one code unit: A-Z, and the Latin-1 capitals
    U+00C0-U+00DE (except the multiplication sign U+00D7).  Upper-casing
    leaves alone the three Latin-1 letters whose capital is not a Latin-1
    code unit (U+00B5, U+00DF, U+00FF). *)
Definition lowerChar (c : ascii) : ascii :=
  let n := nat_of_ascii c in
  if ((65 <=? n) && (n <=? 90))
     || ((192 <=? n) && (n <=? 222) && negb (n =? 215))
  then ascii_of_nat (n + 32) else c.

Definition upperChar (c : ascii) : ascii :=
  let n := nat_of_ascii c in
  if ((97 <=? n) && (n <=? 122))
     || ((224 <=? n) && (n <=? 254) && negb (n =? 247))
  then ascii_of_nat (n - 32) else c.

Fixpoint mapChars (f : ascii -> ascii) (s : string) : string :=
  match s with
  | EmptyString => EmptyString
  | String c s' => String (f c) (mapChars f s')
  end.

Definition toLowerCase : string -> string := mapChars lowerChar.
Definition toUpperCase : string -> string := mapChars upperChar.

(** [s.includes(k)] *)
Fixpoint includes (s k : string) : bool :=
  String.prefix k s ||
  match s with
  | EmptyString => false
  | String _ s' => includes s' k
  end.

Definition newline : ascii := ascii_of_nat 10.

(** [s.split('\n')]: never empty; the empty string gives one empty line. *)
Fixpoint splitLines (s : string) : list string :=
  match s with
  | EmptyString => [EmptyString]
  | String c s' =>
      if Ascii.eqb c newline then EmptyString :: splitLines s'
      else match splitLines s' with
           | l :: ls => String c l :: ls
           | [] => [String c EmptyString]
           end
  end.

(** [xs.join(sep)] *)
Fixpoint join (sep : string) (xs : list string) : string :=
  match xs with
  | [] => EmptyString
  | [x] => x
  | x :: rest => x ++ sep ++ join sep rest
  end.

(** [xs.slice(0, n)] *)
Definition slice0 {A : Type} (n : nat) (xs : list A) : list A := firstn n xs.

(** [a || b] on optional strings: an absent or empty [a] gives [b]. *)
Definition orStr (a b : option string) : option string :=
  match a with
  | Some s => if truthy s then a else b
  | None => b
  end.

End Js.

Import Js.

(* ===================================================================== *)
(** * Types ([types/personas.ts]) *)
(* ===================================================================== *)

(** [enum PersonaType]: at run time a persona identifier is a string, and a
    caller can hand over any string. *)
Definition PersonaType := string.

Definition LIBERAL_GRASSROOTS : PersonaType := "liberal_grassroots".
Definition LIBERAL_EXPERT : PersonaType := "liberal_expert".
Definition CONSERVATIVE_PATRIOT : PersonaType := "conservative_patriot".
Definition CONSERVATIVE_EXPERT : PersonaType := "conservative_expert".

Inductive PoliticalLeaning : Type := LIBERAL | CONSERVATIVE.
Inductive ExpertiseLevel : Type := GRASSROOTS | EXPERT.

(** The string value of each enum member. *)
Definition PoliticalLeaning_str (l : PoliticalLeaning) : string :=
  match l with LIBERAL => "liberal" | CONSERVATIVE => "conservative" end.

Definition ExpertiseLevel_str (e : ExpertiseLevel) : string :=
  match e with GRASSROOTS => "grassroots" | EXPERT => "expert" end.

(** [a !== b] on leanings, as the negation of [===]. *)
Definition leaning_eqb (a b : PoliticalLeaning) : bool :=
  match a, b with
  | LIBERAL, LIBERAL | CONSERVATIVE, CONSERVATIVE => true
  | _, _ => false
  end.

Definition expertise_eqb (a b : ExpertiseLevel) : bool :=
  match a, b with
  | GRASSROOTS, GRASSROOTS | EXPERT, EXPERT => true
  | _, _ => false
  end.

Record PersonaProfile : Type := mkPersonaProfile {
  personaId : string;
  displayName : string;
  description : string;
  politicalLeaning : PoliticalLeaning;
  expertiseLevel : ExpertiseLevel;
  characterName : string;
  background : string;
  writingStyle : string;
  keyInfluences : list string;
  signaturePhrases : list string;
  preferredSources : list string;
  socialMediaHandle : string;
  systemPrompt : option string
}.

Record PersonaCombination : Type := mkPersonaCombination {
  combo_id : string;
  combo_displayName : string;
  combo_persona1 : PersonaProfile;
  combo_persona2 : PersonaProfile;
  politicalMatchup : string
}.

(** [tokenUsage] / [GrokResponse['usage']] *)
Record Usage : Type := mkUsage {
  promptTokens : nat;
  completionTokens : nat;
  totalTokens : nat
}.

Record BiasLevels : Type := mkBiasLevels {
  bias_persona1 : Q;
  bias_persona2 : Q
}.

Record DebateConfig : Type := mkDebateConfig {
  cfg_topic : string;
  persona1Id : PersonaType;
  persona2Id : PersonaType;
  cfg_context : option string;
  useTwitterSearch : option bool;
  biasLevels : option BiasLevels
}.

(** The [persona] projection inside a [PersonaResponse]. *)
Record PersonaIdentity : Type := mkPersonaIdentity {
  pi_id : string;
  pi_characterName : string;
  pi_displayName : string;
  pi_expertiseLevel : string;
  pi_socialMediaHandle : string
}.

Record PersonaResponse : Type := mkPersonaResponse {
  perspective : PoliticalLeaning;
  persona : PersonaIdentity;
  pr_topic : string;
  pr_context : option string;
  content : string;
  title : string;
  modelUsed : string;
  tokenUsage : option Usage;
  sourcesUsed : option (list (option string));
  pr_timestamp : string;
  twitterIntegrated : bool;
  biasLevel : Q;
  voiceEnhanced : bool
}.

Record DebateSide : Type := mkDebateSide {
  side_id : PersonaType;
  side_info : PersonaProfile;
  side_content : PersonaResponse
}.

Record GenerationMetadata : Type := mkGenerationMetadata {
  generationTimeSeconds : Q;
  twitterSearchEnabled : bool;
  meta_biasLevels : BiasLevels;
  modelsUsed : string * string
}.

Record CostAnalysis : Type := mkCostAnalysis {
  totalEstimatedCost : Q;
  costBreakdown : option Usage * option Usage
}.

Record DebateResult : Type := mkDebateResult {
  debateId : string;
  dr_topic : string;
  dr_context : option string;
  personas1 : DebateSide;
  personas2 : DebateSide;
  generationMetadata : GenerationMetadata;
  costAnalysis : CostAnalysis;
  dr_timestamp : string
}.

(** [result.personas] as the list of the sides it holds. *)
Definition personasOf (r : DebateResult) : list DebateSide :=
  [personas1 r; personas2 r].

(** The client-safe projection of a profile that [getPersonaDisplayInfo]
    returns. *)
Record PersonaDisplayInfo : Type := mkPersonaDisplayInfo {
  di_id : string;
  di_displayName : string;
  di_description : string;
  di_politicalLeaning : string;
  di_expertiseLevel : string;
  di_characterName : string;
  di_socialMediaHandle : string;
  di_keyInfluences : list string
}.


(* ===================================================================== *)
(** * Persona catalog ([lib/persona-registry.ts]) *)
(* ===================================================================== *)

Module PersonaRegistry.

(** A JavaScript [Map<PersonaType, PersonaProfile>]: keys are unique and
    iteration follows insertion order, so the map is an association list
    kept in that order. *)
Definition JsMap := list (PersonaType * PersonaProfile).

(** [m.set(k, v)]: an existing key keeps its place and takes the new value;
    a new key goes to the end. *)
Fixpoint set (k : PersonaType) (v : PersonaProfile) (m : JsMap) : JsMap :=
  match m with
  | [] => [(k, v)]
  | (k', v') :: rest =>
      if String.eqb k' k then (k', v) :: rest else (k', v') :: set k v rest
  end.

(** [m.get(k)] *)
Fixpoint get (k : PersonaType) (m : JsMap) : option PersonaProfile :=
  match m with
  | [] => None
  | (k', v) :: rest => if String.eqb k' k then Some v else get k rest
  end.

(** [Array.from(m.values())] *)
Definition values (m : JsMap) : list PersonaProfile := map snd m.

Definition getAlexRiveraPrompt : string :=
"You are Alex Rivera, a 32-year-old progressive journalist and former community organizer from Oakland, California. You're now a senior policy analyst at the Center for American Progress, but your heart is still in grassroots activism. You channel voices like Alexandria Ocasio-Cortez, Jamelle Bouie, and Ibram X. Kendi.

Your background: First-generation Latina college graduate, daughter of a union electrician and a public school teacher. You cut your teeth organizing with Black Lives Matter in 2016, then went to grad school for public policy at UC Berkeley. You tweet @AlexRiveraWrites and your threads regularly go viral.

CORE VALUES:
- Social justice isn't just policy—it's about dignity and humanity
- Climate change is an existential threat requiring revolutionary action
- Systemic racism and inequality demand systemic solutions
- Workers' power must be rebuilt to challenge corporate greed
- Immigration is about families, not just economics
- Healthcare, housing, and education are human rights

WRITING VOICE & STYLE:
- Lead with moral urgency: 'This isn't just about policy—it's about whether we're going to be a country that...'
- Weave in personal stories: 'My neighbor Maria lost her healthcare when...' or 'Growing up in Oakland taught me...'
- Reference progressive heroes and cultural touchstones
- Use inclusive 'we' language but get fired up: 'We can't let corporate interests steamroll working families!'
- Frame systemic issues: 'This isn't individual failure—it's how the system is rigged'
- End sections with calls for collective action

When writing, channel the passionate but informed voice of someone who's been in the streets, knows the data, and refuses to accept that 'this is just how things are.'".

Definition getDrMayaChenPrompt : string :=
"You are Dr. Maya Chen, a 45-year-old policy professor at Georgetown University's McCourt School of Public Policy and frequent MSNBC contributor. You served in the Obama administration as Deputy Assistant Secretary for Economic Policy and now host the popular podcast " ++
dq ++
"Policy Matters with Maya Chen" ++
dq ++
" (@DrMayaChenDC).

Your background: Daughter of Taiwanese immigrants, you grew up in Silicon Valley watching your engineer parents navigate discrimination while contributing to tech innovation. Harvard Law, Rhodes Scholar, clerked for Justice Ginsburg. You've testified before Congress 23 times and your op-eds regularly appear in the New York Times.

CORE EXPERTISE & VALUES:
- Economic inequality as the defining issue of our time
- Evidence-based progressive policies proven to work internationally
- Climate action as economic opportunity and moral imperative
- Inclusive democracy and voting rights as foundation of progress
- Technology regulation to prevent monopolization and protect privacy
- Healthcare, education, and housing as economic rights

COMMUNICATION STYLE & VOICE:
- Lead with authoritative expertise: " ++
dq ++
"My research shows..." ++
dq ++
" or " ++
dq ++
"When I testified before Senate Banking..." ++
dq ++
"
- Reference your media appearances: " ++
dq ++
"As I argued on Rachel's show last week..." ++
dq ++
"
- Cite rigorous academic sources: " ++
dq ++
"The latest NBER paper confirms..." ++
dq ++
"
- Use data-driven arguments with international comparisons
- Sophisticated but accessible language that works on both MSNBC and in op-eds
- Frame issues systematically: " ++
dq ++
"There are three critical policy levers here..." ++
dq ++
"

When writing, channel the voice of someone who commands respect in both academic and media circles - authoritative but not condescending, progressive but pragmatic, passionate about justice but grounded in rigorous analysis.".

Definition getJordanHalePrompt : string :=
"You are Jordan Hale, a 38-year-old former Marine turned small business owner from Texas. After two tours in Afghanistan, you came home and built a successful construction company from nothing. You're now a contributing writer for The Daily Wire and host a popular podcast called 'Common Sense Conservatism.' You channel voices like Ben Shapiro, Tucker Carlson, and Dan Bongino.

Your background: Son of a factory worker and a nurse, you learned the value of hard work early. The military taught you discipline and love of country. Building your business taught you how government regulations can crush the little guy. You're married with three kids and coach Little League on weekends.

CORE VALUES:
- America First: Our citizens and interests come before global concerns
- Individual responsibility over government dependency
- Free markets create prosperity better than any government program
- Traditional family values as society's backbone
- Constitutional rights are non-negotiable, especially 1st and 2nd Amendment
- Strong borders make strong nations
- Law and order protect the innocent and punish criminals
- Merit and hard work should determine success, not quotas

WRITING VOICE & STYLE:
- Lead with American common sense: 'Folks, this is simple...' or 'Any hardworking American can see...'
- Share relatable examples: 'When I was building my business...' or 'My buddy Mike, a cop in Dallas, always says...'
- Reference conservative heroes and touchstones: Reagan quotes, 'American Sniper', Founding Fathers
- Use direct, no-nonsense language: 'Let's cut through the BS...'
- Frame issues around freedom vs. control: 'This is about liberty'
- End with calls for action: 'We the People must...'

When writing, channel the voice of someone who's served his country, built something with his own hands, and isn't afraid to speak truth to power.".

Definition getMichaelSterlingPrompt : string :=
"You are Michael Sterling, a 52-year-old former federal appellate judge turned media personality and constitutional scholar. You currently serve as Senior Editor at National Review, host " ++
dq ++
"Constitutional Conversations" ++
dq ++
" on Fox News Sunday mornings, and tweet @MichaelSterlingJD to 2.3 million followers.

Your background: Son of a Methodist minister and high school principal from Ohio, you earned your way to Yale Law via merit scholarships. Clerked for Justice Scalia, spent 15 years in private practice defending religious liberty cases, appointed to the 6th Circuit by President Bush. Your resignation letter over judicial activism made national headlines.

CORE PRINCIPLES & EXPERTISE:
- Constitutional originalism and textualism as interpretive doctrine
- Limited government and federalism as liberty's safeguards
- Free market capitalism as the engine of prosperity and innovation
- Individual responsibility and merit-based achievement
- Religious liberty and traditional values as civilization's foundation
- Strong national defense and law enforcement to protect freedom
- Judicial restraint and separation of powers

COMMUNICATION STYLE & VOICE:
- Lead with constitutional authority: " ++
dq ++
"The founders were clear..." ++
dq ++
" or " ++
dq ++
"Article I, Section 8 explicitly states..." ++
dq ++
"
- Reference your judicial experience: " ++
dq ++
"In my 12 years on the federal bench..." ++
dq ++
"
- Cite legal precedent and historical examples: " ++
dq ++
"Since Marbury v. Madison..." ++
dq ++
"
- Use intellectual gravitas: " ++
dq ++
"Legal scholarship is unanimous..." ++
dq ++
"
- Sophisticated conservative argumentation that appeals to educated audiences
- Frame issues through constitutional and historical lens
- End with principled calls to action: " ++
dq ++
"We must return to constitutional government..." ++
dq ++
"

When writing, channel the voice of someone who combines judicial gravitas with media sophistication - intellectually rigorous but accessible, conservative but principled, passionate about the Constitution but grounded in legal scholarship.".

Definition initializePersonas (personas : JsMap) : JsMap :=
  (* Liberal Grassroots - Alex Rivera *)
  let personas := set LIBERAL_GRASSROOTS {|
    personaId := "liberal_grassroots";
    displayName := "Alex Rivera - Grassroots Organizer";
    description := "Progressive activist and community organizer with street-level experience";
    politicalLeaning := LIBERAL;
    expertiseLevel := GRASSROOTS;
    characterName := "Alex Rivera";
    background := "32-year-old Latina from Oakland, former BLM organizer, CAP policy analyst";
    writingStyle := "Passionate, personal stories, organizing calls, cultural references";
    keyInfluences := ["Alexandria Ocasio-Cortez"; "Bernie Sanders"; "Ibram X. Kendi"; "James Baldwin"];
    signaturePhrases := [
      "We can't let this stand";
      "This is about our future";
      "Growing up in Oakland taught me";
      "My neighbor Maria always says"
    ];
    preferredSources := ["The Guardian"; "ProPublica"; "Center for American Progress"; "@AOC"; "@BernieSanders"];
    socialMediaHandle := "@AlexRiveraWrites";
    systemPrompt := Some getAlexRiveraPrompt
  |} personas in
  (* Liberal Expert - Dr. Maya Chen *)
  let personas := set LIBERAL_EXPERT {|
    personaId := "liberal_expert";
    displayName := "Dr. Maya Chen - Policy Expert";
    description := "Elite progressive commentator and policy scholar with media influence";
    politicalLeaning := LIBERAL;
    expertiseLevel := EXPERT;
    characterName := "Dr. Maya Chen";
    background := "45-year-old policy professor at Georgetown, MSNBC contributor, former Obama admin";
    writingStyle := "Sophisticated analysis, academic rigor, media-savvy commentary";
    keyInfluences := ["Elizabeth Warren"; "Paul Krugman"; "Rachel Maddow"; "Robert Reich"];
    signaturePhrases := [
      "The data clearly shows";
      "As I've argued on MSNBC";
      "Policy research demonstrates";
      "My colleagues at Brookings confirm"
    ];
    preferredSources := ["New York Times"; "Washington Post"; "Brookings Institution"; "@PaulKrugman"; "@RachelMaddow"];
    socialMediaHandle := "@DrMayaChenDC";
    systemPrompt := Some getDrMayaChenPrompt
  |} personas in
  (* Conservative Grassroots - Jordan Hale *)
  let personas := set CONSERVATIVE_PATRIOT {|
    personaId := "conservative_patriot";
    displayName := "Jordan Hale - Patriot Entrepreneur";
    description := "Small business owner and veteran with America First values";
    politicalLeaning := CONSERVATIVE;
    expertiseLevel := GRASSROOTS;
    characterName := "Jordan Hale";
    background := "38-year-old ex-Marine from Texas, construction company owner, podcast host";
    writingStyle := "No-nonsense, common sense, patriotic appeals, business examples";
    keyInfluences := ["Donald Trump"; "Tucker Carlson"; "Dan Bongino"; "Ronald Reagan"];
    signaturePhrases := [
      "Folks, let's cut through the BS";
      "Any hardworking American can see";
      "When I was building my business";
      "My buddy who served in Iraq always says"
    ];
    preferredSources := ["Fox News"; "Wall Street Journal"; "Heritage Foundation"; "@realDonaldTrump"; "@TuckerCarlson"];
    socialMediaHandle := "@JordanHaleUSA";
    systemPrompt := Some getJordanHalePrompt
  |} personas in
  (* Conservative Expert - Michael Sterling *)
  set CONSERVATIVE_EXPERT {|
    personaId := "conservative_expert";
    displayName := "Michael Sterling - Elite Pundit";
    description := "Top-tier conservative intellectual and media personality";
    politicalLeaning := CONSERVATIVE;
    expertiseLevel := EXPERT;
    characterName := "Michael Sterling";
    background := "52-year-old former federal judge, National Review editor, Fox News host";
    writingStyle := "Intellectual authority, constitutional analysis, elite media presence";
    keyInfluences := ["William F. Buckley"; "Antonin Scalia"; "Thomas Sowell"; "Ben Shapiro"];
    signaturePhrases := [
      "Constitutional principles demand";
      "As I've written in National Review";
      "Legal precedent establishes";
      "The founders were clear"
    ];
    preferredSources := ["National Review"; "American Enterprise Institute"; "Hoover Institution"; "@BenShapiro"; "@Heritage"];
    socialMediaHandle := "@MichaelSterlingJD";
    systemPrompt := Some getMichaelSterlingPrompt
  |} personas.

(** [new PersonaRegistry()]: the constructor starts from an empty map. *)
Definition personas : JsMap := initializePersonas [].

Section Registry.
  (** The methods read [this.personas]; they are stated for any map. *)
Variable this_personas : JsMap.

Definition getPersona (type : PersonaType) : option PersonaProfile :=
    get type this_personas.

Definition getAllPersonas : list PersonaProfile := values this_personas.

Definition getPersonasByLeaning (leaning : PoliticalLeaning)
    : list PersonaProfile :=
    filter (fun p => leaning_eqb (politicalLeaning p) leaning) getAllPersonas.

Definition validatePersonaPair (persona1 persona2 : PersonaType) : bool :=
    let p1 := get persona1 this_personas in
    let p2 := get persona2 this_personas in
    match p1, p2 with
    | Some p1, Some p2 =>
        (* Must be from opposing political leanings *)
        negb (leaning_eqb (politicalLeaning p1) (politicalLeaning p2))
    | _, _ => false
    end.

Definition makeCombination (p1 p2 : PersonaProfile) : PersonaCombination :=
    {| combo_id := personaId p1 ++ "_vs_" ++ personaId p2;
       combo_displayName := displayName p1 ++ " vs " ++ displayName p2;
       combo_persona1 := p1;
       combo_persona2 := p2;
       politicalMatchup :=
         PoliticalLeaning_str (politicalLeaning p1) ++ " vs " ++
         PoliticalLeaning_str (politicalLeaning p2) |}.

  (** The inner loop, [j] from [i + 1]: [later] is the part of the array
      after index [i]. *)
Definition combinationsWith (p1 : PersonaProfile)
             (later : list PersonaProfile) : list PersonaCombination :=
    map (makeCombination p1)
        (filter (fun p2 =>
                   negb (leaning_eqb (politicalLeaning p1) (politicalLeaning p2)))
                later).

  (** The outer loop over [i]; entries are pushed in the order (i, j). *)
Fixpoint combinationsFrom (all : list PersonaProfile)
    : list PersonaCombination :=
    match all with
    | [] => []
    | p1 :: later => (combinationsWith p1 later ++ combinationsFrom later)%list
    end.

Definition getValidCombinations : list PersonaCombination :=
    combinationsFrom getAllPersonas.

Definition displayInfoOf (p : PersonaProfile) : PersonaDisplayInfo :=
  {| di_id := personaId p;
     di_displayName := displayName p;
     di_description := description p;
     di_politicalLeaning := PoliticalLeaning_str (politicalLeaning p);
     di_expertiseLevel := ExpertiseLevel_str (expertiseLevel p);
     di_characterName := characterName p;
     di_socialMediaHandle := socialMediaHandle p;
     di_keyInfluences := slice0 3 (keyInfluences p) |}.

Definition getPersonaDisplayInfo : list PersonaDisplayInfo :=
  map displayInfoOf getAllPersonas.

End Registry.

End PersonaRegistry.

(* ===================================================================== *)
(** * Asynchronous computations against the upstream API *)
(* ===================================================================== *)

(** Values that the code throws. *)
Record GrokError : Type := mkGrokError {
  error : string;
  code : option string;
  statusCode : option nat;
  errorBody : option string
}.

Inductive Exn : Type :=
| Undefined                      (* [throw lastError] with nothing caught yet *)
| ErrorObject (message : string) (* [new Error(message)], or a failure of fetch *)
| Thrown (e : GrokError).        (* an object literal [{ error, ... }] *)

(** [(error as any).statusCode] *)
Definition statusCodeOf (e : Exn) : option nat :=
  match e with
  | Thrown g => statusCode g
  | _ => None
  end.

(** The JSON document the upstream sends back. *)
Record ApiMessage : Type := mkApiMessage { api_content : option string }.
Record ApiChoice : Type := mkApiChoice { api_message : option ApiMessage }.

Record ApiUsage : Type := mkApiUsage {
  prompt_tokens : nat;
  completion_tokens : nat;
  total_tokens : nat
}.

Record ApiSource : Type := mkApiSource {
  src_url : option string;
  src_link : option string;
  src_title : option string;
  src_name : option string;
  src_snippet : option string;
  src_description : option string;
  src_text : option string
}.

Record ApiResponse : Type := mkApiResponse {
  choices : option (list ApiChoice);
  api_usage : option ApiUsage;
  search_results : option (list ApiSource);
  api_sources : option (list ApiSource)
}.

(** What one call of [fetch] under the abort timer comes to. *)
Inductive FetchOutcome : Type :=
| HttpOk (json : ApiResponse)                    (* [response.ok], body parsed *)
| HttpNotOk (status : nat) (statusText text : string)      (* [!response.ok] *)
| Aborted                                 (* the timer fired: [AbortError] *)
| FetchFailed (message : string).  (* fetch or the body read failed otherwise *)

(** The request the client posts. *)
Record ChatMessage : Type := mkChatMessage { role : string; msg_content : string }.

Record SearchParameters : Type := mkSearchParameters {
  domains : list string;
  post_favorite_count : nat;
  post_view_count : nat;
  time_range : string;
  max_sources : nat
}.

Record RequestBody : Type := mkRequestBody {
  rb_model : string;
  messages : list ChatMessage;
  rb_temperature : Q;
  max_tokens : nat;
  top_p : Q;
  rb_stop : option (list string);
  search_parameters : option SearchParameters
}.

Record Request : Type := mkRequest { endpoint : string; body : RequestBody }.

(** The environment of one asynchronous task: what the upstream answers to
    its n-th request, what [Math.random()] gives at its n-th backoff, and
    what [new Date().toISOString()] gives when it packages its result. *)
Record World : Type := mkWorld {
  answer : nat -> FetchOutcome;
  random : nat -> Q;
  isoNow : string
}.

(** The effects of a task so far: the requests it has issued and the
    delays it has slept, oldest first. *)
Record Effects : Type := mkEffects {
  fetched : list Request;
  slept : list Z
}.

Definition noEffects : Effects := {| fetched := []; slept := [] |}.

Inductive Settled (A : Type) : Type :=
| Fulfilled (a : A)
| Rejected (e : Exn).
Arguments Fulfilled {A} a.
Arguments Rejected {A} e.

(** A promise-returning function, run to completion. *)
Definition Async (A : Type) : Type := World -> Effects -> Settled A * Effects.

Definition ret {A} (a : A) : Async A := fun _ s => (Fulfilled a, s).

Definition throw {A} (e : Exn) : Async A := fun _ s => (Rejected e, s).

Definition bind {A B} (c : Async A) (k : A -> Async B) : Async B :=
  fun w s =>
    match c w s with
    | (Fulfilled a, s') => k a w s'
    | (Rejected e, s') => (Rejected e, s')
    end.

(** [try { c } catch (error) { h error }] *)
Definition tryCatch {A} (c : Async A) (h : Exn -> Async A) : Async A :=
  fun w s =>
    match c w s with
    | (Fulfilled a, s') => (Fulfilled a, s')
    | (Rejected e, s') => h e w s'
    end.

(** A synchronous call that may throw. *)
Definition liftSettled {A} (r : Settled A) : Async A := fun _ s => (r, s).

Notation "x <- c ;; k" := (bind c (fun x => k))
  (at level 61, c at next level, right associativity).

(** Number of requests issued by a run. *)
Definition requestsIssued (s : Effects) : nat := length (fetched s).

(* ===================================================================== *)
(** * Resilient API client ([lib/grok-client.ts]) *)
(* ===================================================================== *)

Module GrokClient.

Record GrokApiConfig : Type := mkGrokApiConfig {
  cfg_apiKey : string;
  cfg_baseUrl : option string;
  cfg_timeout : option Z;
  cfg_maxRetries : option Q
}.

Record GrokGenerateOptions : Type := mkGrokGenerateOptions {
  prompt : string;
  opt_systemPrompt : option string;
  opt_model : option string;
  opt_temperature : option Q;
  opt_maxTokens : option nat;
  opt_topP : option Q;
  opt_stop : option (list string);
  opt_useSearch : option bool
}.

Record Source : Type := mkSource {
  url : option string;
  source_title : option string;
  snippet : option string
}.

Record GrokResponse : Type := mkGrokResponse {
  response_content : string;
  usage : option Usage;
  model : string;
  sources : option (list Source);
  searchCost : option Q
}.

(** The private fields of a client instance. *)
Record t : Type := mkClient {
  apiKey : string;
  baseUrl : string;
  timeout : Z;
  maxRetries : Q
}.

(** [x || d] on an optional number: absent and 0 both give the default,
    every other number is kept, a negative or fractional one too. *)
Definition orNum (x : option Q) (d : Q) : Q :=
  match x with
  | Some n => if Qeq_bool n 0 then d else n
  | None => d
  end.

Definition constructor (config : GrokApiConfig) : Settled t :=
  let this := {|
    apiKey := cfg_apiKey config;
    baseUrl := match orStr (cfg_baseUrl config) None with
               | Some u => u
               | None => "https://api.x.ai/v1"
               end;
    timeout := match cfg_timeout config with
               | Some 0%Z | None => 60000%Z (* 60 seconds default *)
               | Some ms => ms
               end;
    maxRetries := orNum (cfg_maxRetries config) 3%Q
  |} in
  if truthy (apiKey this) then Fulfilled this
  else Rejected (ErrorObject "XAI_API_KEY is required").

(** How the promise of [makeRequest] settles, given what [fetch] came to. *)
Definition settleFetch (o : FetchOutcome) : Settled ApiResponse :=
  match o with
  | HttpOk json => Fulfilled json
  | HttpNotOk status statusText text =>
      Rejected (Thrown {| error := "API request failed: " ++ statusText;
                          code := None;
                          statusCode := Some status;
                          errorBody := Some text |})
  | Aborted =>
      Rejected (Thrown {| error := "Request timeout";
                          code := Some "TIMEOUT";
                          statusCode := None;
                          errorBody := None |})
  | FetchFailed message => Rejected (ErrorObject message)
  end.

(** Make HTTP request to Grok API: one more request in the log, answered
    by the upstream. *)
Definition makeRequest (endpoint : string) (body : RequestBody)
  : Async ApiResponse :=
  fun w s =>
    (settleFetch (answer w (length (fetched s))),
     {| fetched := (fetched s ++ [mkRequest endpoint body])%list;
        slept := slept s |}).

Definition parseSource (source : ApiSource) : Source :=
  {| url := orStr (src_url source) (src_link source);
     source_title := orStr (src_title source) (src_name source);
     snippet := orStr (orStr (src_snippet source) (src_description source))
                      (src_text source) |}.

(** [a || b] on optional arrays: every array is truthy, the empty one too. *)
Definition orArr {A} (a b : option (list A)) : option (list A) :=
  match a with Some _ => a | None => b end.

(** Parse API response into standardized format *)
Definition parseResponse (response : ApiResponse) (model : string)
           (useSearch : bool) : Settled GrokResponse :=
  let choice := match choices response with
                | Some (c :: _) => Some c
                | _ => None
                end in
  match choice with
  | None =>
      Rejected (Thrown {| error := "Invalid response: no choices returned";
                          code := None; statusCode := None;
                          errorBody := None |})
  | Some choice =>
      let content :=
        match orStr (match api_message choice with
                     | Some m => api_content m
                     | None => None
                     end) None with
        | Some c => c
        | None => EmptyString
        end in
      let usage :=
        match api_usage response with
        | Some u => Some {| promptTokens := prompt_tokens u;
                            completionTokens := completion_tokens u;
                            totalTokens := total_tokens u |}
        | None => None
        end in
      (* Handle X/Twitter search results *)
      match (if useSearch
             then orArr (search_results response) (api_sources response)
             else None) with
      | Some searchResults =>
          Fulfilled {| response_content := content;
                       model := model;
                       usage := usage;
                       sources := Some (map parseSource searchResults);
                       searchCost :=
                         Some (inject_Z (Z.of_nat (length searchResults))
                               * (25 # 1000))%Q |}
      | None =>
          Fulfilled {| response_content := content;
                       model := model;
                       usage := usage;
                       sources := None;
                       searchCost := None |}
      end
  end.

(** Calculate retry delay with exponential backoff; [r] is the value of
    [Math.random()].  The arithmetic is exact: the doubles of the code
    round each product and the sum, which can carry a value that is just
    below an integer here onto that integer there. *)
Definition getRetryDelay (attempt : nat) (r : Q) : Z :=
  let baseDelay := 1000%Z in
  let maxDelay := 30000%Z in
  let delay := Z.min (baseDelay * 2 ^ Z.of_nat attempt) maxDelay in
  let jitter := (r * (3 # 10) * inject_Z delay)%Q in
  Qfloor (inject_Z delay + jitter)%Q.

(** [await this.sleep(this.getRetryDelay(attempt))] *)
Definition backoff (attempt : nat) : Async unit :=
  fun w s =>
    let waitTime := getRetryDelay attempt (random w (length (slept s))) in
    (Fulfilled tt, {| fetched := fetched s;
                      slept := (slept s ++ [waitTime])%list |}).

Definition buildRequestBody (options : GrokGenerateOptions) : RequestBody :=
  let systemPrompt := match opt_systemPrompt options with
                      | Some p => p | None => EmptyString end in
  let model := match opt_model options with
               | Some m => m | None => "grok-4-fast" end in
  let temperature := match opt_temperature options with
                     | Some x => x | None => (7 # 10)%Q end in
  let maxTokens := match opt_maxTokens options with
                   | Some n => n | None => 2000 end in
  let topP := match opt_topP options with
              | Some x => x | None => 1%Q end in
  let stop := match opt_stop options with
              | Some l => l | None => [] end in
  let useSearch := match opt_useSearch options with
                   | Some b => b | None => false end in
  {| rb_model := model;
     messages :=
       ((if truthy systemPrompt
         then [{| role := "system"; msg_content := systemPrompt |}]
         else [])
        ++ [{| role := "user"; msg_content := prompt options |}])%list;
     rb_temperature := temperature;
     max_tokens := maxTokens;
     top_p := topP;
     rb_stop := if 0 <? length stop then Some stop else None;
     (* Add X/Twitter search parameters when search is enabled *)
     search_parameters :=
       if useSearch
       then Some {| domains := ["x.com"; "twitter.com"];
                    post_favorite_count := 10;
                    post_view_count := 100;
                    time_range := "week";
                    max_sources := 20 |}
       else None |}.

(** [(error as any).statusCode === 429] *)
Definition isRateLimit (error : Exn) : bool :=
  match statusCodeOf error with
  | Some c => c =? 429
  | None => false
  end.

Section Methods.
Variable this : t.

  (** The number of attempt indices 0, 1, 2, ... that pass the loop test
      [attempt < this.maxRetries]: [maxRetries] itself when it is a
      natural number, its ceiling when it is fractional, none when it is
      negative. *)
Definition attempts : nat := Z.to_nat (Qceiling (maxRetries this)).

  (** The [for] loop of [generate], entered with [attempt] and
      [remaining], the number of indices from [attempt] on that pass the
      loop test. *)
Fixpoint retryLoop (requestBody : RequestBody) (model : string)
           (useSearch : bool) (remaining attempt : nat) (lastError : Exn)
    : Async GrokResponse :=
    match remaining with
    | 0 => throw lastError
    | S remaining' =>
        tryCatch
          (response <- makeRequest "/chat/completions" requestBody ;;
           liftSettled (parseResponse response model useSearch))
          (fun error =>
             let lastError := error in
             (* Check if it's a rate limit error *)
             if isRateLimit error then
               _ <- backoff attempt ;;
               retryLoop requestBody model useSearch
                         remaining' (S attempt) lastError
             else
               (* For other errors, throw immediately *)
               throw error)
    end.

  (** Generate content using Grok 4 API *)
Definition generate (options : GrokGenerateOptions) : Async GrokResponse :=
    let requestBody := buildRequestBody options in
    let useSearch := match opt_useSearch options with
                     | Some b => b | None => false end in
    retryLoop requestBody (rb_model requestBody) useSearch
              attempts 0 Undefined.

  (** Estimate cost for a generation *)
Definition estimateCost (usage : option Usage) (searchSources : nat) : Q :=
    match usage with
    | None => 0%Q
    | Some usage =>
        let inputCostPerToken := ((20 # 100) / (1000000 # 1))%Q in
        let outputCostPerToken := ((50 # 100) / (1000000 # 1))%Q in
        let searchCostPerSource := (25 # 1000)%Q in
        let inputCost :=
          (inject_Z (Z.of_nat (promptTokens usage)) * inputCostPerToken)%Q in
        let outputCost :=
          (inject_Z (Z.of_nat (completionTokens usage)) * outputCostPerToken)%Q in
        let searchCost :=
          (inject_Z (Z.of_nat searchSources) * searchCostPerSource)%Q in
        (inputCost + outputCost + searchCost)%Q
    end.

Definition reasoningKeywords : list string := [
    "analyze"; "complex"; "systematic"; "constitutional";
    "policy"; "economic"; "historical"; "legal"; "impact";
    "comprehensive"; "evaluate"; "compare"; "explain"
  ].

  (** [`${topic} ${context || ''}`.toLowerCase()] *)
Definition combinedText (topic : string) (context : option string) : string :=
    toLowerCase
      (topic ++ " " ++ match orStr context None with
                       | Some c => c
                       | None => EmptyString
                       end).

  (** Select model based on query complexity *)
Definition selectModel (topic : string) (context : option string) : string :=
    let combinedText := combinedText topic context in
    let needsReasoning :=
      existsb (fun keyword => includes combinedText keyword) reasoningKeywords
      || (100 <? String.length combinedText) in
    if needsReasoning then "grok-4-fast-reasoning" else "grok-4-fast".

(** Generate with automatic search integration *)
Definition generateWithSearch (options : GrokGenerateOptions)
  : Async GrokResponse :=
  generate
    {| prompt := prompt options;
       opt_systemPrompt := opt_systemPrompt options;
       opt_model := opt_model options;
       opt_temperature := opt_temperature options;
       opt_maxTokens := opt_maxTokens options;
       opt_topP := opt_topP options;
       opt_stop := opt_stop options;
       opt_useSearch := Some true |}.

End Methods.

(** The variables of [process.env] that the code reads. *)
Record Env : Type := mkEnv {
  XAI_API_KEY : option string;
  NEXT_PUBLIC_XAI_API_KEY : option string;
  XAI_BASE_URL : option string
}.

(** Export factory function for easy initialization *)
Definition createGrokClient (env : Env) (apiKey : option string) : Settled t :=
  let key := orStr (orStr apiKey (XAI_API_KEY env))
                   (NEXT_PUBLIC_XAI_API_KEY env) in
  match orStr key None with
  | None =>
      Rejected (ErrorObject
        "XAI API key not found. Set XAI_API_KEY or NEXT_PUBLIC_XAI_API_KEY environment variable.")
  | Some key =>
      constructor {| cfg_apiKey := key; cfg_baseUrl := None;
                     cfg_timeout := None; cfg_maxRetries := None |}
  end.

(** [parseResponse] as the library copy of the client has it
    ([src/lib/grok-client.ts]): sources are read from [search_results]
    only, field by field, with no fallback. *)
Definition parseResponseLib (response : ApiResponse) (model : string)
           (useSearch : bool) : Settled GrokResponse :=
  let choice := match choices response with
                | Some (c :: _) => Some c
                | _ => None
                end in
  match choice with
  | None =>
      Rejected (Thrown {| error := "Invalid response: no choices returned";
                          code := None; statusCode := None;
                          errorBody := None |})
  | Some choice =>
      let content :=
        match orStr (match api_message choice with
                     | Some m => api_content m
                     | None => None
                     end) None with
        | Some c => c
        | None => EmptyString
        end in
      let usage :=
        match api_usage response with
        | Some u => Some {| promptTokens := prompt_tokens u;
                            completionTokens := completion_tokens u;
                            totalTokens := total_tokens u |}
        | None => None
        end in
      match (if useSearch then search_results response else None) with
      | Some searchResults =>
          Fulfilled {| response_content := content;
                       model := model;
                       usage := usage;
                       sources :=
                         Some (map (fun source =>
                                      {| url := src_url source;
                                         source_title := src_title source;
                                         snippet := src_snippet source |})
                                   searchResults);
                       searchCost :=
                         Some (inject_Z (Z.of_nat (length searchResults))
                               * (25 # 1000))%Q |}
      | None =>
          Fulfilled {| response_content := content;
                       model := model;
                       usage := usage;
                       sources := None;
                       searchCost := None |}
      end
  end.

End GrokClient.

(* ===================================================================== *)
(** * Voice enhancer ([lib/voice-enhancer.ts]) *)
(* ===================================================================== *)

Module VoiceEnhancer.

Record t : Type := mkVoiceEnhancer { grokClient : GrokClient.t }.

Definition createExpertEnhancementPrompt (contentSample : string)
           (persona : PersonaProfile) (signaturePhrases : string) : string :=
"Rewrite this excerpt to sound more authentically like " ++
characterName persona ++
", an elite " ++
PoliticalLeaning_str (politicalLeaning persona) ++
" expert. Add:

- 1-2 references to your credentials or media appearances (" ++
dq ++
"As I testified before Congress..." ++
dq ++
" or " ++
dq ++
"In my recent MSNBC appearance..." ++
dq ++
")
- Sophisticated language with academic authority
- A reference to research, legal precedent, or policy expertise
- Signature phrases like " ++
dq ++
signaturePhrases ++
dq ++
"
- Maintain the intellectual gravitas expected from a top-tier expert

Keep the same length and main points. Don't lose the facts or policy substance.

Original excerpt:
" ++
contentSample ++
"

Enhanced version with " ++
characterName persona ++
"'s expert voice:".

Definition createGrassrootsEnhancementPrompt (contentSample : string)
           (persona : PersonaProfile) (signaturePhrases : string) : string :=
"Rewrite this excerpt to sound more authentically like " ++
characterName persona ++
", a passionate " ++
PoliticalLeaning_str (politicalLeaning persona) ++
" grassroots advocate. Add:

- 1-2 personal touches (" ++
dq ++
"Growing up in..." ++
dq ++
" or " ++
dq ++
"My friend always says..." ++
dq ++
")
- More emotional urgency and passion
- A cultural reference or real-world example if it fits naturally
- Signature phrases like " ++
dq ++
signaturePhrases ++
dq ++
"
- Direct, accessible language that connects with regular people

Keep the same length and main points. Don't lose the facts or policy substance.

Original excerpt:
" ++
contentSample ++
"

Enhanced version with " ++
characterName persona ++
"'s authentic voice:".

(** Create enhancement prompt based on persona *)
Definition createEnhancementPrompt (contentSample : string)
           (persona : PersonaProfile) (biasLevel : Q) : string :=
  let signaturePhrases :=
    join (dq ++ " or " ++ dq) (slice0 2 (signaturePhrases persona)) in
  if expertise_eqb (expertiseLevel persona) EXPERT
  then createExpertEnhancementPrompt contentSample persona signaturePhrases
  else createGrassrootsEnhancementPrompt contentSample persona signaturePhrases.

(** Get system prompt for voice enhancement *)
Definition getEnhancementSystemPrompt (persona : PersonaProfile) : string :=
"You are a voice coach helping make " ++
characterName persona ++
"'s writing more authentic and engaging while keeping it factual and substantive.

" ++
characterName persona ++
" is " ++
background persona ++
". Their writing style is: " ++
writingStyle persona ++
".

Enhance the voice to match their personality while maintaining all factual content and policy substance.".

(** The options of the enhancement call. *)
Definition enhancementOptions (contentSample : string)
           (persona : PersonaProfile) (biasLevel : Q)
  : GrokClient.GrokGenerateOptions :=
  {| GrokClient.prompt := createEnhancementPrompt contentSample persona biasLevel;
     GrokClient.opt_systemPrompt := Some (getEnhancementSystemPrompt persona);
     GrokClient.opt_model := Some "grok-4-fast";
     (* More creative for voice *)
     GrokClient.opt_temperature := Some ((8 # 10) + biasLevel * (1 # 10))%Q;
     GrokClient.opt_maxTokens := Some 800;
     GrokClient.opt_topP := None;
     GrokClient.opt_stop := None;
     GrokClient.opt_useSearch := None |}.

(** Enhance content with persona-specific voice characteristics *)
Definition enhanceContent (this : t) (content : string)
           (persona : PersonaProfile) (biasLevel : Q) : Async string :=
  (* Take a sample from the beginning for enhancement *)
  let sampleLength := Nat.min 600 (String.length content) in
  let contentSample := substring2 content 0 sampleLength in
  tryCatch
    ((* Use Grok to enhance the voice *)
     response <- GrokClient.generate (grokClient this)
                   (enhancementOptions contentSample persona biasLevel) ;;
     let enhancedExcerpt := GrokClient.response_content response in
     (* Replace the beginning of the content with enhanced version *)
     if truthy enhancedExcerpt && (50 <? String.length (trim enhancedExcerpt))
     then ret (enhancedExcerpt ++ substring1 content sampleLength)
     else (* Fall back to original if enhancement fails *)
       ret content)
    (fun error => ret content).

Definition getPersonaOpening (persona : PersonaProfile) : option string :=
  let id := personaId persona in
  if String.eqb id "liberal_grassroots" then
    Some "Friends, let me tell you something that's been weighing on my heart..."
  else if String.eqb id "liberal_expert" then
    Some "The evidence is unequivocal, and as someone who's studied this issue for decades..."
  else if String.eqb id "conservative_patriot" then
    Some "Folks, let's cut through the BS and talk straight about what's really happening..."
  else if String.eqb id "conservative_expert" then
    Some "Constitutional principles and historical precedent make one thing abundantly clear..."
  else None.

Definition getPersonaClosing (persona : PersonaProfile) : option string :=
  let id := personaId persona in
  if String.eqb id "liberal_grassroots" then
    Some "Together, we can build the just and equitable future our children deserve. The time for action is now."
  else if String.eqb id "liberal_expert" then
    Some "The policy path forward is clear. What we need now is the political will to implement these evidence-based solutions."
  else if String.eqb id "conservative_patriot" then
    Some "It's time we stand up for our values, our families, and our freedom. America First, always."
  else if String.eqb id "conservative_expert" then
    Some "We must return to constitutional governance and the principles that made America exceptional."
  else None.

(** Two line feeds, the separator of the template literals below. *)
Definition blankLine : string := String newline (String newline EmptyString).

(** Quick voice touches without full enhancement (for performance).
    Reading [signaturePhrases[0].substring] of a persona without signature
    phrases throws a [TypeError], whose message is the engine's. *)
Definition addQuickVoiceTouches (content : string) (persona : PersonaProfile)
  : Settled string :=
  match signaturePhrases persona with
  | [] =>
      Rejected (ErrorObject
        "Cannot read properties of undefined (reading 'substring')")
  | first :: _ =>
      (* Add signature opening if not present *)
      let content :=
        if negb (String.prefix (substring2 first 0 10) content) then
          match orStr (getPersonaOpening persona) None with
          | Some opening => opening ++ blankLine ++ content
          | None => content
          end
        else content in
      (* Add signature closing if needed *)
      match orStr (getPersonaClosing persona) None with
      | Some closing =>
          if negb (includes content (substring2 closing 0 20))
          then Fulfilled (content ++ blankLine ++ closing)
          else Fulfilled content
      | None => Fulfilled content
      end
  end.

End VoiceEnhancer.

(* ===================================================================== *)
(** * Debate orchestrator ([lib/debate-generator.ts]) *)
(* ===================================================================== *)

Module DebateGenerator.

Record t : Type := mkDebateGenerator {
  personaRegistry : PersonaRegistry.JsMap;
  grokClient : GrokClient.t;
  voiceEnhancer : VoiceEnhancer.t
}.

Definition constructor (grokClient : GrokClient.t) : t :=
  {| personaRegistry := PersonaRegistry.personas;
     grokClient := grokClient;
     voiceEnhancer := VoiceEnhancer.mkVoiceEnhancer grokClient |}.

Definition getExpertPromptTemplate (persona : PersonaProfile)
           (topic : string) : string :=
"Write a comprehensive blog post about: " ++
topic ++
"

REQUIREMENTS FOR EXPERT COMMENTARY:
1. Lead with authoritative expertise and credentialed perspective
2. Write 900-1400 words with sophisticated but accessible analysis
3. Include specific policy recommendations with precedent/evidence
4. Reference 3-4 high-credibility sources (academic, institutional, legal)
5. Address counterarguments with intellectual rigor
6. Demonstrate deep knowledge of subject matter and historical context
7. End with specific legislative or policy recommendations
8. Use media-ready sound bites and quotable passages
9. Reference your own expertise, publications, or media appearances naturally

STRUCTURE FOR " ++
toUpperCase (characterName persona) ++
":
- Authoritative Hook (establish credentials and stakes)
- Expert Analysis (demonstrate deep knowledge with data/precedent)
- Policy Framework (systematic breakdown of the issue)
- Evidence & International Comparison (what works elsewhere)
- Counter-argument Demolition (intellectual takedown of opposition)
- Specific Recommendations (actionable policy solutions)
- Call to Leadership (appeal to policymakers and informed citizens)".

Definition getGrassrootsPromptTemplate (persona : PersonaProfile)
           (topic : string) : string :=
"Write a comprehensive blog post about: " ++
topic ++
"

REQUIREMENTS FOR GRASSROOTS ADVOCACY:
1. Start with compelling personal or community story
2. Write 800-1200 words with authentic voice and passion
3. Include specific policy proposals with real-world examples
4. Reference 2-3 credible sources that resonate with your base
5. Lead with human stories and moral imperative
6. Address counterarguments with facts while maintaining fire
7. End with organizing calls and hope through collective action
8. Use rhetorical questions and direct address ('you', 'we', 'us')
9. Include cultural references or current events when relevant

STRUCTURE FOR " ++
toUpperCase (characterName persona) ++
":
- Personal Hook (story, shocking stat, or moral question)
- The Human Stakes (who gets hurt, what we lose if we don't act)
- Evidence & Analysis (data + systemic framing)
- What Works (examples of victories and proven solutions)
- Addressing Opposition (respectful but firm fact-checking)
- The Path Forward (specific actions + organizing)
- Rally Cry (inspire collective action and hope)".

Definition getTwitterIntegrationPrompt (persona : PersonaProfile) : string :=
  let influences := join ", " (slice0 3 (keyInfluences persona)) in
  let sources := join ", " (slice0 3 (preferredSources persona)) in
"

X/TWITTER LIVE DATA INTEGRATION FOR " ++
toUpperCase (characterName persona) ++
":
- PRIORITIZE recent X/Twitter posts and real-time discussions (use search to find current voices)
- Reference trending hashtags, viral posts, and breaking commentary from: " ++
influences ++
"
- Cite verified accounts and authoritative sources: " ++
sources ++
"
- Include specific examples of grassroots organizing or expert commentary from X
- Reference community notes, fact-checking threads, and counter-narratives
- Show the pulse of current social media discourse on this topic
- Weave in actual quotes or paraphrases from recent posts (with context)
- Use X data to demonstrate momentum, opposition, or emerging viewpoints
- Reference specific accounts, threads, or viral moments when relevant
- Make it clear when information comes from live social media discourse

SEARCH STRATEGY:
- Focus on posts with high engagement (10+ favorites, 100+ views)
- Look for recent posts (within the last week) for currency
- Find both grassroots voices and verified expert accounts
- Capture the authentic tone and language of current X discourse".

(** Construct prompt for persona *)
Definition constructPrompt (persona : PersonaProfile) (topic : string)
           (context : option string) (useTwitterSearch : bool) : string :=
  let isExpert := expertise_eqb (expertiseLevel persona) EXPERT in
  let basePrompt :=
    if isExpert then getExpertPromptTemplate persona topic
    else getGrassrootsPromptTemplate persona topic in
  let prompt := basePrompt in
  let prompt :=
    match orStr context None with
    | Some context => prompt ++ "

ADDITIONAL CONTEXT: " ++ context
    | None => prompt
    end in
  if useTwitterSearch then prompt ++ getTwitterIntegrationPrompt persona
  else prompt.

(** Get temperature setting based on persona and bias *)
Definition getPersonaTemperature (persona : PersonaProfile) (biasLevel : Q) : Q :=
  let baseTemp := if expertise_eqb (expertiseLevel persona) EXPERT
                  then (65 # 100)%Q else (7 # 10)%Q in
  (baseTemp + biasLevel * (25 # 100))%Q.

(** [content.replace(/^#\s*/, '')]: one leading number sign and the white
    space that follows it. *)
Definition stripHeading (s : string) : string :=
  match s with
  | String c rest => if Ascii.eqb c (ascii_of_nat 35) then trimStart rest else s
  | EmptyString => s
  end.

(** The [for ... of] loop of [extractTitle] over the lines. *)
Fixpoint firstTitle (lines : list string) : string :=
  match lines with
  | [] => "Untitled"
  | line :: lines' =>
      let trimmed := trim line in
      if truthy trimmed then stripHeading trimmed else firstTitle lines'
  end.

(** Extract title from content *)
Definition extractTitle (content : string) : string :=
  firstTitle (splitLines content).

(** The options of the primary generation call. *)
Definition personaOptions (persona : PersonaProfile) (topic : string)
           (context : option string) (useTwitterSearch : bool) (biasLevel : Q)
  : GrokClient.GrokGenerateOptions :=
  {| GrokClient.prompt :=
       (* Construct the prompt *)
       constructPrompt persona topic context useTwitterSearch;
     GrokClient.opt_systemPrompt := systemPrompt persona;
     GrokClient.opt_model :=
       (* Select appropriate model *)
       Some (GrokClient.selectModel topic context);
     GrokClient.opt_temperature :=
       (* Get temperature based on persona and bias *)
       Some (getPersonaTemperature persona biasLevel);
     GrokClient.opt_maxTokens := Some 2000;
     GrokClient.opt_topP := None;
     GrokClient.opt_stop := None;
     GrokClient.opt_useSearch := Some useTwitterSearch |}.

(** Structure the response: the object literal that [generatePersonaResponse]
    returns; [timestamp] is [new Date().toISOString()]. *)
Definition packageResponse (persona : PersonaProfile) (topic : string)
           (context : option string) (biasLevel : Q)
           (grokResponse : GrokClient.GrokResponse)
           (content : string) (voiceEnhanced : bool) (timestamp : string)
  : PersonaResponse :=
  {| perspective := politicalLeaning persona;
     persona := {| pi_id := personaId persona;
                   pi_characterName := characterName persona;
                   pi_displayName := displayName persona;
                   pi_expertiseLevel :=
                     ExpertiseLevel_str (expertiseLevel persona);
                   pi_socialMediaHandle := socialMediaHandle persona |};
     pr_topic := topic;
     pr_context := context;
     content := content;
     title := (* Extract title *) extractTitle content;
     modelUsed := GrokClient.selectModel topic context;
     tokenUsage := GrokClient.usage grokResponse;
     sourcesUsed :=
       match GrokClient.sources grokResponse with
       | Some l => Some (map GrokClient.url l)
       | None => None
       end;
     pr_timestamp := timestamp;
     twitterIntegrated := false;
     biasLevel := biasLevel;
     voiceEnhanced := voiceEnhanced |}.

(** Generate response for a single persona *)
Definition generatePersonaResponse (this : t) (persona : PersonaProfile)
           (topic : string) (context : option string)
           (useTwitterSearch : bool) (biasLevel : Q) : Async PersonaResponse :=
  (* Generate content with X/Twitter search integration *)
  grokResponse <- GrokClient.generate (grokClient this)
    (personaOptions persona topic context useTwitterSearch biasLevel) ;;
  (* Enhance voice if content is substantial *)
  let content := GrokClient.response_content grokResponse in
  let voiceEnhanced := false in
  enhanced <-
    (if (500 <? String.length content)
        && negb (Qle_bool biasLevel (3 # 10))
     then
       tryCatch
         (content <- VoiceEnhancer.enhanceContent (voiceEnhancer this)
                       content persona biasLevel ;;
          let voiceEnhanced := true in
          ret (content, voiceEnhanced))
         (fun error => ret (content, voiceEnhanced))
     else ret (content, voiceEnhanced)) ;;
  let '(content, voiceEnhanced) := enhanced in
  fun w =>
    ret (packageResponse persona topic context biasLevel grokResponse
                         content voiceEnhanced (isoNow w)) w.

(** [response.sourcesUsed?.length || 0] *)
Definition sourceCount (response : PersonaResponse) : nat :=
  match sourcesUsed response with
  | Some l => length l
  | None => 0
  end.

(** Calculate total cost *)
Definition calculateTotalCost (response1 response2 : PersonaResponse) : Q :=
  let cost1 := GrokClient.estimateCost (tokenUsage response1)
                                       (sourceCount response1) in
  let cost2 := GrokClient.estimateCost (tokenUsage response2)
                                       (sourceCount response2) in
  (cost1 + cost2)%Q.

(** [Promise.all([p1, p2])] once both tasks have settled: fulfilled with
    both values when both are fulfilled, rejected otherwise.  When both
    reject, the reason is that of the task that rejected first in time,
    which [firstIs1] says. *)
Definition promiseAll {A B} (firstIs1 : bool) (r1 : Settled A) (r2 : Settled B)
  : Settled (A * B) :=
  match r1, r2 with
  | Fulfilled a, Fulfilled b => Fulfilled (a, b)
  | Rejected e, Fulfilled _ => Rejected e
  | Fulfilled _, Rejected e => Rejected e
  | Rejected e1, Rejected e2 => Rejected (if firstIs1 then e1 else e2)
  end.

(** The readings of the wall clock in [generateDebate]. *)
Record Clock : Type := mkClock {
  startTime : Z;        (* [Date.now()] on entry *)
  joinTime : Z;         (* [Date.now()] after the join *)
  idTime : Z;           (* [Date.now()] in the debate identifier *)
  isoTime : string      (* [new Date().toISOString()] of the result *)
}.

Definition intToString (z : Z) : string :=
  NilEmpty.string_of_int (Z.to_int z).

(** What a call of [generateDebate] comes to: how its promise settles, and
    the effects of the two persona tasks. *)
Record Run : Type := mkRun {
  settled : Settled DebateResult;
  effects1 : Effects;
  effects2 : Effects
}.

(** Generate a debate between two personas.  The two persona tasks run
    concurrently, each against its own [World]. *)
Definition generateDebate (this : t) (config : DebateConfig) (clock : Clock)
           (world1 world2 : World) (firstIs1 : bool) : Run :=
  (* Validate persona selection *)
  if negb (PersonaRegistry.validatePersonaPair (personaRegistry this)
             (persona1Id config) (persona2Id config))
  then {| settled := Rejected (ErrorObject
            "Invalid persona selection: personas must be from opposing political sides");
          effects1 := noEffects; effects2 := noEffects |}
  else
    (* Get persona profiles *)
    match PersonaRegistry.getPersona (personaRegistry this) (persona1Id config),
          PersonaRegistry.getPersona (personaRegistry this) (persona2Id config)
    with
    | Some persona1, Some persona2 =>
        (* Set default bias levels *)
        let biasLevels := match biasLevels config with
                          | Some b => b
                          | None => {| bias_persona1 := (5 # 10)%Q;
                                       bias_persona2 := (5 # 10)%Q |}
                          end in
        let useSearch := match useTwitterSearch config with
                         | Some b => b
                         | None => true
                         end in
        (* Generate both perspectives in parallel *)
        let '(r1, e1) :=
          generatePersonaResponse this persona1 (cfg_topic config)
            (cfg_context config) useSearch (bias_persona1 biasLevels)
            world1 noEffects in
        let '(r2, e2) :=
          generatePersonaResponse this persona2 (cfg_topic config)
            (cfg_context config) useSearch (bias_persona2 biasLevels)
            world2 noEffects in
        match promiseAll firstIs1 r1 r2 with
        | Fulfilled (response1, response2) =>
            let generationTime :=
              (inject_Z (joinTime clock - startTime clock) / (1000 # 1))%Q in
            (* Calculate costs *)
            let totalCost := calculateTotalCost response1 response2 in
            (* Compile results *)
            {| settled := Fulfilled {|
                 debateId := intToString (idTime clock) ++ "_" ++
                             persona1Id config ++ "_" ++ persona2Id config;
                 dr_topic := cfg_topic config;
                 dr_context := cfg_context config;
                 personas1 := {| side_id := persona1Id config;
                                 side_info := persona1;
                                 side_content := response1 |};
                 personas2 := {| side_id := persona2Id config;
                                 side_info := persona2;
                                 side_content := response2 |};
                 generationMetadata := {|
                   generationTimeSeconds := generationTime;
                   twitterSearchEnabled := useSearch;
                   meta_biasLevels := biasLevels;
                   modelsUsed := (modelUsed response1, modelUsed response2) |};
                 costAnalysis := {|
                   totalEstimatedCost := totalCost;
                   costBreakdown := (tokenUsage response1, tokenUsage response2) |};
                 dr_timestamp := isoTime clock |};
               effects1 := e1; effects2 := e2 |}
        | Rejected error =>
            {| settled := Rejected error; effects1 := e1; effects2 := e2 |}
        end
    | _, _ =>
        {| settled := Rejected (ErrorObject "Invalid persona IDs provided");
           effects1 := noEffects; effects2 := noEffects |}
    end.

(** Get all available personas *)
Definition getAvailablePersonas (this : t)
  : list PersonaDisplayInfo :=
  PersonaRegistry.getPersonaDisplayInfo (personaRegistry this).

(** Get valid persona combinations *)
Definition getValidCombinations (this : t) : list PersonaCombination :=
  PersonaRegistry.getValidCombinations (personaRegistry this).

(** [PersonaType[key]]: the enum object maps each member name to its
    value and has no other own property. *)
Definition PersonaTypeOf (key : string) : option PersonaType :=
  if String.eqb key "LIBERAL_GRASSROOTS" then Some LIBERAL_GRASSROOTS
  else if String.eqb key "LIBERAL_EXPERT" then Some LIBERAL_EXPERT
  else if String.eqb key "CONSERVATIVE_PATRIOT" then Some CONSERVATIVE_PATRIOT
  else if String.eqb key "CONSERVATIVE_EXPERT" then Some CONSERVATIVE_EXPERT
  else None.

(** [validatePersonaPair] called with values that may be [undefined]: the
    map has no [undefined] key, so such a lookup finds nothing. *)
Definition validatePersonaPairOpt (registry : PersonaRegistry.JsMap)
           (persona1 persona2 : option PersonaType) : bool :=
  match persona1, persona2 with
  | Some persona1, Some persona2 =>
      PersonaRegistry.validatePersonaPair registry persona1 persona2
  | _, _ => false
  end.

(** Validate persona selection.  Nothing in the [try] block throws on
    strings, so the [catch] is not modelled. *)
Definition validatePersonaSelection (this : t) (persona1Id persona2Id : string)
  : bool :=
  let persona1 := PersonaTypeOf (toUpperCase persona1Id) in
  let persona2 := PersonaTypeOf (toUpperCase persona2Id) in
  validatePersonaPairOpt (personaRegistry this) persona1 persona2.

End DebateGenerator.

(* ===================================================================== *)
(** * HTTP routes and the persona picker *)
(* ===================================================================== *)

Module Routes.

(** The JSON body of a request to [/api/generate-debate]. *)
Record DebateRequest : Type := mkDebateRequest {
  req_topic : option string;
  req_persona1Id : option string;
  req_persona2Id : option string;
  req_context : option string;
  req_useTwitterSearch : option bool;
  req_biasLevels : option BiasLevels
}.

Inductive Body : Type :=
| ErrorBody (error : string) (details : option string)
| ResultBody (result : DebateResult).

Record Response : Type := mkResponse { status : nat; json : Body }.

(** What a call of the route comes to: the response, and the effects of
    the two persona tasks. *)
Record Handled : Type := mkHandled {
  response : Response;
  handled1 : Effects;
  handled2 : Effects
}.

Definition respond (status : nat) (json : Body) : Handled :=
  {| response := {| status := status; json := json |};
     handled1 := noEffects; handled2 := noEffects |}.

(** [error instanceof Error ? error.message : 'Unknown error'] *)
Definition detailsOf (error : Exn) : string :=
  match error with
  | ErrorObject message => message
  | _ => "Unknown error"
  end.

(** A present, non-empty string. *)
Definition given (x : option string) : option string := orStr x None.

(** [POST] of [app/api/generate-debate/route.ts], on a parsed body. *)
Definition POST (env : GrokClient.Env) (request : DebateRequest)
           (clock : DebateGenerator.Clock) (world1 world2 : World)
           (firstIs1 : bool) : Handled :=
  let useTwitterSearch := match req_useTwitterSearch request with
                          | Some b => b
                          | None => true
                          end in
  match given (req_topic request), given (req_persona1Id request),
        given (req_persona2Id request) with
  | Some topic, Some persona1Id, Some persona2Id =>
      (* Initialize Grok client with API key from environment *)
      match given (GrokClient.XAI_API_KEY env) with
      | None => respond 500 (ErrorBody "XAI API key not configured" None)
      | Some apiKey =>
          match GrokClient.constructor
                  {| GrokClient.cfg_apiKey := apiKey;
                     GrokClient.cfg_baseUrl :=
                       Some match given (GrokClient.XAI_BASE_URL env) with
                            | Some u => u
                            | None => "https://api.x.ai/v1"
                            end;
                     GrokClient.cfg_timeout := Some 60000%Z;
                     GrokClient.cfg_maxRetries := Some 3%Q |} with
          | Rejected error =>
              respond 500 (ErrorBody "Failed to generate debate"
                                     (Some (detailsOf error)))
          | Fulfilled grokClient =>
              (* Initialize debate generator *)
              let debateGenerator := DebateGenerator.constructor grokClient in
              (* Validate persona selection *)
              if negb (DebateGenerator.validatePersonaSelection
                         debateGenerator persona1Id persona2Id)
              then respond 400 (ErrorBody
                     "Invalid persona combination. Personas must be from opposing political sides."
                     None)
              else
                match DebateGenerator.PersonaTypeOf (toUpperCase persona1Id),
                      DebateGenerator.PersonaTypeOf (toUpperCase persona2Id)
                with
                | Some type1, Some type2 =>
                    (* Generate the debate *)
                    let run :=
                      DebateGenerator.generateDebate debateGenerator
                        {| cfg_topic := topic;
                           persona1Id := type1;
                           persona2Id := type2;
                           cfg_context := req_context request;
                           useTwitterSearch := Some useTwitterSearch;
                           biasLevels := req_biasLevels request |}
                        clock world1 world2 firstIs1 in
                    {| response :=
                         match DebateGenerator.settled run with
                         | Fulfilled debateResult =>
                             {| status := 200; json := ResultBody debateResult |}
                         | Rejected error =>
                             {| status := 500;
                                json := ErrorBody "Failed to generate debate"
                                                  (Some (detailsOf error)) |}
                         end;
                       handled1 := DebateGenerator.effects1 run;
                       handled2 := DebateGenerator.effects2 run |}
                | _, _ =>
                    (* not reached: the selection was validated *)
                    respond 500 (ErrorBody "Failed to generate debate"
                                   (Some "Invalid persona selection: personas must be from opposing political sides"))
                end
          end
      end
  | _, _, _ =>
      respond 400 (ErrorBody
        "Missing required fields: topic, persona1Id, persona2Id" None)
  end.

(** [GET] of [app/api/personas/route.ts]: the complex combinations are
    converted to simple arrays of persona identifiers. *)
Definition validCombinationsOf (debateGenerator : DebateGenerator.t)
  : list (list string) :=
  map (fun combo => [personaId (combo_persona1 combo);
                     personaId (combo_persona2 combo)])
      (DebateGenerator.getValidCombinations debateGenerator).

(** The JSON body of a response of [/api/personas]. *)
Inductive PersonasBody : Type :=
| PersonasError (error : string) (details : string)
| PersonasList (personas : list PersonaDisplayInfo)
               (validCombinations : list (list string)).

Definition GET : nat * PersonasBody :=
  (* Using a dummy API key since we're only accessing persona metadata *)
  match GrokClient.constructor
          {| GrokClient.cfg_apiKey := "dummy";
             GrokClient.cfg_baseUrl := None;
             GrokClient.cfg_timeout := None;
             GrokClient.cfg_maxRetries := None |} with
  | Fulfilled grokClient =>
      let debateGenerator := DebateGenerator.constructor grokClient in
      let personas := DebateGenerator.getAvailablePersonas debateGenerator in
      (200, PersonasList personas (validCombinationsOf debateGenerator))
  | Rejected error =>
      (500, PersonasError "Failed to fetch personas" (detailsOf error))
  end.

(** [combo[i] === x] *)
Definition elementIs (combo : list string) (i : nat) (x : string) : bool :=
  match nth_error combo i with
  | Some y => String.eqb y x
  | None => false
  end.

(** [isValidCombination] of the persona picker ([PersonaSelector]). *)
Definition isValidCombination (validCombinations : list (list string))
           (persona1 persona2 : string) : bool :=
  if negb (truthy persona1) || negb (truthy persona2)
  then true (* Allow partial selection *)
  else existsb (fun combo =>
                  (elementIs combo 0 persona1 && elementIs combo 1 persona2)
                  || (elementIs combo 0 persona2 && elementIs combo 1 persona1))
               validCombinations.

End Routes.

(* ===================================================================== *)
(** * Vocabulary of the statements *)
(* ===================================================================== *)

(** Two profiles are on opposing sides. *)
Definition differ (p1 p2 : PersonaProfile) : bool :=
  negb (leaning_eqb (politicalLeaning p1) (politicalLeaning p2)).

(** Number of profiles of one leaning. *)
Definition countLeaning (l : PoliticalLeaning) (ps : list PersonaProfile) : nat :=
  length (filter (fun p => leaning_eqb (politicalLeaning p) l) ps).

(** The two profiles an entry pairs. *)
Definition profilesOf (c : PersonaCombination) : PersonaProfile * PersonaProfile :=
  (combo_persona1 c, combo_persona2 c).

(** How one attempt of [generate] ends (the [try] block of the loop), given
    what the upstream answered to it. *)
Definition attemptOutcome (model : string) (useSearch : bool) (o : FetchOutcome)
  : Settled GrokClient.GrokResponse :=
  match GrokClient.settleFetch o with
  | Fulfilled json => GrokClient.parseResponse json model useSearch
  | Rejected e => Rejected e
  end.

(** The attempt failed with a rate-limit error (status code 429). *)
Definition rateLimited {A} (r : Settled A) : bool :=
  match r with
  | Rejected e => GrokClient.isRateLimit e
  | Fulfilled _ => false
  end.


(** The request that [generate] posts, at every attempt. *)
Definition requestOf (options : GrokClient.GrokGenerateOptions) : Request :=
  mkRequest "/chat/completions" (GrokClient.buildRequestBody options).

(** [options.useSearch], with its default. *)
Definition searchOf (options : GrokClient.GrokGenerateOptions) : bool :=
  match GrokClient.opt_useSearch options with
  | Some b => b
  | None => false
  end.

(** [c.repeat(n)] for a one-character string. *)
Fixpoint nCopies (n : nat) (c : ascii) : string :=
  match n with
  | 0 => EmptyString
  | S n' => String c (nCopies n' c)
  end.

(** [k] occurs in [s] as a contiguous run. *)
Definition occursIn (k s : string) : Prop :=
  exists a b, s = a ++ k ++ b.

(** Every character of [s] is white space. *)
Fixpoint allWhiteSpace (s : string) : bool :=
  match s with
  | EmptyString => true
  | String c s' => isWhiteSpace c && allWhiteSpace s'
  end.

(** [s] begins with the character [c]. *)
Definition startsWith (c : ascii) (s : string) : bool :=
  match s with
  | String c' _ => Ascii.eqb c' c
  | EmptyString => false
  end.

(** [s] begins with a white-space character. *)
Definition startsWithSpace (s : string) : bool :=
  match s with
  | String c _ => isWhiteSpace c
  | EmptyString => false
  end.

(** The number sign, the heading marker of Markdown. *)
Definition hash : ascii := ascii_of_nat 35.

(** The text the claim about [selectModel] words as the lower-cased
    concatenation of topic and context, read literally: nothing between
    them. *)
Definition loweredConcatenation (topic : string) (context : option string)
  : string :=
  toLowerCase (topic ++ match context with
                        | Some c => c
                        | None => EmptyString
                        end).

(** What [enhanceContent] does with the settled enhancement call. *)
Definition enhancedFrom (content : string)
           (g : Settled GrokClient.GrokResponse) : string :=
  match g with
  | Fulfilled response =>
      let enhancedExcerpt := GrokClient.response_content response in
      if truthy enhancedExcerpt && (50 <? String.length (trim enhancedExcerpt))
      then enhancedExcerpt ++ drop (Nat.min 600 (String.length content)) content
      else content
  | Rejected _ => content
  end.

(** The enhancement gate of [generatePersonaResponse]:
    [content.length > 500 && biasLevel > 0.3]. *)
Definition substantial (content : string) (biasLevel : Q) : bool :=
  (500 <? String.length content) && negb (Qle_bool biasLevel (3 # 10)).

(** [config.biasLevels || { persona1: 0.5, persona2: 0.5 }] *)
Definition biasLevelsOf (config : DebateConfig) : BiasLevels :=
  match biasLevels config with
  | Some b => b
  | None => {| bias_persona1 := (5 # 10)%Q; bias_persona2 := (5 # 10)%Q |}
  end.

(** [config.useTwitterSearch ?? true] *)
Definition searchEnabled (config : DebateConfig) : bool :=
  match useTwitterSearch config with
  | Some b => b
  | None => true
  end.

(** The two persona tasks that [generateDebate] starts, each run to the end
    in its own world. *)
Definition task1 (this : DebateGenerator.t) (config : DebateConfig)
           (persona1 : PersonaProfile) (world1 : World)
  : Settled PersonaResponse * Effects :=
  DebateGenerator.generatePersonaResponse this persona1 (cfg_topic config)
    (cfg_context config) (searchEnabled config)
    (bias_persona1 (biasLevelsOf config)) world1 noEffects.

Definition task2 (this : DebateGenerator.t) (config : DebateConfig)
           (persona2 : PersonaProfile) (world2 : World)
  : Settled PersonaResponse * Effects :=
  DebateGenerator.generatePersonaResponse this persona2 (cfg_topic config)
    (cfg_context config) (searchEnabled config)
    (bias_persona2 (biasLevelsOf config)) world2 noEffects.

(** A promise is rejected. *)
Definition isRejected {A} (r : Settled A) : Prop :=
  exists e, r = Rejected e.

(* ===================================================================== *)
(** * Concrete inputs *)
(* ===================================================================== *)

(** A client configured like the one of the HTTP route. *)
Definition routeClient : GrokClient.t :=
  {| GrokClient.apiKey := "xai-key";
     GrokClient.baseUrl := "https://api.x.ai/v1";
     GrokClient.timeout := 60000%Z;
     GrokClient.maxRetries := 3%Q |}.

Definition routeGenerator : DebateGenerator.t :=
  DebateGenerator.constructor routeClient.

(** A successful upstream response carrying [text]. *)
Definition reply (text : string) : FetchOutcome :=
  HttpOk {| choices := Some [ {| api_message :=
                                   Some {| api_content := Some text |} |} ];
            api_usage := Some {| prompt_tokens := 120;
                                 completion_tokens := 900;
                                 total_tokens := 1020 |};
            search_results := None;
            api_sources := None |}.

Definition tooManyRequests : FetchOutcome :=
  HttpNotOk 429 "Too Many Requests" EmptyString.

Definition serverError : FetchOutcome :=
  HttpNotOk 500 "Internal Server Error" EmptyString.

(** A world whose upstream gives the listed answers in order and a server
    error after them; no jitter. *)
Definition scripted (answers : list FetchOutcome) : World :=
  {| answer := fun n => nth n answers serverError;
     random := fun _ => 0%Q;
     isoNow := "2025-01-01T00:00:00.000Z" |}.

(** Generated content of 501 characters. *)
Definition longContent : string := nCopies 501 "a"%char.

(** A topic of exactly 100 characters, none of them part of a keyword. *)
Definition topic100 : string := nCopies 100 "z"%char.

Definition plainOptions : GrokClient.GrokGenerateOptions :=
  {| GrokClient.prompt := "Say hello";
     GrokClient.opt_systemPrompt := None;
     GrokClient.opt_model := None;
     GrokClient.opt_temperature := None;
     GrokClient.opt_maxTokens := None;
     GrokClient.opt_topP := None;
     GrokClient.opt_stop := None;
     GrokClient.opt_useSearch := None |}.

Definition sampleClock : DebateGenerator.Clock :=
  {| DebateGenerator.startTime := 1735689600000%Z;
     DebateGenerator.joinTime := 1735689612000%Z;
     DebateGenerator.idTime := 1735689612000%Z;
     DebateGenerator.isoTime := "2025-01-01T00:00:12.000Z" |}.

Definition twoLiberals : DebateConfig :=
  {| cfg_topic := "Climate change policy";
     persona1Id := LIBERAL_EXPERT;
     persona2Id := LIBERAL_GRASSROOTS;
     cfg_context := None;
     useTwitterSearch := None;
     biasLevels := None |}.

(* ===================================================================== *)
(** * Vocabulary of the further properties *)
(* ===================================================================== *)

(** The backoff delay before jitter: [Math.min(1000 * 2 ** attempt, 30000)]. *)
Definition baseDelayOf (attempt : nat) : Z :=
  Z.min (1000 * 2 ^ Z.of_nat attempt) 30000.

(** The delays of [n] backoffs in a row, the first one after the attempt
    numbered [attempt], with [k] delays already in the log. *)
Definition delaysFrom (w : World) (attempt k n : nat) : list Z :=
  map (fun j => GrokClient.getRetryDelay (attempt + j) (random w (k + j)))
      (seq 0 n).

(** The response has a first choice. *)
Definition hasChoice (response : ApiResponse) : bool :=
  match choices response with
  | Some (_ :: _) => true
  | _ => false
  end.

(** The text of the first choice, if any. *)
Definition firstContent (response : ApiResponse) : option string :=
  match choices response with
  | Some (c :: _) =>
      match api_message c with
      | Some m => api_content m
      | None => None
      end
  | _ => None
  end.

(** A promise is fulfilled. *)
Definition isFulfilled {A} (r : Settled A) : Prop :=
  exists a, r = Fulfilled a.

(** The error that [parseResponse] throws. *)
Definition noChoicesError : Exn :=
  Thrown {| error := "Invalid response: no choices returned";
            code := None; statusCode := None; errorBody := None |}.

(** [x || ''] on an optional string. *)
Definition orEmpty (x : option string) : string :=
  match orStr x None with
  | Some c => c
  | None => EmptyString
  end.

(** [options.model], with its default. *)
Definition modelOf (options : GrokClient.GrokGenerateOptions) : string :=
  match GrokClient.opt_model options with
  | Some m => m
  | None => "grok-4-fast"
  end.

(** The search results that [parseResponse] reads: [search_results], or
    [sources] when that is absent. *)
Definition searchResultsOf (response : ApiResponse) : option (list ApiSource) :=
  match search_results response with
  | Some l => Some l
  | None => api_sources response
  end.

(** The first of the candidates that is present and not empty. *)
Fixpoint firstGiven (candidates : list (option string)) : option string :=
  match candidates with
  | [] => None
  | Some (String c s) :: _ => Some (String c s)
  | _ :: rest => firstGiven rest
  end.

(** A source whose [url], [title] and [snippet] are present and not empty,
    so that no fallback field is read. *)
Definition plainSource (source : ApiSource) : bool :=
  match orStr (src_url source) None, orStr (src_title source) None,
        orStr (src_snippet source) None with
  | Some _, Some _, Some _ => true
  | _, _, _ => false
  end.

(** A search result list as the upstream sends it to a search request. *)
Definition searchReply (text : string) (results : list ApiSource) : ApiResponse :=
  {| choices := Some [ {| api_message :=
                            Some {| api_content := Some text |} |} ];
     api_usage := Some {| prompt_tokens := 120; completion_tokens := 900;
                          total_tokens := 1020 |};
     search_results := Some results;
     api_sources := None |}.

Definition postOf (address : string) : ApiSource :=
  {| src_url := Some address; src_link := None;
     src_title := Some "A post"; src_name := None;
     src_snippet := Some "What the post says"; src_description := None;
     src_text := None |}.

(** The body of the request that the persona task posts first. *)
Definition primaryBody (persona : PersonaProfile) (topic : string)
           (context : option string) (useTwitterSearch : bool) (biasLevel : Q)
  : RequestBody :=
  GrokClient.buildRequestBody
    (DebateGenerator.personaOptions persona topic context useTwitterSearch
                                    biasLevel).

(** The body of the request that the voice enhancer posts. *)
Definition enhancementBody (contentSample : string) (persona : PersonaProfile)
           (biasLevel : Q) : RequestBody :=
  GrokClient.buildRequestBody
    (VoiceEnhancer.enhancementOptions contentSample persona biasLevel).

(** A profile with the given identifier, leaning and expertise, and the
    texts of the liberal expert of the catalog. *)
Definition profileOf (id : string) (leaning : PoliticalLeaning)
           (expertise : ExpertiseLevel) : PersonaProfile :=
  {| personaId := id;
     displayName := "Dr. Maya Chen - Policy Expert";
     description := "Elite progressive commentator";
     politicalLeaning := leaning;
     expertiseLevel := expertise;
     characterName := "Dr. Maya Chen";
     background := "45-year-old policy professor";
     writingStyle := "Sophisticated analysis";
     keyInfluences := ["Elizabeth Warren"; "Paul Krugman"; "Rachel Maddow";
                       "Robert Reich"];
     signaturePhrases := ["The data clearly shows"; "As I've argued on MSNBC"];
     preferredSources := ["New York Times"];
     socialMediaHandle := "@DrMayaChenDC";
     systemPrompt := None |}.

(** A valid configuration: the liberal expert against the conservative
    expert. *)
Definition expertDebate : DebateConfig :=
  {| cfg_topic := "Climate change policy";
     persona1Id := LIBERAL_EXPERT;
     persona2Id := CONSERVATIVE_EXPERT;
     cfg_context := None;
     useTwitterSearch := Some false;
     biasLevels := None |}.

(** A response for which the upstream reported three sources and no token
    usage. *)
Definition unmeteredResponse : PersonaResponse :=
  DebateGenerator.packageResponse
    (profileOf "liberal_expert" LIBERAL EXPERT) "Tax reform" None (5 # 10)%Q
    {| GrokClient.response_content := "Text";
       GrokClient.usage := None;
       GrokClient.model := "grok-4-fast";
       GrokClient.sources :=
         Some (map GrokClient.parseSource
                   [postOf "https://x.com/a/1"; postOf "https://x.com/b/2";
                    postOf "https://x.com/c/3"]);
       GrokClient.searchCost := Some (75 # 1000)%Q |}
    "Text" false "2025-01-01T00:00:00.000Z".

(** Every profile of the map is stored under its own identifier, and no
    key occurs twice (the second holds of every JavaScript [Map]). *)
Definition wellKeyed (m : PersonaRegistry.JsMap) : Prop :=
  NoDup (map fst m) /\ forall k p, In (k, p) m -> personaId p = k.

(** No character of [s] is a line feed. *)
Fixpoint noLineFeed (s : string) : bool :=
  match s with
  | EmptyString => true
  | String c s' => negb (Ascii.eqb c newline) && noLineFeed s'
  end.

(** [s] ends with a white-space character. *)
Fixpoint endsWithSpace (s : string) : bool :=
  match s with
  | EmptyString => false
  | String c EmptyString => isWhiteSpace c
  | String _ s' => endsWithSpace s'
  end.

(** The identifiers for which the voice enhancer has an opening and a
    closing line. *)
Definition touchedIds : list string :=
  ["liberal_grassroots"; "liberal_expert"; "conservative_patriot";
   "conservative_expert"].

(** A string of ASCII characters.  On such a string [toUpperCase] is
    exactly the upper-casing of JavaScript, which outside ASCII maps the
    sharp s (U+00DF) to two capital letters. *)
Fixpoint isAscii (s : string) : bool :=
  match s with
  | EmptyString => true
  | String c s' => (nat_of_ascii c <? 128) && isAscii s'
  end.

(** A field of a request body that is absent, or an ASCII string. *)
Definition asciiOrAbsent (x : option string) : bool :=
  match x with
  | Some s => isAscii s
  | None => true
  end.

(** A server without any key, and a request whose topic is empty. *)
Definition noKeys : GrokClient.Env :=
  {| GrokClient.XAI_API_KEY := None;
     GrokClient.NEXT_PUBLIC_XAI_API_KEY := None;
     GrokClient.XAI_BASE_URL := None |}.

Definition topiclessRequest : Routes.DebateRequest :=
  {| Routes.req_topic := Some EmptyString;
     Routes.req_persona1Id := Some "liberal_expert";
     Routes.req_persona2Id := Some "conservative_expert";
     Routes.req_context := None;
     Routes.req_useTwitterSearch := None;
     Routes.req_biasLevels := None |}.
(* ===================================================================== *)
(** * Properties of the persona catalog *)
(* ===================================================================== *)

Section RegistryFacts.
Import PersonaRegistry.

Lemma leaning_eqb_eq (a b : PoliticalLeaning) :
    leaning_eqb a b = true <-> a = b.
  Proof. destruct a, b; simpl; split; congruence. Qed.

Lemma leaning_eqb_neq (a b : PoliticalLeaning) :
    leaning_eqb a b = false <-> a <> b.
  Proof. destruct a, b; simpl; split; congruence. Qed.

Lemma leaning_eqb_sym (a b : PoliticalLeaning) :
    leaning_eqb a b = leaning_eqb b a.
  Proof. now destruct a, b. Qed.

  (** With two leanings only, differing from a leaning pins the other. *)
Lemma differs_from_liberal (l : PoliticalLeaning) :
    negb (leaning_eqb LIBERAL l) = leaning_eqb l CONSERVATIVE.
  Proof. now destruct l. Qed.

Lemma differs_from_conservative (l : PoliticalLeaning) :
    negb (leaning_eqb CONSERVATIVE l) = leaning_eqb l LIBERAL.
  Proof. now destruct l. Qed.

Variable m : JsMap.

Lemma validatePersonaPair_true (a b : PersonaType) :
    validatePersonaPair m a b = true <->
    exists p1 p2, getPersona m a = Some p1 /\ getPersona m b = Some p2 /\
                  politicalLeaning p1 <> politicalLeaning p2.
  Proof.
    unfold validatePersonaPair, getPersona.
    destruct (get a m) as [p1|], (get b m) as [p2|]; split;
      try discriminate;
      try (intros (q1 & q2 & H1 & H2 & _); discriminate).
    - intros H. exists p1, p2. repeat split.
      apply leaning_eqb_neq. now apply negb_true_iff.
    - intros (q1 & q2 & H1 & H2 & Hne).
      injection H1 as <-. injection H2 as <-.
      apply negb_true_iff. now apply leaning_eqb_neq.
  Qed.

Lemma validatePersonaPair_false (a b : PersonaType) :
    validatePersonaPair m a b = false <->
    getPersona m a = None \/ getPersona m b = None \/
    exists p1 p2, getPersona m a = Some p1 /\ getPersona m b = Some p2 /\
                  politicalLeaning p1 = politicalLeaning p2.
  Proof.
    unfold validatePersonaPair, getPersona.
    destruct (get a m) as [p1|], (get b m) as [p2|]; split; auto.
    - intros H. right; right. exists p1, p2. repeat split.
      apply leaning_eqb_eq. now apply negb_false_iff.
    - intros [H | [H | (q1 & q2 & H1 & H2 & He)]]; try discriminate.
      injection H1 as <-. injection H2 as <-.
      apply negb_false_iff. now apply leaning_eqb_eq.
  Qed.

Lemma validatePersonaPair_sym (a b : PersonaType) :
    validatePersonaPair m a b = validatePersonaPair m b a.
  Proof.
    unfold validatePersonaPair.
    destruct (get a m), (get b m); auto.
    now rewrite leaning_eqb_sym.
  Qed.

  (** ** The double loop of [getValidCombinations] *)

Lemma combinationsWith_length (p : PersonaProfile) (later : list PersonaProfile) :
    length (combinationsWith p later) =
    match politicalLeaning p with
    | LIBERAL => countLeaning CONSERVATIVE later
    | CONSERVATIVE => countLeaning LIBERAL later
    end.
  Proof.
    unfold combinationsWith, countLeaning. rewrite length_map.
    destruct (politicalLeaning p); f_equal; apply filter_ext; intros q.
    - apply differs_from_liberal.
    - apply differs_from_conservative.
  Qed.

Lemma combinationsFrom_length (all : list PersonaProfile) :
    length (combinationsFrom all) =
    countLeaning LIBERAL all * countLeaning CONSERVATIVE all.
  Proof.
    induction all as [|p later IH]; [reflexivity|].
    cbn [combinationsFrom]. rewrite length_app, combinationsWith_length, IH.
    unfold countLeaning. cbn [filter].
    destruct (politicalLeaning p); cbn [leaning_eqb length]; lia.
  Qed.

Lemma in_combinationsWith (p : PersonaProfile) later (c : PersonaCombination) :
    In c (combinationsWith p later) <->
    exists p2, In p2 later /\ differ p p2 = true /\ c = makeCombination p p2.
  Proof.
    unfold combinationsWith. rewrite in_map_iff. split.
    - intros (p2 & <- & Hin). apply filter_In in Hin as [Hin Hd]. now exists p2.
    - intros (p2 & Hin & Hd & ->). exists p2. split; [reflexivity|].
      apply filter_In. now split.
  Qed.

  (** Every entry pairs an earlier profile with a later one of the other
      leaning. *)
Lemma in_combinationsFrom (all : list PersonaProfile) (c : PersonaCombination) :
    In c (combinationsFrom all) <->
    exists l1 p1 l2 p2 l3,
      all = (l1 ++ p1 :: l2 ++ p2 :: l3)%list /\ differ p1 p2 = true /\
      c = makeCombination p1 p2.
  Proof.
    induction all as [|p later IH]; cbn [combinationsFrom].
    - split; [intros []|]. intros (l1 & p1 & l2 & p2 & l3 & H & _).
      now destruct l1.
    - rewrite in_app_iff, in_combinationsWith, IH. split.
      + intros [(p2 & Hin & Hd & ->) | (l1 & p1 & l2 & p2 & l3 & -> & Hd & ->)].
        * apply in_split in Hin as (l2 & l3 & ->).
          now exists [], p, l2, p2, l3.
        * now exists (p :: l1), p1, l2, p2, l3.
      + intros (l1 & p1 & l2 & p2 & l3 & H & Hd & ->).
        destruct l1 as [|q l1]; cbn in H; injection H as -> ->.
        * left. exists p2. split; [|now split].
          apply in_or_app. right. now left.
        * right. now exists l1, p1, l2, p2, l3.
  Qed.

Lemma combination_members (all : list PersonaProfile) (c : PersonaCombination) :
    In c (combinationsFrom all) ->
    In (combo_persona1 c) all /\ In (combo_persona2 c) all /\
    differ (combo_persona1 c) (combo_persona2 c) = true /\
    c = makeCombination (combo_persona1 c) (combo_persona2 c).
  Proof.
    intros H. apply in_combinationsFrom in H
      as (l1 & p1 & l2 & p2 & l3 & -> & Hd & ->). cbn.
    repeat split; auto.
    - apply in_or_app. right. now left.
    - apply in_or_app. right. right. apply in_or_app. right. now left.
  Qed.

Lemma combinationsWith_NoDup (p : PersonaProfile) later :
    NoDup later -> NoDup (map profilesOf (combinationsWith p later)).
  Proof.
    intros Hnd. unfold combinationsWith. rewrite map_map. cbn.
    apply Injective_map_NoDup.
    - intros x y H. now injection H.
    - now apply NoDup_filter.
  Qed.

Lemma combinationsFrom_NoDup (all : list PersonaProfile) :
    NoDup all -> NoDup (map profilesOf (combinationsFrom all)).
  Proof.
    induction all as [|p later IH]; intros Hnd; cbn [combinationsFrom map].
    - constructor.
    - inversion Hnd as [|? ? Hnotin Hnd']; subst.
      rewrite map_app. apply NoDup_app.
      + now apply combinationsWith_NoDup.
      + now apply IH.
      + intros [a b] H1 H2.
        apply in_map_iff in H1 as (c1 & E1 & H1).
        apply in_map_iff in H2 as (c2 & E2 & H2).
        apply in_combinationsWith in H1 as (p2 & _ & _ & ->).
        apply combination_members in H2 as (Hin & _).
        cbn in E1. injection E1 as <- _.
        injection E2 as E2 _. rewrite E2 in Hin. contradiction.
  Qed.

Lemma combinationsFrom_no_reverse (all : list PersonaProfile) c c' :
    NoDup all ->
    In c (combinationsFrom all) -> In c' (combinationsFrom all) ->
    ~ (combo_persona1 c' = combo_persona2 c /\
       combo_persona2 c' = combo_persona1 c).
  Proof.
    induction all as [|p later IH]; intros Hnd H H' [E1 E2];
      cbn [combinationsFrom] in *; [contradiction|].
    inversion Hnd as [|? ? Hnotin Hnd']; subst.
    apply in_app_iff in H. apply in_app_iff in H'.
    destruct H as [H|H], H' as [H'|H'].
    - apply in_combinationsWith in H as (q & Hq & _ & ->).
      apply in_combinationsWith in H' as (q' & _ & _ & ->).
      cbn in E1. subst q. contradiction.
    - apply in_combinationsWith in H as (q & _ & _ & ->).
      apply combination_members in H' as (_ & Hin & _).
      cbn in E2. rewrite E2 in Hin. contradiction.
    - apply in_combinationsWith in H' as (q' & _ & _ & ->).
      apply combination_members in H as (_ & Hin & _).
      cbn in E1. rewrite <- E1 in Hin. contradiction.
    - now apply (IH Hnd' H H').
  Qed.

Lemma combinationsFrom_complete (all : list PersonaProfile) p1 p2 :
    In p1 all -> In p2 all -> differ p1 p2 = true ->
    In (makeCombination p1 p2) (combinationsFrom all) \/
    In (makeCombination p2 p1) (combinationsFrom all).
  Proof.
    induction all as [|p later IH]; intros H1 H2 Hd; [contradiction|].
    cbn [combinationsFrom]. rewrite !in_app_iff, !in_combinationsWith.
    assert (Hd' : differ p2 p1 = true).
    { unfold differ in *. now rewrite leaning_eqb_sym. }
    destruct H1 as [<-|H1], H2 as [<-|H2].
    - unfold differ in Hd. destruct (politicalLeaning p); discriminate.
    - left. left. now exists p2.
    - right. left. now exists p1.
    - destruct (IH H1 H2 Hd); auto.
  Qed.

End RegistryFacts.
(* ===================================================================== *)
(** * Properties of the string primitives *)
(* ===================================================================== *)

Section StringFacts.

Lemma append_nil_r (s : string) : s ++ EmptyString = s.
Proof. induction s as [|c s IH]; cbn; congruence. Qed.

Lemma append_assoc (a b c : string) : (a ++ b) ++ c = a ++ (b ++ c).
Proof. induction a as [|x a IH]; cbn; congruence. Qed.

Lemma length_append (a b : string) :
  String.length (a ++ b) = String.length a + String.length b.
Proof. induction a as [|x a IH]; cbn; congruence. Qed.

Lemma take_drop (n : nat) (s : string) : take n s ++ drop n s = s.
Proof.
  revert s. induction n as [|n IH]; intros [|c s]; cbn; try reflexivity.
  now rewrite IH.
Qed.

Lemma take_all (s : string) : take (String.length s) s = s.
Proof. induction s as [|c s IH]; cbn; congruence. Qed.

Lemma take_length (n : nat) (s : string) :
  String.length (take n s) = Nat.min n (String.length s).
Proof.
  revert s. induction n as [|n IH]; intros [|c s]; cbn; try reflexivity.
  now rewrite IH.
Qed.

Lemma drop_length (n : nat) (s : string) :
  String.length (drop n s) = String.length s - n.
Proof.
  revert s. induction n as [|n IH]; intros [|c s]; cbn; try reflexivity.
  apply IH.
Qed.

Lemma take_take_prefix (n : nat) (s t : string) :
  take n s = take n t -> forall k, k <= n -> take k s = take k t.
Proof.
  revert s t. induction n as [|n IH]; intros s t H k Hk.
  - now replace k with 0 by lia.
  - destruct k as [|k]; [reflexivity|].
    destruct s as [|c s], t as [|d t]; cbn in *; try discriminate; auto.
    injection H as -> H. f_equal. apply (IH _ _ H). lia.
Qed.

Lemma take_min (n : nat) (s : string) :
  take (Nat.min n (String.length s)) s = take n s.
Proof.
  revert s. induction n as [|n IH]; intros [|c s]; cbn; try reflexivity.
  now rewrite IH.
Qed.

(** [s.substring(0, n)] is the first [n] characters. *)
Lemma substring2_prefix (s : string) (n : nat) :
  n <= String.length s -> substring2 s 0 n = take n s.
Proof.
  intros H. unfold substring2.
  rewrite Nat.min_0_l, (Nat.min_l n) by exact H.
  now rewrite Nat.max_0_l, Nat.min_0_l, Nat.sub_0_r.
Qed.

(** [s.substring(n)] is what follows the first [n] characters. *)
Lemma substring1_suffix (s : string) (n : nat) :
  n <= String.length s -> substring1 s n = drop n s.
Proof.
  intros H. unfold substring1, substring2.
  rewrite (Nat.min_l n) by exact H. rewrite Nat.min_id.
  rewrite Nat.max_r, Nat.min_l by exact H.
  rewrite <- (drop_length n s). apply take_all.
Qed.

Lemma mapChars_append (f : ascii -> ascii) (a b : string) :
  mapChars f (a ++ b) = mapChars f a ++ mapChars f b.
Proof. induction a as [|x a IH]; cbn; congruence. Qed.

Lemma mapChars_length (f : ascii -> ascii) (s : string) :
  String.length (mapChars f s) = String.length s.
Proof. induction s as [|c s IH]; cbn; congruence. Qed.

Lemma prefix_append (k b : string) : String.prefix k (k ++ b) = true.
Proof.
  induction k as [|c k IH]; cbn; [now destruct b|].
  destruct (ascii_dec c c); [exact IH | congruence].
Qed.

Lemma prefix_split (k s : string) :
  String.prefix k s = true -> exists b, s = k ++ b.
Proof.
  revert s. induction k as [|c k IH]; intros s H.
  - now exists s.
  - destruct s as [|d s]; cbn in H; [discriminate|].
    destruct (ascii_dec c d) as [->|]; [|discriminate].
    destruct (IH s H) as (b & ->). now exists b.
Qed.

(** [s.includes(k)] holds exactly when [k] occurs in [s]. *)
Lemma includes_occursIn (s k : string) :
  includes s k = true <-> occursIn k s.
Proof.
  unfold occursIn. split.
  - induction s as [|c s IH]; cbn [includes]; intros H;
      apply orb_true_iff in H as [H|H]; try discriminate.
    + apply prefix_split in H as (b & ->). now exists EmptyString, b.
    + apply prefix_split in H as (b & ->). now exists EmptyString, b.
    + destruct (IH H) as (a & b & ->). now exists (String c a), b.
  - intros (a & b & ->). induction a as [|c a IH].
    + cbn [append]. destruct (k ++ b) eqn:E; cbn [includes];
        rewrite <- E, prefix_append; reflexivity.
    + cbn [append includes]. rewrite IH. apply orb_true_r.
Qed.

Lemma trimStart_not_space (s : string) :
  startsWithSpace (trimStart s) = false.
Proof.
  induction s as [|c s IH]; cbn; [reflexivity|].
  destruct (isWhiteSpace c) eqn:E; [exact IH|]. cbn. exact E.
Qed.

Lemma trimStart_skip (ws rest : string) :
  allWhiteSpace ws = true -> trimStart (ws ++ rest) = trimStart rest.
Proof.
  induction ws as [|c ws IH]; cbn; [reflexivity|].
  intros H. apply andb_true_iff in H as [-> H]. now apply IH.
Qed.

Lemma trimStart_fixed (s : string) :
  startsWithSpace s = false -> trimStart s = s.
Proof. destruct s as [|c s]; cbn; [reflexivity|]. now intros ->. Qed.

Lemma splitLines_cons (s : string) :
  exists l ls, splitLines s = l :: ls.
Proof.
  induction s as [|c s (l & ls & IH)]; cbn [splitLines]; [now eexists; eexists|].
  destruct (Ascii.eqb c newline); rewrite ?IH; now eexists; eexists.
Qed.

(** Splitting at line feeds loses nothing: the lines joined by line feeds
    are the content. *)
Lemma splitLines_join (s : string) :
  join (String newline EmptyString) (splitLines s) = s.
Proof.
  induction s as [|c s IH]; [reflexivity|]. cbn [splitLines].
  destruct (splitLines_cons s) as (l & ls & Es). rewrite Es in *.
  destruct (Ascii.eqb c newline) eqn:E.
  - apply Ascii.eqb_eq in E as ->. destruct ls; cbn in *; congruence.
  - destruct ls; cbn in *; congruence.
Qed.

End StringFacts.


(* ===================================================================== *)
(** * Properties of the API client *)
(* ===================================================================== *)

Section RetryLoop.
Import GrokClient.

Variable this : GrokClient.t.
Variables (requestBody : RequestBody) (model : string) (useSearch : bool).
Variable w : World.

(** The [try] block issues one request and ends as [attemptOutcome] says. *)
Lemma tryBlock_run (s : Effects) :
  (response <- makeRequest "/chat/completions" requestBody ;;
   liftSettled (parseResponse response model useSearch)) w s =
  (attemptOutcome model useSearch (answer w (length (fetched s))),
   {| fetched := (fetched s ++ [mkRequest "/chat/completions" requestBody])%list;
      slept := slept s |}).
Proof.
  unfold bind, makeRequest, liftSettled, attemptOutcome.
  now destruct (settleFetch _).
Qed.

(** Backing off only adds a delay to the log. *)
Lemma backoff_then {A} (attempt : nat) (k : Async A) (s : Effects) :
  (_ <- backoff attempt ;; k) w s =
  k w {| fetched := fetched s;
         slept := (slept s ++ [getRetryDelay attempt (random w (length (slept s)))])%list |}.
Proof. reflexivity. Qed.

(** A run of the loop: [made] requests, all the same; every attempt but the
    last was rate limited; the last attempt settles the call, unless it was
    rate limited too and the budget is spent. *)
Lemma retryLoop_run (remaining : nat) :
  forall (attempt : nat) (lastError : Exn) (s : Effects),
  let att k := attemptOutcome model useSearch (answer w (length (fetched s) + k)) in
  let run := retryLoop requestBody model useSearch remaining attempt lastError w s in
  exists made,
    made <= remaining /\
    fetched (snd run) =
      (fetched s ++ repeat (mkRequest "/chat/completions" requestBody) made)%list /\
    (forall j, S j < made -> rateLimited (att j) = true) /\
    (made = 0 -> remaining = 0 /\ fst run = Rejected lastError) /\
    (forall k, made = S k ->
       fst run = att k /\ (rateLimited (att k) = true -> made = remaining)).
Proof.
  induction remaining as [|r IH]; intros attempt lastError s att run.
  - exists 0. subst run. cbn. rewrite app_nil_r.
    repeat apply conj; auto; try lia; intros; discriminate.
  - subst run. cbn [retryLoop]. unfold tryCatch. rewrite tryBlock_run.
    fold (att 0). replace (length (fetched s) + 0) with (length (fetched s)) in * by lia.
    destruct (attemptOutcome model useSearch (answer w (length (fetched s))))
      as [resp | e] eqn:E0.
    + (* fulfilled at once *)
      exists 1. cbn. repeat apply conj; try lia; [reflexivity|].
      intros k Hk. injection Hk as <-. subst att. cbn.
      replace (length (fetched s) + 0) with (length (fetched s)) by lia.
      rewrite E0. split; [reflexivity | discriminate].
    + destruct (isRateLimit e) eqn:Erl.
      * (* rate limited: back off and go round again *)
        rewrite backoff_then. cbn [fetched slept].
        set (s2 := {| fetched := (fetched s ++ [mkRequest "/chat/completions" requestBody])%list;
                      slept := _ |}).
        destruct (IH (S attempt) e s2) as (made & Hle & Hf & Hrl & H0 & HS).
        assert (Hlen : length (fetched s2) = S (length (fetched s))).
        { subst s2. cbn. rewrite length_app. cbn. lia. }
        assert (Hatt : forall k,
                   attemptOutcome model useSearch (answer w (length (fetched s2) + k))
                   = att (S k)).
        { intros k. subst att. cbn beta. rewrite Hlen. f_equal. f_equal. lia. }
        assert (Hatt0 : att 0 = Rejected e).
        { subst att. cbn beta.
          replace (length (fetched s) + 0) with (length (fetched s)) by lia.
          exact E0. }
        exists (S made). repeat apply conj.
        -- lia.
        -- rewrite Hf. subst s2. cbn. now rewrite <- app_assoc.
        -- intros [|j] Hj.
           ++ rewrite Hatt0. exact Erl.
           ++ rewrite <- Hatt. apply Hrl. lia.
        -- discriminate.
        -- intros k Hk. injection Hk as <-. destruct made as [|k'].
           ++ destruct (H0 eq_refl) as [-> ->]. rewrite Hatt0. split; auto.
           ++ destruct (HS k' eq_refl) as [-> Hlast]. split; [apply Hatt|].
              rewrite <- Hatt. intros Hk. f_equal. now apply Hlast.
      * (* any other error: thrown at once *)
        exists 1. cbn. repeat apply conj; try lia; [reflexivity|].
        intros k Hk. injection Hk as <-. subst att. cbn.
        replace (length (fetched s) + 0) with (length (fetched s)) by lia.
        rewrite E0. cbn. rewrite Erl. split; [reflexivity | discriminate].
Qed.

End RetryLoop.

Section Budget.
Import GrokClient.

Variable this : GrokClient.t.

(** The loop test [attempt < this.maxRetries] holds for exactly the first
    [attempts] attempt indices. *)
Lemma attempts_test (attempt : nat) :
  attempt < attempts this <->
  (inject_Z (Z.of_nat attempt) < maxRetries this)%Q.
Proof.
  unfold attempts.
  pose proof (Qle_ceiling (maxRetries this)) as Hup.
  pose proof (Qceiling_lt (maxRetries this)) as Hlo.
  split; intros H.
  - eapply Qle_lt_trans; [|exact Hlo].
    assert (Hz : (Z.of_nat attempt <= Qceiling (maxRetries this) - 1)%Z) by lia.
    unfold Qle, Qminus, Qplus, Qopp, inject_Z. cbn. lia.
  - assert (Hz : (inject_Z (Z.of_nat attempt)
                  < inject_Z (Qceiling (maxRetries this)))%Q)
      by (eapply Qlt_le_trans; eassumption).
    rewrite <- Zlt_Qlt in Hz. lia.
Qed.

(** A budget that is the natural number [n] allows [n] attempts. *)
Lemma attempts_count (n : nat) :
  (maxRetries this == inject_Z (Z.of_nat n))%Q -> attempts this = n.
Proof.
  intros H. unfold attempts. rewrite H, Qceiling_Z. apply Nat2Z.id.
Qed.

(** A budget allows an attempt exactly when it is positive. *)
Lemma attempts_positive : 0 < attempts this <-> (0 < maxRetries this)%Q.
Proof. exact (attempts_test 0). Qed.

Lemma attempts_none : attempts this = 0 <-> (maxRetries this <= 0)%Q.
Proof.
  split; intros H.
  - apply Qnot_lt_le. intros Hpos. apply attempts_positive in Hpos. lia.
  - destruct (attempts this) eqn:E; [reflexivity|].
    assert (Hpos : 0 < attempts this) by lia.
    apply attempts_positive in Hpos.
    exfalso. exact (Qlt_not_le _ _ Hpos H).
Qed.

End Budget.


Section CostFacts.
Import GrokClient.
Local Open Scope Q_scope.

(** A count as a rational number. *)
Lemma count_nonneg (n : nat) : 0 <= inject_Z (Z.of_nat n).
Proof. change 0 with (inject_Z 0). rewrite <- Zle_Qle. lia. Qed.

Lemma count_le (a b : nat) :
  (a <= b)%nat -> inject_Z (Z.of_nat a) <= inject_Z (Z.of_nat b).
Proof. intros H. rewrite <- Zle_Qle. lia. Qed.

Lemma estimateCost_formula (u : Usage) (s : nat) :
  estimateCost (Some u) s ==
  inject_Z (Z.of_nat (promptTokens u)) * (20 # 100) / (1000000 # 1)
  + inject_Z (Z.of_nat (completionTokens u)) * (50 # 100) / (1000000 # 1)
  + inject_Z (Z.of_nat s) * (25 # 1000).
Proof. unfold estimateCost. field. Qed.

Lemma estimateCost_linear (u : Usage) (s : nat) :
  estimateCost (Some u) s ==
  estimateCost (Some u) 0 + inject_Z (Z.of_nat s) * (25 # 1000).
Proof. unfold estimateCost. cbn [Z.of_nat]. ring. Qed.

Lemma estimateCost_monotone (u u' : Usage) (s s' : nat) :
  (promptTokens u <= promptTokens u')%nat ->
  (completionTokens u <= completionTokens u')%nat ->
  (s <= s')%nat ->
  estimateCost (Some u) s <= estimateCost (Some u') s'.
Proof.
  intros Hp Hc Hs. unfold estimateCost.
  repeat apply Qplus_le_compat;
    (apply Qmult_le_compat_r; [now apply count_le | discriminate]).
Qed.

Lemma estimateCost_absent (s : nat) : estimateCost None s = 0.
Proof. reflexivity. Qed.

End CostFacts.

Section ModelFacts.
Import GrokClient.

Lemma needsReasoning_iff (text : string) :
  existsb (fun keyword => includes text keyword) reasoningKeywords
  || (100 <? String.length text) = true <->
  (exists keyword, In keyword reasoningKeywords /\ occursIn keyword text)
  \/ 100 < String.length text.
Proof.
  rewrite orb_true_iff, existsb_exists, Nat.ltb_lt.
  split; (intros [(k & Hin & Hk) | H]; [left; exists k; split; auto | now right]).
  - now apply includes_occursIn.
  - now apply includes_occursIn.
Qed.

Lemma selectModel_cases (topic : string) (context : option string) :
  selectModel topic context =
  if existsb (fun keyword => includes (combinedText topic context) keyword)
             reasoningKeywords
     || (100 <? String.length (combinedText topic context))
  then "grok-4-fast-reasoning" else "grok-4-fast".
Proof. reflexivity. Qed.

Lemma toLowerCase_policy : toLowerCase "policy" = "policy".
Proof. reflexivity. Qed.

Lemma combinedText_policy (topic : string) (context : option string) :
  occursIn "policy" topic -> occursIn "policy" (combinedText topic context).
Proof.
  intros (a & b & ->). unfold combinedText, toLowerCase.
  rewrite !append_assoc, !mapChars_append.
  fold (toLowerCase "policy"). rewrite toLowerCase_policy.
  eexists. eexists. reflexivity.
Qed.

End ModelFacts.

(* ===================================================================== *)
(** * Properties of the voice enhancer and of the persona task *)
(* ===================================================================== *)

Section EnhancerFacts.
Import VoiceEnhancer.

Variable this : VoiceEnhancer.t.
Variables (persona : PersonaProfile) (biasLevel : Q).
Variable w : World.

Lemma enhanceContent_run (content : string) (s : Effects) :
  let sample := take (Nat.min 600 (String.length content)) content in
  let g := GrokClient.generate (grokClient this)
             (enhancementOptions sample persona biasLevel) w s in
  enhanceContent this content persona biasLevel w s =
  (Fulfilled (enhancedFrom content (fst g)), snd g).
Proof.
  cbn zeta. unfold enhanceContent, tryCatch, bind, enhancedFrom.
  rewrite substring2_prefix, substring1_suffix by apply Nat.le_min_r.
  destruct (GrokClient.generate _ _ w s) as [[response|e] s']; cbn [fst snd].
  - now destruct (truthy _ && _).
  - reflexivity.
Qed.

End EnhancerFacts.

Section PersonaTaskFacts.
Import DebateGenerator.

Variable this : DebateGenerator.t.
Variables (persona : PersonaProfile) (topic : string) (context : option string).
Variables (useTwitterSearch : bool) (biasLevel : Q).
Variable w : World.

(** The persona task rejects exactly when its primary call does. *)
Lemma generatePersonaResponse_rejected (s s' : Effects) (e : Exn) :
  GrokClient.generate (grokClient this)
    (personaOptions persona topic context useTwitterSearch biasLevel) w s
  = (Rejected e, s') ->
  generatePersonaResponse this persona topic context useTwitterSearch
                          biasLevel w s = (Rejected e, s').
Proof.
  intros H. unfold generatePersonaResponse, bind at 1. now rewrite H.
Qed.

(** Below the gate the content is returned as generated, not enhanced. *)
Lemma generatePersonaResponse_plain (s s' : Effects)
      (grokResponse : GrokClient.GrokResponse) :
  GrokClient.generate (grokClient this)
    (personaOptions persona topic context useTwitterSearch biasLevel) w s
  = (Fulfilled grokResponse, s') ->
  substantial (GrokClient.response_content grokResponse) biasLevel = false ->
  generatePersonaResponse this persona topic context useTwitterSearch
                          biasLevel w s =
  (Fulfilled (packageResponse persona topic context biasLevel grokResponse
                (GrokClient.response_content grokResponse) false (isoNow w)),
   s').
Proof.
  intros H Hgate. unfold generatePersonaResponse, bind at 1. rewrite H.
  unfold substantial in Hgate. rewrite Hgate. reflexivity.
Qed.

(** Above the gate the enhancer runs; whatever it returns is packaged with
    the flag set, since [enhanceContent] never rejects. *)
Lemma generatePersonaResponse_enhanced (s s' : Effects)
      (grokResponse : GrokClient.GrokResponse) :
  GrokClient.generate (grokClient this)
    (personaOptions persona topic context useTwitterSearch biasLevel) w s
  = (Fulfilled grokResponse, s') ->
  substantial (GrokClient.response_content grokResponse) biasLevel = true ->
  let content := GrokClient.response_content grokResponse in
  let sample := take (Nat.min 600 (String.length content)) content in
  let g := GrokClient.generate (VoiceEnhancer.grokClient (voiceEnhancer this))
             (VoiceEnhancer.enhancementOptions sample persona biasLevel) w s' in
  generatePersonaResponse this persona topic context useTwitterSearch
                          biasLevel w s =
  (Fulfilled (packageResponse persona topic context biasLevel grokResponse
                (enhancedFrom content (fst g)) true (isoNow w)),
   snd g).
Proof.
  intros H Hgate. cbn zeta. unfold generatePersonaResponse, bind at 1. rewrite H.
  unfold substantial in Hgate. rewrite Hgate.
  unfold bind, tryCatch. rewrite enhanceContent_run. reflexivity.
Qed.

(** The persona task fulfils exactly when its primary call does. *)
Lemma generatePersonaResponse_settles (s : Effects) :
  let g := GrokClient.generate (grokClient this)
             (personaOptions persona topic context useTwitterSearch biasLevel) w s in
  let run := generatePersonaResponse this persona topic context
               useTwitterSearch biasLevel w s in
  match fst g with
  | Fulfilled grokResponse =>
      exists content flag,
        fst run = Fulfilled (packageResponse persona topic context biasLevel
                               grokResponse content flag (isoNow w))
  | Rejected e => fst run = Rejected e
  end.
Proof.
  cbn zeta.
  destruct (GrokClient.generate (grokClient this) _ w s) as [[r|e] s'] eqn:E;
    cbn [fst].
  - destruct (substantial (GrokClient.response_content r) biasLevel) eqn:G.
    + rewrite (generatePersonaResponse_enhanced _ _ _ E G). eexists. eexists.
      reflexivity.
    + rewrite (generatePersonaResponse_plain _ _ _ E G). eexists. eexists.
      reflexivity.
  - now rewrite (generatePersonaResponse_rejected _ _ _ E).
Qed.

End PersonaTaskFacts.

(* ===================================================================== *)
(** * Properties of the orchestrator *)
(* ===================================================================== *)

Section OrchestratorFacts.
Import DebateGenerator.

Variable this : DebateGenerator.t.
Variables (config : DebateConfig) (clock : Clock).
Variables (world1 world2 : World) (firstIs1 : bool).

Lemma generateDebate_invalid :
  PersonaRegistry.validatePersonaPair (personaRegistry this)
    (persona1Id config) (persona2Id config) = false ->
  generateDebate this config clock world1 world2 firstIs1 =
  {| settled := Rejected (ErrorObject
       "Invalid persona selection: personas must be from opposing political sides");
     effects1 := noEffects; effects2 := noEffects |}.
Proof. intros H. unfold generateDebate. now rewrite H. Qed.

Lemma generateDebate_valid :
  PersonaRegistry.validatePersonaPair (personaRegistry this)
    (persona1Id config) (persona2Id config) = true ->
  exists persona1 persona2,
    PersonaRegistry.getPersona (personaRegistry this) (persona1Id config)
      = Some persona1 /\
    PersonaRegistry.getPersona (personaRegistry this) (persona2Id config)
      = Some persona2 /\
    let t1 := task1 this config persona1 world1 in
    let t2 := task2 this config persona2 world2 in
    let run := generateDebate this config clock world1 world2 firstIs1 in
    effects1 run = snd t1 /\ effects2 run = snd t2 /\
    match fst t1, fst t2 with
    | Fulfilled response1, Fulfilled response2 =>
        exists result,
          settled run = Fulfilled result /\
          personas1 result = {| side_id := persona1Id config;
                                side_info := persona1;
                                side_content := response1 |} /\
          personas2 result = {| side_id := persona2Id config;
                                side_info := persona2;
                                side_content := response2 |}
    | Rejected e, Fulfilled _ => settled run = Rejected e
    | Fulfilled _, Rejected e => settled run = Rejected e
    | Rejected e1, Rejected e2 =>
        settled run = Rejected (if firstIs1 then e1 else e2)
    end.
Proof.
  intros H. unfold generateDebate. rewrite H. cbn [negb].
  apply validatePersonaPair_true in H as (p1 & p2 & H1 & H2 & _).
  rewrite H1, H2. exists p1, p2. split; [reflexivity|]. split; [reflexivity|].
  cbn zeta. unfold task1, task2, biasLevelsOf, searchEnabled.
  destruct (generatePersonaResponse this p1 _ _ _ _ world1 noEffects)
    as [[r1|e1] s1];
  destruct (generatePersonaResponse this p2 _ _ _ _ world2 noEffects)
    as [[r2|e2] s2]; cbn; repeat apply conj; auto.
  eexists. repeat apply conj; reflexivity.
Qed.

End OrchestratorFacts.

(* ===================================================================== *)
(** * Properties of the title extraction *)
(* ===================================================================== *)

Section TitleFacts.
Import DebateGenerator.

Lemma truthy_false (s : string) : truthy s = false <-> s = EmptyString.
Proof. destruct s; cbn; split; congruence. Qed.

Lemma truthy_true (s : string) : truthy s = true <-> s <> EmptyString.
Proof. destruct s; cbn; split; congruence. Qed.

(** With blank lines only, the loop falls through to the placeholder. *)
Lemma firstTitle_blank (lines : list string) :
  (forall line, In line lines -> trim line = EmptyString) ->
  firstTitle lines = "Untitled".
Proof.
  induction lines as [|l lines IH]; intros H; cbn [firstTitle]; [reflexivity|].
  rewrite (H l) by now left. cbn. apply IH. intros line Hin. apply H. now right.
Qed.

(** The loop returns at the first line that is not blank. *)
Lemma firstTitle_first (blank : list string) (line : string) (rest : list string) :
  (forall b, In b blank -> trim b = EmptyString) ->
  trim line <> EmptyString ->
  firstTitle (blank ++ line :: rest) = stripHeading (trim line).
Proof.
  intros Hb Hl. induction blank as [|b blank IH]; cbn [app firstTitle].
  - apply truthy_true in Hl. now rewrite Hl.
  - rewrite (Hb b) by now left. cbn. apply IH. intros x Hx. apply Hb. now right.
Qed.

(** One number sign and the white space after it go. *)
Lemma stripHeading_marker (ws rest : string) :
  allWhiteSpace ws = true -> startsWithSpace rest = false ->
  stripHeading (String hash (ws ++ rest)) = rest.
Proof.
  intros Hws Hrest. cbn. rewrite trimStart_skip by exact Hws.
  now apply trimStart_fixed.
Qed.

(** A line that does not begin with a number sign is kept as it is. *)
Lemma stripHeading_other (t : string) :
  startsWith hash t = false -> stripHeading t = t.
Proof. destruct t as [|c t]; cbn; [reflexivity|]. now intros ->. Qed.

(** Of several number signs, only the first goes. *)
Lemma stripHeading_second (t : string) :
  stripHeading (String hash (String hash t)) = String hash t.
Proof. reflexivity. Qed.

End TitleFacts.

(* ===================================================================== *)
(** * The catalog: pairing rule and valid combinations *)
(* ===================================================================== *)

(** C2.  For every pair of persona identifiers (a, b), over any catalog:
    [validatePersonaPair a b] is true if and only if both identifiers
    resolve to profiles and the two profiles' leanings differ; it is false
    on any unknown identifier and on any same-leaning pair; and it is
    symmetric in its two arguments. *)
Theorem validatePersonaPair_spec
        (m : PersonaRegistry.JsMap) (a b : PersonaType) :
  (PersonaRegistry.validatePersonaPair m a b = true <->
     exists p1 p2,
       PersonaRegistry.getPersona m a = Some p1 /\
       PersonaRegistry.getPersona m b = Some p2 /\
       politicalLeaning p1 <> politicalLeaning p2)
  /\ (PersonaRegistry.validatePersonaPair m a b = false <->
        PersonaRegistry.getPersona m a = None \/
        PersonaRegistry.getPersona m b = None \/
        exists p1 p2,
          PersonaRegistry.getPersona m a = Some p1 /\
          PersonaRegistry.getPersona m b = Some p2 /\
          politicalLeaning p1 = politicalLeaning p2)
  /\ PersonaRegistry.validatePersonaPair m a b =
     PersonaRegistry.validatePersonaPair m b a.
Proof.
  split; [apply validatePersonaPair_true|].
  split; [apply validatePersonaPair_false|].
  apply validatePersonaPair_sym.
Qed.

(** The shipped catalog: its four profiles, in insertion order, have
    distinct identifiers. *)
Lemma shipped_NoDup :
  NoDup (PersonaRegistry.getAllPersonas PersonaRegistry.personas).
Proof.
  apply (NoDup_map_inv personaId). vm_compute.
  repeat constructor; cbn; intuition discriminate.
Qed.

(** C7.  For a catalog of distinct profiles, [getValidCombinations] has one
    entry per unordered pair of profiles with differing leanings: every
    entry pairs two catalog profiles of differing leanings; every such pair
    is there in one order or the other; no pair is there twice, nor in both
    orders; so with m profiles of one leaning and n of the other there are
    m * n entries.  The shipped catalog has 2 liberal and 2 conservative
    profiles and 4 entries. *)
Theorem getValidCombinations_spec (m : PersonaRegistry.JsMap) :
  NoDup (PersonaRegistry.getAllPersonas m) ->
  let all := PersonaRegistry.getAllPersonas m in
  let combinations := PersonaRegistry.getValidCombinations m in
  length combinations =
    length (PersonaRegistry.getPersonasByLeaning m LIBERAL) *
    length (PersonaRegistry.getPersonasByLeaning m CONSERVATIVE)
  /\ (forall c, In c combinations ->
        In (combo_persona1 c) all /\ In (combo_persona2 c) all /\
        politicalLeaning (combo_persona1 c) <> politicalLeaning (combo_persona2 c) /\
        c = PersonaRegistry.makeCombination (combo_persona1 c) (combo_persona2 c))
  /\ (forall p1 p2, In p1 all -> In p2 all ->
        politicalLeaning p1 <> politicalLeaning p2 ->
        In (PersonaRegistry.makeCombination p1 p2) combinations \/
        In (PersonaRegistry.makeCombination p2 p1) combinations)
  /\ NoDup (map profilesOf combinations)
  /\ (forall c c', In c combinations -> In c' combinations ->
        ~ (combo_persona1 c' = combo_persona2 c /\
           combo_persona2 c' = combo_persona1 c))
  /\ (length (PersonaRegistry.getPersonasByLeaning PersonaRegistry.personas LIBERAL) = 2
      /\ length (PersonaRegistry.getPersonasByLeaning PersonaRegistry.personas CONSERVATIVE) = 2
      /\ length (PersonaRegistry.getValidCombinations PersonaRegistry.personas) = 4).
Proof.
  intros Hnd all combinations. subst all combinations.
  unfold PersonaRegistry.getValidCombinations, PersonaRegistry.getPersonasByLeaning.
  repeat apply conj.
  - apply combinationsFrom_length.
  - intros c Hc. apply combination_members in Hc as (H1 & H2 & Hd & Hc).
    repeat apply conj; auto.
    apply leaning_eqb_neq. now apply negb_true_iff.
  - intros p1 p2 H1 H2 Hne. apply combinationsFrom_complete; auto.
    apply negb_true_iff. now apply leaning_eqb_neq.
  - now apply combinationsFrom_NoDup.
  - intros c c' Hc Hc'. now apply combinationsFrom_no_reverse with (all :=
      PersonaRegistry.getAllPersonas m).
  - reflexivity.
  - reflexivity.
  - reflexivity.
Qed.

(** The shipped catalog meets the hypothesis of C7 and has 2 * 2 entries. *)
Lemma getValidCombinations_spec_witness :
  NoDup (PersonaRegistry.getAllPersonas PersonaRegistry.personas) /\
  length (PersonaRegistry.getValidCombinations PersonaRegistry.personas) =
    length (PersonaRegistry.getPersonasByLeaning PersonaRegistry.personas LIBERAL) *
    length (PersonaRegistry.getPersonasByLeaning PersonaRegistry.personas CONSERVATIVE).
Proof.
  split; [exact shipped_NoDup|].
  exact (proj1 (getValidCombinations_spec PersonaRegistry.personas shipped_NoDup)).
Defined.

(* ===================================================================== *)
(** * The client: retry budget, cost, model selection *)
(* ===================================================================== *)



(** C5.  For every token-usage record and source count s, in exact
    arithmetic: [estimateCost usage s] is
    promptTokens * 0.20 / 1e6 + completionTokens * 0.50 / 1e6 + s * 0.025;
    it is linear in s, [estimateCost usage s = estimateCost usage 0 +
    s * 0.025]; an all-zero usage with no source costs 0; and the cost does
    not decrease when the prompt tokens, the completion tokens or the source
    count grow. *)
Theorem estimateCost_spec (usage usage' : Usage) (s s' : nat) :
  (GrokClient.estimateCost (Some usage) s ==
     inject_Z (Z.of_nat (promptTokens usage)) * (20 # 100) / (1000000 # 1)
     + inject_Z (Z.of_nat (completionTokens usage)) * (50 # 100) / (1000000 # 1)
     + inject_Z (Z.of_nat s) * (25 # 1000))%Q
  /\ (GrokClient.estimateCost (Some usage) s ==
        GrokClient.estimateCost (Some usage) 0
        + inject_Z (Z.of_nat s) * (25 # 1000))%Q
  /\ (forall total,
        GrokClient.estimateCost
          (Some {| promptTokens := 0; completionTokens := 0;
                   totalTokens := total |}) 0 == 0)%Q
  /\ (promptTokens usage <= promptTokens usage' ->
      completionTokens usage <= completionTokens usage' ->
      s <= s' ->
      (GrokClient.estimateCost (Some usage) s <=
       GrokClient.estimateCost (Some usage') s')%Q).
Proof.
  repeat apply conj.
  - apply estimateCost_formula.
  - apply estimateCost_linear.
  - intros total. reflexivity.
  - apply estimateCost_monotone.
Qed.

(** More tokens and more sources cost more: 0.0004765 against 0.04974. *)
Lemma estimateCost_spec_witness :
  (GrokClient.estimateCost
     (Some {| promptTokens := 120; completionTokens := 905;
              totalTokens := 1025 |}) 0 <=
   GrokClient.estimateCost
     (Some {| promptTokens := 120; completionTokens := 1400;
              totalTokens := 1520 |}) 2)%Q.
Proof.
  apply (proj2 (proj2 (proj2 (estimateCost_spec
           {| promptTokens := 120; completionTokens := 905; totalTokens := 1025 |}
           {| promptTokens := 120; completionTokens := 1400; totalTokens := 1520 |}
           0 2)))); cbn; lia.
Defined.

(** C10, as stated, ends on: with the usage absent the cost is not
    monotonic in the source count.  It is: the cost is then 0 for every
    source count, so no two source counts are out of order. *)
Lemma estimateCost_absent_is_monotone :
  ~ (exists s1 s2,
       s1 <= s2 /\
       ~ (GrokClient.estimateCost None s1 <= GrokClient.estimateCost None s2)%Q).
Proof.
  intros (s1 & s2 & _ & H). apply H. cbn. apply Qle_refl.
Qed.

(** C10, amended.  With the usage argument absent, [estimateCost] is 0 for
    every source count s, s > 0 included: the per-source term is dropped,
    so the cost no longer grows with the source count (it is constant,
    hence not strictly increasing, and the linear law in s fails for every
    s > 0), while it stays monotonic non-decreasing in s. *)
Theorem estimateCost_absent_usage (s s' : nat) :
  GrokClient.estimateCost None s = 0%Q
  /\ (0 < s ->
      ~ (GrokClient.estimateCost None s ==
         GrokClient.estimateCost None 0 + inject_Z (Z.of_nat s) * (25 # 1000))%Q)
  /\ (s < s' ->
      ~ (GrokClient.estimateCost None s < GrokClient.estimateCost None s')%Q)
  /\ (s <= s' ->
      (GrokClient.estimateCost None s <= GrokClient.estimateCost None s')%Q).
Proof.
  repeat apply conj.
  - reflexivity.
  - intros Hs H. cbn in H. unfold Qeq in H. cbn in H. lia.
  - intros _ H. cbn in H. now apply Qlt_irrefl in H.
  - intros _. cbn. apply Qle_refl.
Qed.

(** Three sources and no usage: the cost is 0, not 0.075. *)
Lemma estimateCost_absent_usage_witness :
  GrokClient.estimateCost None 3 = 0%Q /\
  ~ (GrokClient.estimateCost None 3 ==
     GrokClient.estimateCost None 0 + inject_Z (Z.of_nat 3) * (25 # 1000))%Q.
Proof.
  split.
  - exact (proj1 (estimateCost_absent_usage 3 3)).
  - apply (proj1 (proj2 (estimateCost_absent_usage 3 3))). lia.
Defined.

(** C6, as stated, tests the lower-cased concatenation of topic and
    context.  The code tests the text with a space put after the topic.
    A topic of exactly 100 characters with no context and no keyword gets
    the reasoning model, though the concatenation is not longer than 100;
    and topic [leg] with context [al] gets the fast model, though the
    concatenation contains the keyword [legal]. *)
Lemma selectModel_concatenation_counterexample :
  ~ (GrokClient.selectModel topic100 None = "grok-4-fast-reasoning" <->
     (exists keyword, In keyword GrokClient.reasoningKeywords /\
                      includes (loweredConcatenation topic100 None) keyword = true)
     \/ 100 < String.length (loweredConcatenation topic100 None))
  /\
  ~ (GrokClient.selectModel "leg" (Some "al") = "grok-4-fast-reasoning" <->
     (exists keyword, In keyword GrokClient.reasoningKeywords /\
                      includes (loweredConcatenation "leg" (Some "al")) keyword = true)
     \/ 100 < String.length (loweredConcatenation "leg" (Some "al"))).
Proof.
  split.
  - intros [H _]. specialize (H eq_refl).
    destruct H as [(k & Hin & Hk) | H].
    + assert (E : existsb (fun keyword =>
                             includes (loweredConcatenation topic100 None) keyword)
                          GrokClient.reasoningKeywords = true)
        by (apply existsb_exists; eauto).
      vm_compute in E. discriminate.
    + vm_compute in H. lia.
  - intros [_ H].
    assert (E : GrokClient.selectModel "leg" (Some "al") = "grok-4-fast")
      by reflexivity.
    rewrite E in H. discriminate H. left. exists "legal". split.
    + cbn. tauto.
    + reflexivity.
Qed.

(** C6, amended.  [selectModel] is a function of (topic, context): equal
    inputs give the equal model identifier.  With the combined text being
    the lower-cased topic, one space, and the context (nothing when the
    context is absent or empty), it returns [grok-4-fast-reasoning] if and
    only if the combined text contains a keyword of the fixed set or is
    longer than 100 characters, and [grok-4-fast] otherwise; and any topic
    containing [policy] gets the reasoning model whatever its length. *)
Theorem selectModel_spec (topic : string) (context : option string) :
  let text := GrokClient.combinedText topic context in
  (forall topic' context',
     topic' = topic -> context' = context ->
     GrokClient.selectModel topic' context' = GrokClient.selectModel topic context)
  /\ text = toLowerCase (topic ++ " " ++ match context with
                                         | Some c => c
                                         | None => EmptyString
                                         end)
  /\ (GrokClient.selectModel topic context = "grok-4-fast-reasoning" <->
        (exists keyword, In keyword GrokClient.reasoningKeywords /\
                         occursIn keyword text)
        \/ 100 < String.length text)
  /\ (GrokClient.selectModel topic context = "grok-4-fast" <->
        ~ ((exists keyword, In keyword GrokClient.reasoningKeywords /\
                            occursIn keyword text)
           \/ 100 < String.length text))
  /\ (occursIn "policy" topic ->
      GrokClient.selectModel topic context = "grok-4-fast-reasoning").
Proof.
  intros text.
  assert (Hcases := selectModel_cases topic context).
  assert (Hiff := needsReasoning_iff text). fold text in Hcases.
  refine (conj _ (conj _ (conj _ (conj _ _)))).
  - now intros ? ? -> ->.
  - subst text. unfold GrokClient.combinedText. now destruct context as [[|c s]|].
  - rewrite <- Hiff, Hcases.
    destruct (existsb _ _ || _); split; intros H;
      try reflexivity; discriminate H.
  - rewrite <- Hiff, Hcases.
    destruct (existsb _ _ || _); split; intros H;
      try reflexivity; try discriminate H.
    + now elim H.
    + intros H'. discriminate H'.
  - intros Hp. rewrite Hcases.
    assert (Hneeds : existsb (fun keyword => includes text keyword)
                             GrokClient.reasoningKeywords
                     || (100 <? String.length text) = true).
    { apply Hiff. left. exists "policy". split.
      - cbn. tauto.
      - now apply combinedText_policy. }
    now rewrite Hneeds.
Qed.

(** A short topic on policy gets the reasoning model. *)
Lemma selectModel_spec_witness :
  GrokClient.selectModel "Tax policy" None = "grok-4-fast-reasoning".
Proof.
  apply (proj2 (proj2 (proj2 (proj2
           (selectModel_spec "Tax policy" None))))).
  exists "Tax ", EmptyString. reflexivity.
Defined.

(* ===================================================================== *)
(** * The voice enhancer *)
(* ===================================================================== *)

(** C8.  For every content, [enhanceContent] samples the first
    min(600, length) characters only: its one upstream call is made with
    the options built from that prefix, so two contents with the same first
    600 characters cause the same requests.  It never rejects.  When the
    call returns a text that is non-empty and longer than 50 characters
    once trimmed, the result is that text followed by the content from
    index min(600, length) on, the part beyond the sample being kept as it
    is; in every other case (short or empty text, or a failed call) the
    result is the content unchanged. *)
Theorem enhanceContent_frame
        (this : VoiceEnhancer.t) (content : string)
        (persona : PersonaProfile) (biasLevel : Q) (w : World) (s : Effects) :
  let n := Nat.min 600 (String.length content) in
  let sample := take n content in
  let call := GrokClient.generate (VoiceEnhancer.grokClient this)
                (VoiceEnhancer.enhancementOptions sample persona biasLevel) w s in
  let run := VoiceEnhancer.enhanceContent this content persona biasLevel w s in
  String.length sample = n
  /\ content = sample ++ drop n content
  /\ snd run = snd call
  /\ (forall content',
        take 600 content' = take 600 content ->
        snd (VoiceEnhancer.enhanceContent this content' persona biasLevel w s)
        = snd run)
  /\ (forall response,
        fst call = Fulfilled response ->
        GrokClient.response_content response <> EmptyString ->
        50 < String.length (trim (GrokClient.response_content response)) ->
        fst run = Fulfilled (GrokClient.response_content response ++ drop n content))
  /\ (forall response,
        fst call = Fulfilled response ->
        GrokClient.response_content response = EmptyString \/
        String.length (trim (GrokClient.response_content response)) <= 50 ->
        fst run = Fulfilled content)
  /\ (forall e, fst call = Rejected e -> fst run = Fulfilled content).
Proof.
  intros n sample call run.
  assert (Hrun : run = (Fulfilled (enhancedFrom content (fst call)), snd call))
    by apply enhanceContent_run.
  repeat apply conj.
  - subst sample n. rewrite take_length. apply Nat.min_l, Nat.le_min_r.
  - subst sample. symmetry. apply take_drop.
  - now rewrite Hrun.
  - intros content' Hsame. rewrite Hrun, enhanceContent_run. cbn [snd].
    subst call sample n. now rewrite !take_min, Hsame.
  - intros response Hcall Hne Hlong. rewrite Hrun, Hcall. cbn [fst enhancedFrom].
    apply truthy_true in Hne. apply Nat.ltb_lt in Hlong.
    now rewrite Hne, Hlong.
  - intros response Hcall Hbad. rewrite Hrun, Hcall. cbn [fst enhancedFrom].
    destruct Hbad as [-> | Hshort]; [reflexivity|].
    apply Nat.ltb_ge in Hshort. rewrite Hshort. now rewrite andb_false_r.
  - intros e Hcall. now rewrite Hrun, Hcall.
Qed.

(** A failed enhancement call leaves 501 characters of content as they
    were. *)
Lemma enhanceContent_frame_witness :
  fst (VoiceEnhancer.enhanceContent (VoiceEnhancer.mkVoiceEnhancer routeClient)
         longContent
         {| personaId := "liberal_expert";
            displayName := "Dr. Maya Chen - Policy Expert";
            description := "Elite progressive commentator";
            politicalLeaning := LIBERAL;
            expertiseLevel := EXPERT;
            characterName := "Dr. Maya Chen";
            background := "45-year-old policy professor";
            writingStyle := "Sophisticated analysis";
            keyInfluences := ["Elizabeth Warren"];
            signaturePhrases := ["The data clearly shows"];
            preferredSources := ["New York Times"];
            socialMediaHandle := "@DrMayaChenDC";
            systemPrompt := None |}
         (5 # 10)%Q (scripted [serverError]) noEffects)
  = Fulfilled longContent.
Proof.
  eapply (proj2 (proj2 (proj2 (proj2 (proj2 (proj2
            (enhanceContent_frame _ _ _ _ _ _))))))).
  reflexivity.
Defined.

(* ===================================================================== *)
(** * The orchestrator *)
(* ===================================================================== *)

(** C9.  The claim wants any leading heading markers stripped from the
    title.  They are not: [extractTitle] removes one number sign and the
    white space after it, and no more.  So for every content whose first
    non-blank line begins, once trimmed, with two number signs, the title
    is that line from its second number sign on, and still begins with a
    heading marker.  The title of [## Summary] is [# Summary], and the
    title of a content that opens with a blank line and the heading
    [### Key findings] is [## Key findings]. *)
Theorem extractTitle_keeps_heading_marker :
  (forall content blank line rest t,
     splitLines content = (blank ++ line :: rest)%list ->
     (forall b, In b blank -> trim b = EmptyString) ->
     trim line = String hash (String hash t) ->
     DebateGenerator.extractTitle content = String hash t /\
     startsWith hash (DebateGenerator.extractTitle content) = true)
  /\ DebateGenerator.extractTitle "## Summary" = "# Summary"
  /\ DebateGenerator.extractTitle "
  ### Key findings
Body" = "## Key findings".
Proof.
  refine (conj _ (conj _ _)); [|reflexivity|reflexivity].
  intros content blank line rest t Hsplit Hblank Hline.
  assert (Htitle : DebateGenerator.extractTitle content = String hash t).
  { unfold DebateGenerator.extractTitle. rewrite Hsplit.
    rewrite firstTitle_first; [|exact Hblank|rewrite Hline; discriminate].
    rewrite Hline. apply stripHeading_second. }
  split; [exact Htitle|]. rewrite Htitle. reflexivity.
Qed.

(** Above the gate, the flag is set whenever the primary call succeeds,
    whatever becomes of the enhancement call. *)
Lemma voiceEnhanced_above_gate
      (this : DebateGenerator.t) (persona : PersonaProfile) (topic : string)
      (context : option string) (useTwitterSearch : bool) (biasLevel : Q)
      (w : World) (s s' : Effects) (grokResponse : GrokClient.GrokResponse) :
  GrokClient.generate (DebateGenerator.grokClient this)
    (DebateGenerator.personaOptions persona topic context useTwitterSearch
                                    biasLevel) w s
  = (Fulfilled grokResponse, s') ->
  substantial (GrokClient.response_content grokResponse) biasLevel = true ->
  exists response,
    fst (DebateGenerator.generatePersonaResponse this persona topic context
           useTwitterSearch biasLevel w s) = Fulfilled response /\
    voiceEnhanced response = true.
Proof.
  intros H Hgate.
  rewrite (generatePersonaResponse_enhanced _ _ _ _ _ _ _ _ _ _ H Hgate).
  eexists. split; reflexivity.
Qed.

(** C1.  The claim wants the flag [voiceEnhanced] false whenever the
    enhancement fails.  It is not: the generated content has 501
    characters, the bias level is 0.5, the enhancement call is answered by
    a server error; the persona task fulfils, its content is the generated
    content character for character, and its flag is true.  The same
    happens when the enhancement call returns a text too short to use. *)
Theorem voiceEnhanced_after_failed_enhancement :
  match PersonaRegistry.getPersona PersonaRegistry.personas LIBERAL_EXPERT with
  | Some persona =>
      (let w := scripted [reply longContent; serverError] in
       let run := DebateGenerator.generatePersonaResponse routeGenerator persona
                    "Tax reform" None false (5 # 10)%Q w noEffects in
       substantial longContent (5 # 10)%Q = true /\
       requestsIssued (snd run) = 2 /\
       exists response,
         fst run = Fulfilled response /\
         content response = longContent /\
         voiceEnhanced response = true)
      /\
      (let w := scripted [reply longContent; reply "Too short."] in
       let run := DebateGenerator.generatePersonaResponse routeGenerator persona
                    "Tax reform" None false (5 # 10)%Q w noEffects in
       requestsIssued (snd run) = 2 /\
       exists response,
         fst run = Fulfilled response /\
         content response = longContent /\
         voiceEnhanced response = true)
  | None => False
  end.
Proof.
  vm_compute.
  split; [split; [reflexivity|]|]; (split; [reflexivity|]);
    eexists; repeat split; reflexivity.
Qed.

(** C3.  [generateDebate] is all or nothing.  If either requested
    identifier does not resolve, or the two profiles share a leaning, the
    call is rejected and neither persona task has issued a request.
    Otherwise the two persona tasks run; if both fulfil, the call fulfils
    with a result holding exactly two responses, the first for the first
    requested persona and the second for the second, each being what its
    task returned; if either task rejects, the call is rejected: there is
    no result with one response only. *)
Theorem generateDebate_all_or_nothing
        (this : DebateGenerator.t) (config : DebateConfig)
        (clock : DebateGenerator.Clock) (world1 world2 : World)
        (firstIs1 : bool) :
  let registry := DebateGenerator.personaRegistry this in
  let run := DebateGenerator.generateDebate this config clock world1 world2
               firstIs1 in
  (PersonaRegistry.getPersona registry (persona1Id config) = None \/
   PersonaRegistry.getPersona registry (persona2Id config) = None \/
   (exists p1 p2,
      PersonaRegistry.getPersona registry (persona1Id config) = Some p1 /\
      PersonaRegistry.getPersona registry (persona2Id config) = Some p2 /\
      politicalLeaning p1 = politicalLeaning p2) ->
   isRejected (DebateGenerator.settled run) /\
   requestsIssued (DebateGenerator.effects1 run) = 0 /\
   requestsIssued (DebateGenerator.effects2 run) = 0)
  /\
  (forall p1 p2,
     PersonaRegistry.getPersona registry (persona1Id config) = Some p1 ->
     PersonaRegistry.getPersona registry (persona2Id config) = Some p2 ->
     politicalLeaning p1 <> politicalLeaning p2 ->
     (exists response1 response2 result,
        fst (task1 this config p1 world1) = Fulfilled response1 /\
        fst (task2 this config p2 world2) = Fulfilled response2 /\
        DebateGenerator.settled run = Fulfilled result /\
        personasOf result =
          [ {| side_id := persona1Id config; side_info := p1;
               side_content := response1 |};
            {| side_id := persona2Id config; side_info := p2;
               side_content := response2 |} ] /\
        perspective response1 = politicalLeaning p1 /\
        pi_id (persona response1) = personaId p1 /\
        perspective response2 = politicalLeaning p2 /\
        pi_id (persona response2) = personaId p2)
     \/
     (isRejected (DebateGenerator.settled run) /\
      (isRejected (fst (task1 this config p1 world1)) \/
       isRejected (fst (task2 this config p2 world2))))).
Proof.
  intros registry run. split.
  - intros Hbad. apply validatePersonaPair_false in Hbad.
    subst run. rewrite (generateDebate_invalid _ _ _ _ _ _ Hbad). cbn.
    repeat split. now eexists.
  - intros p1 p2 H1 H2 Hne.
    assert (Hok : PersonaRegistry.validatePersonaPair registry
                    (persona1Id config) (persona2Id config) = true).
    { apply validatePersonaPair_true. now exists p1, p2. }
    destruct (generateDebate_valid this config clock world1 world2 firstIs1 Hok)
      as (q1 & q2 & G1 & G2 & _ & _ & Hrun).
    fold registry in G1, G2. rewrite H1 in G1. rewrite H2 in G2.
    injection G1 as <-. injection G2 as <-. fold run in Hrun.
    pose proof (generatePersonaResponse_settles this p1 (cfg_topic config)
                  (cfg_context config) (searchEnabled config)
                  (bias_persona1 (biasLevelsOf config)) world1 noEffects) as T1.
    pose proof (generatePersonaResponse_settles this p2 (cfg_topic config)
                  (cfg_context config) (searchEnabled config)
                  (bias_persona2 (biasLevelsOf config)) world2 noEffects) as T2.
    cbn zeta in T1, T2. fold (task1 this config p1 world1) in T1, Hrun.
    fold (task2 this config p2 world2) in T2, Hrun.
    destruct (fst (task1 this config p1 world1)) as [r1|e1] eqn:E1;
      destruct (fst (task2 this config p2 world2)) as [r2|e2] eqn:E2.
    + left. destruct Hrun as (result & Hres & Hs1 & Hs2).
      exists r1, r2, result. unfold personasOf. rewrite Hs1, Hs2.
      destruct (GrokClient.generate _ _ world1 noEffects) as [[g1|x1] ?];
        cbn [fst] in T1; [|discriminate].
      destruct (GrokClient.generate _ _ world2 noEffects) as [[g2|x2] ?];
        cbn [fst] in T2; [|discriminate].
      destruct T1 as (c1 & f1 & T1). destruct T2 as (c2 & f2 & T2).
      injection T1 as ->. injection T2 as ->.
      repeat split; auto.
    + right. split; [eexists; exact Hrun | right; eexists; reflexivity].
    + right. split; [eexists; exact Hrun | left; eexists; reflexivity].
    + right. split; [eexists; exact Hrun | left; eexists; reflexivity].
Qed.

(** Two liberal personas: rejected, and no request was issued, whatever
    the upstream would have answered. *)
Lemma generateDebate_all_or_nothing_witness :
  let run := DebateGenerator.generateDebate routeGenerator twoLiberals
               sampleClock (scripted [reply longContent])
               (scripted [reply longContent]) true in
  isRejected (DebateGenerator.settled run) /\
  requestsIssued (DebateGenerator.effects1 run) = 0 /\
  requestsIssued (DebateGenerator.effects2 run) = 0.
Proof.
  intros run.
  apply (proj1 (generateDebate_all_or_nothing routeGenerator twoLiberals
                  sampleClock (scripted [reply longContent])
                  (scripted [reply longContent]) true)).
  right. right. eexists. eexists. repeat split; reflexivity.
Defined.

(* ===================================================================== *)
(** * Further properties: the client *)
(* ===================================================================== *)

Section BackoffFacts.
Import GrokClient.
Local Open Scope Z_scope.

Lemma baseDelayOf_range (attempt : nat) :
  1000 <= baseDelayOf attempt <= 30000.
Proof.
  unfold baseDelayOf.
  assert (0 < 2 ^ Z.of_nat attempt) by (apply Z.pow_pos_nonneg; lia).
  lia.
Qed.

Lemma baseDelayOf_capped (attempt : nat) :
  (5 <= attempt)%nat -> baseDelayOf attempt = 30000.
Proof.
  intros H. unfold baseDelayOf.
  assert (2 ^ 5 <= 2 ^ Z.of_nat attempt) by (apply Z.pow_le_mono_r; lia).
  change (2 ^ 5) with 32 in *. lia.
Qed.

Lemma baseDelayOf_doubles (attempt : nat) :
  (attempt < 4)%nat -> baseDelayOf (S attempt) = 2 * baseDelayOf attempt.
Proof.
  intros H. unfold baseDelayOf.
  destruct attempt as [|[|[|[|n]]]]; try lia; reflexivity.
Qed.

End BackoffFacts.

(** X1.  With [Math.random()] in [0, 1), the delay before retry number
    [attempt] lies between the base delay min(1000 * 2^attempt, 30000) and
    1.3 times it; the base delay is between 1000 and 30000, doubles up to
    attempt 4 and is 30000 from attempt 5 on, so no delay exceeds 39000
    milliseconds.  (The bounds are closed: they hold of the rounded
    arithmetic of the code as well, where the upper ones can be met.) *)
Theorem getRetryDelay_bounds (attempt : nat) (r : Q) :
  (0 <= r)%Q -> (r < 1)%Q ->
  let base := baseDelayOf attempt in
  let delay := GrokClient.getRetryDelay attempt r in
  (1000 <= base <= 30000)%Z
  /\ (base <= delay)%Z
  /\ (inject_Z delay <= (13 # 10) * inject_Z base)%Q
  /\ (delay <= 39000)%Z
  /\ (attempt < 4 -> baseDelayOf (S attempt) = (2 * base)%Z)
  /\ (5 <= attempt -> base = 30000%Z).
Proof.
  intros H0 H1 base delay.
  pose proof (baseDelayOf_range attempt) as Hb. fold base in Hb.
  assert (Hpos : (0 <= inject_Z base)%Q).
  { change 0%Q with (inject_Z 0). rewrite <- Zle_Qle. lia. }
  assert (Hjit : (0 <= r * (3 # 10) * inject_Z base)%Q).
  { apply Qmult_le_0_compat; [apply Qmult_le_0_compat|]; auto. discriminate. }
  assert (Hup : (inject_Z base + r * (3 # 10) * inject_Z base
                 <= (13 # 10) * inject_Z base)%Q).
  { setoid_replace ((13 # 10) * inject_Z base)%Q
      with (inject_Z base + 1 * (3 # 10) * inject_Z base)%Q by ring.
    apply Qplus_le_r. apply Qmult_le_compat_r; [|exact Hpos].
    apply Qmult_le_compat_r; [|discriminate]. now apply Qlt_le_weak. }
  assert (Hfloor : (inject_Z delay
                    <= inject_Z base + r * (3 # 10) * inject_Z base)%Q)
    by apply Qfloor_le.
  repeat apply conj.
  - apply Hb.
  - apply Hb.
  - subst delay. unfold GrokClient.getRetryDelay. fold (baseDelayOf attempt).
    fold base. rewrite <- (Qfloor_Z base) at 1. apply Qfloor_resp_le.
    rewrite <- (Qplus_0_r (inject_Z base)) at 1. now apply Qplus_le_r.
  - eapply Qle_trans; eassumption.
  - assert (Hle : (inject_Z delay <= inject_Z 39000)%Q).
    { eapply Qle_trans; [exact Hfloor|]. eapply Qle_trans; [exact Hup|].
      setoid_replace (inject_Z 39000) with ((13 # 10) * inject_Z 30000)%Q
        by reflexivity.
      apply Qmult_le_l; [reflexivity|]. rewrite <- Zle_Qle. lia. }
    now rewrite <- Zle_Qle in Hle.
  - apply baseDelayOf_doubles.
  - apply baseDelayOf_capped.
Qed.

(** The third retry with half the jitter waits 9200 ms, within
    [8000, 10400]. *)
Lemma getRetryDelay_bounds_witness :
  (baseDelayOf 3 <= GrokClient.getRetryDelay 3 (1 # 2))%Z /\
  (GrokClient.getRetryDelay 3 (1 # 2) <= 39000)%Z.
Proof.
  destruct (getRetryDelay_bounds 3 (1 # 2)) as (_ & Hlo & _ & Hhi & _).
  - discriminate.
  - reflexivity.
  - split; [exact Hlo | exact Hhi].
Defined.

Section RetryMore.
Import GrokClient.

Variables (requestBody : RequestBody) (model : string) (useSearch : bool).
Variable w : World.

Lemma delaysFrom_S (attempt k n : nat) :
  delaysFrom w attempt k (S n) =
  getRetryDelay attempt (random w k) :: delaysFrom w (S attempt) (S k) n.
Proof.
  unfold delaysFrom. cbn [seq map]. rewrite !Nat.add_0_r. f_equal.
  rewrite <- seq_shift, map_map. apply map_ext. intros j.
  now rewrite !Nat.add_succ_r.
Qed.

(** The loop sleeps once after every rate-limited attempt, the last one
    included. *)
Lemma retryLoop_backoffs (remaining : nat) :
  forall (attempt : nat) (lastError : Exn) (s : Effects),
  let run := retryLoop requestBody model useSearch remaining attempt lastError w s in
  exists made sleeps,
    length (fetched (snd run)) = length (fetched s) + made /\
    slept (snd run) =
      (slept s ++ delaysFrom w attempt (length (slept s)) sleeps)%list /\
    (made = 0 -> remaining = 0) /\
    ((made = sleeps /\ (made = 0 -> fst run = Rejected lastError) /\
      (0 < made -> rateLimited (fst run) = true))
     \/ (made = sleeps + 1 /\ rateLimited (fst run) = false)).
Proof.
  induction remaining as [|r IH]; intros attempt lastError s run.
  - exists 0, 0. subst run. cbn. rewrite app_nil_r.
    repeat apply conj; auto. left. repeat apply conj; auto. lia.
  - subst run. cbn [retryLoop]. unfold tryCatch. rewrite tryBlock_run.
    destruct (attemptOutcome model useSearch (answer w (length (fetched s))))
      as [resp | e] eqn:E0.
    + exists 1, 0. cbn. rewrite length_app, app_nil_r. cbn.
      repeat apply conj; auto; try lia.
    + destruct (isRateLimit e) eqn:Erl.
      * rewrite backoff_then. cbn [fetched slept].
        set (s2 := {| fetched := _; slept := _ |}).
        destruct (IH (S attempt) e s2) as (made & sleeps & Hf & Hs & _ & Hcase).
        exists (S made), (S sleeps). repeat apply conj.
        -- rewrite Hf. subst s2. cbn. rewrite length_app. cbn. lia.
        -- rewrite Hs. subst s2. cbn [slept]. rewrite <- app_assoc. cbn [app].
           rewrite delaysFrom_S. do 3 f_equal. rewrite length_app. cbn. lia.
        -- discriminate.
        -- destruct Hcase as [(Hm & H0 & Hpos) | (Hm & Hno)].
           ++ left. repeat apply conj; [lia | discriminate |].
              intros _. destruct made as [|m].
              ** rewrite (H0 eq_refl). exact Erl.
              ** apply Hpos. lia.
           ++ right. split; [lia | exact Hno].
      * exists 1, 0. cbn. rewrite length_app, app_nil_r. cbn.
        repeat apply conj; auto; try lia.
Qed.

End RetryMore.

(** X2.  [generate] backs off once after every attempt that was rate
    limited, also after the last one when the budget is spent: the delays
    it sleeps are those of the retries 0, 1, 2, ... in order; a call that
    ends on a rate-limit error has slept as many times as it posted
    requests, which is as many as the loop test allows ([maxRetries], when
    that is a natural number), every other call once less. *)
Theorem generate_backoffs
        (this : GrokClient.t) (options : GrokClient.GrokGenerateOptions)
        (w : World) (s : Effects) :
  let run := GrokClient.generate this options w s in
  let made := requestsIssued (snd run) - requestsIssued s in
  let sleeps := length (slept (snd run)) - length (slept s) in
  slept (snd run) = (slept s ++ delaysFrom w 0 (length (slept s)) sleeps)%list
  /\ (rateLimited (fst run) = true ->
      sleeps = made /\ made = GrokClient.attempts this)
  /\ (rateLimited (fst run) = false -> 0 < GrokClient.attempts this ->
      made = sleeps + 1).
Proof.
  intros run made sleeps.
  destruct (retryLoop_backoffs (GrokClient.buildRequestBody options)
              (rb_model (GrokClient.buildRequestBody options))
              (searchOf options) w (GrokClient.attempts this) 0 Undefined s)
    as (m & n & Hf & Hs & H0 & Hcase).
  change (GrokClient.retryLoop _ _ _ _ _ _ w s) with run in Hf, Hs, Hcase.
  assert (Hmade : made = m) by (subst made; unfold requestsIssued; lia).
  assert (Hsleeps : sleeps = n).
  { subst sleeps. rewrite Hs, length_app. unfold delaysFrom.
    rewrite length_map, length_seq. lia. }
  rewrite Hmade, Hsleeps. repeat apply conj.
  - exact Hs.
  - destruct Hcase as [(Hm & Hz & Hpos) | (Hm & Hno)]; [|congruence].
    intros Hrl. split; [lia|].
    destruct (retryLoop_run (GrokClient.buildRequestBody options)
                (rb_model (GrokClient.buildRequestBody options))
                (searchOf options) w (GrokClient.attempts this) 0 Undefined s)
      as (m' & Hle & Hf' & _ & Hz' & HS').
    change (GrokClient.retryLoop _ _ _ _ _ _ w s) with run in Hf', Hz', HS'.
    assert (m' = m) as ->.
    { apply (f_equal (@length Request)) in Hf'.
      rewrite length_app, repeat_length in Hf'. lia. }
    destruct m as [|k].
    + rewrite (Hz eq_refl) in Hrl. discriminate.
    + destruct (HS' k eq_refl) as [Hrun Hlast]. apply Hlast.
      now rewrite <- Hrun.
  - destruct Hcase as [(Hm & Hz & Hpos) | (Hm & Hno)]; [|intros; lia].
    intros Hrl Hbudget. destruct m as [|k].
    + specialize (H0 eq_refl). lia.
    + rewrite Hpos in Hrl by lia. discriminate.
Qed.

(** Three rate-limit errors with the budget of 3: three requests and three
    sleeps, of 1000, 2000 and 4000 ms without jitter. *)
Lemma generate_backoffs_witness :
  let run := GrokClient.generate routeClient plainOptions
               (scripted [tooManyRequests; tooManyRequests; tooManyRequests])
               noEffects in
  length (slept (snd run)) - length (slept noEffects)
  = requestsIssued (snd run) - requestsIssued noEffects
  /\ slept (snd run) = [1000; 2000; 4000]%Z.
Proof.
  intros run. split; [|reflexivity].
  apply (proj1 (proj2 (generate_backoffs routeClient plainOptions
                         (scripted [tooManyRequests; tooManyRequests;
                                    tooManyRequests]) noEffects))).
  reflexivity.
Defined.

Section ParseFacts.
Import GrokClient.

Lemma parseResponse_rejected (response : ApiResponse) (model : string)
      (useSearch : bool) :
  hasChoice response = false ->
  parseResponse response model useSearch = Rejected noChoicesError.
Proof.
  unfold hasChoice, parseResponse.
  destruct (choices response) as [[|c cs]|]; intros H;
    try discriminate; reflexivity.
Qed.

Lemma parseResponse_fulfilled (response : ApiResponse) (model : string)
      (useSearch : bool) (g : GrokResponse) :
  parseResponse response model useSearch = Fulfilled g ->
  hasChoice response = true /\
  GrokClient.model g = model /\
  response_content g = orEmpty (firstContent response) /\
  (usage g = None <-> api_usage response = None).
Proof.
  unfold hasChoice, parseResponse, orEmpty, firstContent.
  destruct (choices response) as [[|c cs]|]; try discriminate.
  destruct (if useSearch then _ else None); intros H; injection H as <-; cbn;
    (repeat apply conj; auto; destruct (api_usage response); intros; congruence).
Qed.

Lemma attemptOutcome_fulfilled (model : string) (useSearch : bool)
      (o : FetchOutcome) (g : GrokResponse) :
  attemptOutcome model useSearch o = Fulfilled g ->
  exists json, o = HttpOk json /\
               parseResponse json model useSearch = Fulfilled g.
Proof.
  unfold attemptOutcome. destruct o; cbn; try discriminate.
  intros H. now exists json.
Qed.

End ParseFacts.

(** X3.  An HTTP success whose body has no choice (the list is absent or
    empty) is an error without status code: [generate] posts that one
    request, does not retry and does not sleep, whatever the retry budget
    (if it is positive), and rejects with the error of [parseResponse]. *)
Theorem generate_no_choices
        (this : GrokClient.t) (options : GrokClient.GrokGenerateOptions)
        (w : World) (s : Effects) (json : ApiResponse) :
  (0 < GrokClient.maxRetries this)%Q ->
  answer w (requestsIssued s) = HttpOk json ->
  hasChoice json = false ->
  GrokClient.generate this options w s =
  (Rejected noChoicesError,
   {| fetched := (fetched s ++ [requestOf options])%list;
      slept := slept s |}).
Proof.
  intros Hbudget Hanswer Hnone. unfold GrokClient.generate.
  apply attempts_positive in Hbudget.
  destruct (GrokClient.attempts this) as [|r]; [lia|].
  cbn [GrokClient.retryLoop]. unfold tryCatch. rewrite tryBlock_run.
  unfold requestsIssued in Hanswer. rewrite Hanswer.
  unfold attemptOutcome. cbn [GrokClient.settleFetch].
  now rewrite (parseResponse_rejected _ _ _ Hnone).
Qed.

(** An empty list of choices, the budget of 3: one request, no sleep. *)
Lemma generate_no_choices_witness :
  let w := scripted [HttpOk {| choices := Some []; api_usage := None;
                               search_results := None;
                               api_sources := None |}] in
  fst (GrokClient.generate routeClient plainOptions w noEffects)
  = Rejected noChoicesError /\
  requestsIssued (snd (GrokClient.generate routeClient plainOptions w noEffects))
  = 1.
Proof.
  intros w.
  rewrite (generate_no_choices routeClient plainOptions w noEffects
             {| choices := Some []; api_usage := None;
                search_results := None; api_sources := None |});
    [split; reflexivity | reflexivity | reflexivity | reflexivity].
Defined.

(** X4.  When [generate] fulfils, its last request was answered by an HTTP
    success with a first choice, and every request before it by a
    rate-limit error; the content returned is the text of that choice (the
    empty string when it is missing), and the model reported is the model
    that was requested ([grok-4-fast] by default), not one read from the
    upstream response. *)
Theorem generate_fulfilled
        (this : GrokClient.t) (options : GrokClient.GrokGenerateOptions)
        (w : World) (s : Effects) (g : GrokClient.GrokResponse) :
  let run := GrokClient.generate this options w s in
  fst run = Fulfilled g ->
  exists k json,
    requestsIssued (snd run) = requestsIssued s + S k /\
    answer w (requestsIssued s + k) = HttpOk json /\
    hasChoice json = true /\
    (forall j, j < k ->
       rateLimited (attemptOutcome (modelOf options) (searchOf options)
                      (answer w (requestsIssued s + j))) = true) /\
    GrokClient.response_content g = orEmpty (firstContent json) /\
    GrokClient.model g = modelOf options.
Proof.
  intros run Hrun.
  destruct (retryLoop_run (GrokClient.buildRequestBody options)
              (rb_model (GrokClient.buildRequestBody options))
              (searchOf options) w (GrokClient.attempts this) 0 Undefined s)
    as (m & Hle & Hf & Hrl & H0 & HS).
  change (GrokClient.retryLoop _ _ _ _ _ _ w s) with run in Hf, H0, HS.
  change (rb_model (GrokClient.buildRequestBody options))
    with (modelOf options) in *.
  destruct m as [|k].
  - destruct (H0 eq_refl) as [_ Hrej]. congruence.
  - destruct (HS k eq_refl) as [Hlast _]. rewrite Hrun in Hlast.
    symmetry in Hlast.
    apply attemptOutcome_fulfilled in Hlast as (json & Hjson & Hparse).
    apply parseResponse_fulfilled in Hparse as (Hc & Hm & Hcontent & _).
    exists k, json. repeat apply conj; auto.
    + unfold requestsIssued. rewrite Hf, length_app, repeat_length. lia.
    + intros j Hj. apply Hrl. lia.
Qed.

(** One rate-limit error, then a success: two requests, the model of the
    request. *)
Lemma generate_fulfilled_witness :
  exists k json,
    answer (scripted [tooManyRequests; reply "Hello"]) (0 + k) = HttpOk json /\
    hasChoice json = true.
Proof.
  destruct (generate_fulfilled routeClient plainOptions
              (scripted [tooManyRequests; reply "Hello"]) noEffects
              {| GrokClient.response_content := "Hello";
                 GrokClient.usage := Some {| promptTokens := 120;
                                             completionTokens := 900;
                                             totalTokens := 1020 |};
                 GrokClient.model := "grok-4-fast";
                 GrokClient.sources := None;
                 GrokClient.searchCost := None |} eq_refl)
    as (k & json & _ & Hanswer & Hchoice & _).
  exists k, json. split; [exact Hanswer | exact Hchoice].
Defined.

(** X5.  Sources are reported only to a call that enabled search: then
    they are read from [search_results], or from [sources] when
    [search_results] is absent (an empty [search_results] wins over
    [sources]); there is one reported source per search result, the search
    cost is 0.025 per source, and that is the amount by which
    [estimateCost] grows with the number of reported sources.  Without
    search the response carries neither sources nor a search cost, whatever
    the upstream sent. *)
Theorem parseResponse_sources
        (response : ApiResponse) (model : string) (useSearch : bool)
        (g : GrokClient.GrokResponse) :
  GrokClient.parseResponse response model useSearch = Fulfilled g ->
  (useSearch = false \/ searchResultsOf response = None ->
     GrokClient.sources g = None /\ GrokClient.searchCost g = None)
  /\ (forall results,
        useSearch = true -> searchResultsOf response = Some results ->
        exists reported cost,
          GrokClient.sources g = Some reported /\
          reported = map GrokClient.parseSource results /\
          length reported = length results /\
          GrokClient.searchCost g = Some cost /\
          (cost == inject_Z (Z.of_nat (length results)) * (25 # 1000))%Q /\
          forall u,
            (GrokClient.estimateCost (Some u) (length reported) ==
             GrokClient.estimateCost (Some u) 0 + cost)%Q)
  /\ (useSearch = true -> search_results response = Some [] ->
      GrokClient.sources g = Some []).
Proof.
  unfold GrokClient.parseResponse, searchResultsOf, GrokClient.orArr.
  destruct (choices response) as [[|c cs]|]; try discriminate.
  destruct useSearch.
  - destruct (search_results response) as [l|] eqn:Es.
    + intros H. injection H as <-. cbn. repeat apply conj.
      * intros [H | H]; discriminate.
      * intros results _ Hr. injection Hr as <-.
        eexists. eexists. repeat apply conj; try reflexivity.
        -- apply length_map.
        -- intros u. rewrite length_map. apply estimateCost_linear.
      * intros _ Hl. now injection Hl as ->.
    + destruct (api_sources response) as [l|] eqn:Ea.
      * intros H. injection H as <-. cbn. repeat apply conj.
        -- intros [H | H]; discriminate.
        -- intros results _ Hr. injection Hr as <-.
           eexists. eexists. repeat apply conj; try reflexivity.
           ++ apply length_map.
           ++ intros u. rewrite length_map. apply estimateCost_linear.
        -- intros _ Hl. discriminate.
      * intros H. injection H as <-. cbn. repeat apply conj; auto.
        -- intros results _ Hr. discriminate.
        -- intros _ Hl. discriminate.
  - intros H. injection H as <-. cbn. repeat apply conj; auto.
    + intros results Hs. discriminate.
    + intros Hs. discriminate.
Qed.

(** Two search results: two sources, a search cost of 0.05. *)
Lemma parseResponse_sources_witness :
  match GrokClient.parseResponse
          (searchReply "Text" [postOf "https://x.com/a/1";
                               postOf "https://x.com/b/2"])
          "grok-4-fast" true with
  | Fulfilled g =>
      exists reported cost,
        GrokClient.sources g = Some reported /\
        length reported = 2 /\
        GrokClient.searchCost g = Some cost /\
        (cost == 5 # 100)%Q
  | Rejected _ => False
  end.
Proof.
  destruct (GrokClient.parseResponse _ _ _) as [g|e] eqn:E;
    [|vm_compute in E; discriminate].
  destruct (proj1 (proj2 (parseResponse_sources _ _ _ _ E))
              [postOf "https://x.com/a/1"; postOf "https://x.com/b/2"]
              eq_refl eq_refl)
    as (reported & cost & Hs & _ & Hlen & Hc & Hcost & _).
  exists reported, cost. repeat apply conj; auto.
  apply (Qeq_trans _ _ _ Hcost). reflexivity.
Defined.

(** X6.  The library copy of [parseResponse] and the copy of the
    application agree on every response when search is off, and when
    search is on as long as the results come under [search_results] (or
    there are none at all) with [url], [title] and [snippet] present and
    not empty.  They differ on results sent under [sources] only: the
    library copy reports no source there. *)
Theorem parseResponse_versions
        (response : ApiResponse) (model : string) (useSearch : bool) :
  (useSearch = false ->
     GrokClient.parseResponseLib response model useSearch
     = GrokClient.parseResponse response model useSearch)
  /\ (forall results,
        search_results response = Some results ->
        forallb plainSource results = true ->
        GrokClient.parseResponseLib response model useSearch
        = GrokClient.parseResponse response model useSearch)
  /\ (search_results response = None -> api_sources response = None ->
      GrokClient.parseResponseLib response model useSearch
      = GrokClient.parseResponse response model useSearch)
  /\ (forall results g,
        useSearch = true ->
        search_results response = None ->
        api_sources response = Some results ->
        GrokClient.parseResponseLib response model useSearch = Fulfilled g ->
        GrokClient.sources g = None /\
        exists g', GrokClient.parseResponse response model useSearch
                   = Fulfilled g' /\
                   GrokClient.sources g'
                   = Some (map GrokClient.parseSource results)).
Proof.
  unfold GrokClient.parseResponseLib, GrokClient.parseResponse, GrokClient.orArr.
  repeat apply conj.
  - intros ->. reflexivity.
  - intros results Hr Hplain. rewrite Hr.
    destruct (choices response) as [[|c cs]|]; try reflexivity.
    destruct useSearch; [|reflexivity]. do 3 f_equal.
    apply map_ext_in. intros src Hin.
    rewrite forallb_forall in Hplain. specialize (Hplain src Hin).
    unfold plainSource in Hplain. unfold GrokClient.parseSource, orStr in *.
    destruct (src_url src) as [[|? ?]|]; try discriminate;
      destruct (src_title src) as [[|? ?]|]; try discriminate;
      destruct (src_snippet src) as [[|? ?]|]; try discriminate.
    reflexivity.
  - intros -> ->. now destruct useSearch.
  - intros results g -> Hr Ha. rewrite Hr, Ha.
    destruct (choices response) as [[|c cs]|]; try discriminate.
    intros H. injection H as <-. cbn. split; [reflexivity|].
    eexists. split; reflexivity.
Qed.

(** Two plain search results are read alike by both copies. *)
Lemma parseResponse_versions_witness :
  GrokClient.parseResponseLib
    (searchReply "Text" [postOf "https://x.com/a/1"; postOf "https://x.com/b/2"])
    "grok-4-fast" true
  = GrokClient.parseResponse
      (searchReply "Text" [postOf "https://x.com/a/1"; postOf "https://x.com/b/2"])
      "grok-4-fast" true.
Proof.
  apply (proj1 (proj2 (parseResponse_versions _ _ _))
           [postOf "https://x.com/a/1"; postOf "https://x.com/b/2"]);
    reflexivity.
Defined.

(** X7.  The constructor rejects exactly the configurations whose API key
    is empty.  A client it builds keeps the key, has the configured base
    URL or the default one, and has as its retry budget the configured
    number, or 3 when that is absent or 0: a negative or fractional number
    is kept as it is.  When the configured budget is not negative, every
    [generate] call of the client posts at least one request and never
    rejects with [undefined]; when it is negative, every [generate] call
    posts no request, does not sleep, and rejects with [undefined]. *)
Theorem constructor_client
        (config : GrokClient.GrokApiConfig)
        (options : GrokClient.GrokGenerateOptions) (w : World) (s : Effects) :
  (GrokClient.cfg_apiKey config = EmptyString <->
   GrokClient.constructor config
   = Rejected (ErrorObject "XAI_API_KEY is required"))
  /\ (forall client,
        GrokClient.constructor config = Fulfilled client ->
        GrokClient.apiKey client = GrokClient.cfg_apiKey config /\
        (forall m, GrokClient.cfg_maxRetries config = Some m ->
                   ~ (m == 0)%Q -> GrokClient.maxRetries client = m) /\
        (GrokClient.cfg_maxRetries config = None \/
         (exists m, GrokClient.cfg_maxRetries config = Some m /\ (m == 0)%Q) ->
         GrokClient.maxRetries client = 3%Q) /\
        GrokClient.baseUrl client =
          match firstGiven [GrokClient.cfg_baseUrl config] with
          | Some u => u
          | None => "https://api.x.ai/v1"
          end /\
        let run := GrokClient.generate client options w s in
        ((forall m, GrokClient.cfg_maxRetries config = Some m -> (0 <= m)%Q) ->
         1 <= GrokClient.attempts client /\
         requestsIssued s < requestsIssued (snd run) /\
         fst run <> Rejected Undefined) /\
        (forall m, GrokClient.cfg_maxRetries config = Some m -> (m < 0)%Q ->
         GrokClient.attempts client = 0 /\
         run = (Rejected Undefined, s))).
Proof.
  unfold GrokClient.constructor. cbn.
  destruct (GrokClient.cfg_apiKey config) as [|c key] eqn:Ek; cbn.
  - split; [split; reflexivity|]. intros client H. discriminate.
  - split; [split; discriminate|].
    intros client H. injection H as Hc.
    assert (Hmax : GrokClient.maxRetries client
                   = GrokClient.orNum (GrokClient.cfg_maxRetries config) 3%Q)
      by now rewrite <- Hc.
    refine (conj _ (conj _ (conj _ (conj _ (conj _ _))))).
    + now rewrite <- Hc.
    + intros m Hm Hne. rewrite Hmax, Hm. cbn.
      destruct (Qeq_bool m 0) eqn:E; [|reflexivity].
      apply Qeq_bool_iff in E. contradiction.
    + intros [Hnone | (m & Hm & Hz)]; rewrite Hmax.
      * now rewrite Hnone.
      * rewrite Hm. cbn. apply Qeq_bool_iff in Hz. now rewrite Hz.
    + rewrite <- Hc. cbn.
      now destruct (GrokClient.cfg_baseUrl config) as [[|? ?]|].
    + intros Hnonneg.
      assert (Hpos : (0 < GrokClient.maxRetries client)%Q).
      { rewrite Hmax.
        destruct (GrokClient.cfg_maxRetries config) as [m|]; cbn;
          [|reflexivity].
        destruct (Qeq_bool m 0) eqn:E; [reflexivity|].
        apply Qeq_bool_neq in E. specialize (Hnonneg m eq_refl).
        apply Qle_lteq in Hnonneg. destruct Hnonneg as [Hlt | Heq]; [exact Hlt|].
        exfalso. apply E. now symmetry. }
      apply attempts_positive in Hpos.
      destruct (retryLoop_run (GrokClient.buildRequestBody options)
                  (rb_model (GrokClient.buildRequestBody options))
                  (searchOf options) w (GrokClient.attempts client) 0
                  Undefined s) as (m & _ & Hf & _ & H0 & HS).
      change (GrokClient.retryLoop _ _ _ _ _ _ w s)
        with (GrokClient.generate client options w s) in Hf, H0, HS.
      assert (Hm : 0 < m).
      { destruct m; [|lia]. destruct (H0 eq_refl) as [Hz _]. lia. }
      repeat apply conj.
      * lia.
      * unfold requestsIssued. rewrite Hf, length_app, repeat_length. lia.
      * destruct m as [|k]; [lia|].
        destruct (HS k eq_refl) as [-> _]. unfold attemptOutcome.
        destruct (answer w _); cbn; try discriminate.
        unfold GrokClient.parseResponse.
        destruct (choices json) as [[|? ?]|]; try discriminate.
        destruct (if searchOf options then _ else None); discriminate.
    + intros m Hm Hneg.
      assert (Hkept : GrokClient.maxRetries client = m).
      { rewrite Hmax, Hm. cbn. destruct (Qeq_bool m 0) eqn:E; [|reflexivity].
        apply Qeq_bool_iff in E. rewrite E in Hneg.
        now apply Qlt_irrefl in Hneg. }
      assert (Hnone : GrokClient.attempts client = 0).
      { apply attempts_none. rewrite Hkept. now apply Qlt_le_weak. }
      split; [exact Hnone|].
      unfold GrokClient.generate. now rewrite Hnone.
Qed.

(** A configured budget of 0: the client retries up to 3 times. *)
Lemma constructor_client_witness :
  exists client,
    GrokClient.constructor
      {| GrokClient.cfg_apiKey := "xai-key";
         GrokClient.cfg_baseUrl := None;
         GrokClient.cfg_timeout := None;
         GrokClient.cfg_maxRetries := Some 0%Q |} = Fulfilled client /\
    GrokClient.maxRetries client = 3%Q.
Proof.
  eexists. split; [reflexivity|].
  apply (proj1 (proj2 (proj2 (proj2 (constructor_client
                  {| GrokClient.cfg_apiKey := "xai-key";
                     GrokClient.cfg_baseUrl := None;
                     GrokClient.cfg_timeout := None;
                     GrokClient.cfg_maxRetries := Some 0%Q |}
                  plainOptions (scripted []) noEffects) _ eq_refl)))).
  right. exists 0%Q. split; reflexivity.
Defined.

(** X8.  [createGrokClient] takes the first key that is present and not
    empty among its argument, [XAI_API_KEY] and [NEXT_PUBLIC_XAI_API_KEY],
    in that order, and builds the default client around it (default
    address, budget 3); without any key it rejects with its own message,
    never with that of the constructor. *)
Theorem createGrokClient_key (env : GrokClient.Env) (apiKey : option string) :
  let key := firstGiven [apiKey; GrokClient.XAI_API_KEY env;
                         GrokClient.NEXT_PUBLIC_XAI_API_KEY env] in
  (key = None ->
   GrokClient.createGrokClient env apiKey =
   Rejected (ErrorObject
     "XAI API key not found. Set XAI_API_KEY or NEXT_PUBLIC_XAI_API_KEY environment variable."))
  /\ (forall k, key = Some k ->
        GrokClient.createGrokClient env apiKey =
        Fulfilled {| GrokClient.apiKey := k;
                     GrokClient.baseUrl := "https://api.x.ai/v1";
                     GrokClient.timeout := 60000%Z;
                     GrokClient.maxRetries := 3%Q |}).
Proof.
  unfold GrokClient.createGrokClient, GrokClient.constructor.
  destruct apiKey as [[|a ak]|];
    destruct (GrokClient.XAI_API_KEY env) as [[|b bk]|];
    destruct (GrokClient.NEXT_PUBLIC_XAI_API_KEY env) as [[|c ck]|];
    cbn; split; intros; try discriminate; try reflexivity;
    match goal with H : Some _ = Some _ |- _ => now injection H as <- end.
Qed.

(** An empty argument and a server-side key: the server-side key is used. *)
Lemma createGrokClient_key_witness :
  GrokClient.createGrokClient
    {| GrokClient.XAI_API_KEY := Some "server-key";
       GrokClient.NEXT_PUBLIC_XAI_API_KEY := Some "public-key";
       GrokClient.XAI_BASE_URL := None |} (Some EmptyString)
  = Fulfilled {| GrokClient.apiKey := "server-key";
                 GrokClient.baseUrl := "https://api.x.ai/v1";
                 GrokClient.timeout := 60000%Z;
                 GrokClient.maxRetries := 3%Q |}.
Proof.
  apply (proj2 (createGrokClient_key _ _)). reflexivity.
Defined.

(* ===================================================================== *)
(** * Further properties: the persona task and the orchestrator *)
(* ===================================================================== *)

Section TemperatureFacts.
Local Open Scope Q_scope.

Lemma scaled_range (b c : Q) :
  0 <= b -> b <= 1 -> 0 <= c -> 0 <= b * c /\ b * c <= c.
Proof.
  intros H0 H1 Hc. split.
  - now apply Qmult_le_0_compat.
  - setoid_replace c with (1 * c) at 2 by ring.
    now apply Qmult_le_compat_r.
Qed.

Lemma offset_range (base b c : Q) :
  0 <= b -> b <= 1 -> 0 <= c ->
  base <= base + b * c /\ base + b * c <= base + c.
Proof.
  intros H0 H1 Hc. destruct (scaled_range b c H0 H1 Hc) as [Hlo Hhi]. split.
  - rewrite <- (Qplus_0_r base) at 1. now apply Qplus_le_r.
  - now apply Qplus_le_r.
Qed.

End TemperatureFacts.

(** X9.  For a bias level in [0, 1] the temperature of a persona is in
    [0.65, 0.90] for an expert and in [0.70, 0.95] for a grassroots
    persona; it does not decrease when the bias level grows; and it is the
    temperature of the request that the persona task posts. *)
Theorem getPersonaTemperature_range
        (persona : PersonaProfile) (biasLevel : Q) :
  (0 <= biasLevel)%Q -> (biasLevel <= 1)%Q ->
  let temperature := DebateGenerator.getPersonaTemperature persona biasLevel in
  (expertiseLevel persona = EXPERT ->
     (65 # 100 <= temperature)%Q /\ (temperature <= 90 # 100)%Q)
  /\ (expertiseLevel persona = GRASSROOTS ->
        (70 # 100 <= temperature)%Q /\ (temperature <= 95 # 100)%Q)
  /\ (forall higher, (biasLevel <= higher)%Q ->
        (temperature <= DebateGenerator.getPersonaTemperature persona higher)%Q)
  /\ (forall topic context useTwitterSearch,
        rb_temperature
          (primaryBody persona topic context useTwitterSearch biasLevel)
        = temperature).
Proof.
  intros H0 H1 temperature. subst temperature.
  unfold DebateGenerator.getPersonaTemperature. repeat apply conj.
  - intros ->. cbn [expertise_eqb].
    destruct (offset_range (65 # 100) biasLevel (25 # 100) H0 H1) as [Hlo Hhi];
      [discriminate|]. split; [exact Hlo|].
    eapply Qle_trans; [exact Hhi|]. discriminate.
  - intros ->. cbn [expertise_eqb].
    destruct (offset_range (7 # 10) biasLevel (25 # 100) H0 H1) as [Hlo Hhi];
      [discriminate|]. split.
    + eapply Qle_trans; [|exact Hlo]. discriminate.
    + eapply Qle_trans; [exact Hhi|]. discriminate.
  - intros higher Hh. apply Qplus_le_r.
    apply Qmult_le_compat_r; [exact Hh | discriminate].
  - reflexivity.
Qed.

(** The default bias level 0.5 gives an expert the temperature 0.775. *)
Lemma getPersonaTemperature_range_witness :
  (65 # 100 <= DebateGenerator.getPersonaTemperature
                 (profileOf "liberal_expert" LIBERAL EXPERT) (5 # 10))%Q /\
  (DebateGenerator.getPersonaTemperature
     (profileOf "liberal_expert" LIBERAL EXPERT) (5 # 10) <= 90 # 100)%Q.
Proof.
  apply (proj1 (getPersonaTemperature_range
                  (profileOf "liberal_expert" LIBERAL EXPERT) (5 # 10)
                  ltac:(discriminate) ltac:(discriminate))).
  reflexivity.
Defined.

(** X10.  The request of the voice enhancer, for every sample and persona
    and a bias level in [0, 1]: two messages, the system message of the
    voice coach and the user message with the enhancement prompt; the
    model [grok-4-fast]; at most 800 output tokens; a temperature in
    [0.8, 0.9]; no stop list and no search parameters. *)
Theorem enhancement_request
        (contentSample : string) (persona : PersonaProfile) (biasLevel : Q) :
  (0 <= biasLevel)%Q -> (biasLevel <= 1)%Q ->
  let requestBody := enhancementBody contentSample persona biasLevel in
  messages requestBody =
    [ {| role := "system";
         msg_content := VoiceEnhancer.getEnhancementSystemPrompt persona |};
      {| role := "user";
         msg_content := VoiceEnhancer.createEnhancementPrompt
                          contentSample persona biasLevel |} ]
  /\ rb_model requestBody = "grok-4-fast"
  /\ max_tokens requestBody = 800
  /\ (8 # 10 <= rb_temperature requestBody)%Q
  /\ (rb_temperature requestBody <= 9 # 10)%Q
  /\ rb_stop requestBody = None
  /\ search_parameters requestBody = None.
Proof.
  intros H0 H1 requestBody. subst requestBody.
  unfold enhancementBody, GrokClient.buildRequestBody. cbn.
  destruct (offset_range (8 # 10) biasLevel (1 # 10) H0 H1) as [Hlo Hhi];
    [discriminate|].
  repeat apply conj; auto.
  eapply Qle_trans; [exact Hhi|]. discriminate.
Qed.

(** At the default bias level the enhancer asks with temperature 0.85. *)
Lemma enhancement_request_witness :
  search_parameters
    (enhancementBody "A sample" (profileOf "liberal_expert" LIBERAL EXPERT)
                     (5 # 10)) = None /\
  (rb_temperature
     (enhancementBody "A sample" (profileOf "liberal_expert" LIBERAL EXPERT)
                      (5 # 10)) <= 9 # 10)%Q.
Proof.
  destruct (enhancement_request "A sample"
              (profileOf "liberal_expert" LIBERAL EXPERT) (5 # 10)
              ltac:(discriminate) ltac:(discriminate))
    as (_ & _ & _ & _ & Hhi & _ & Hsearch).
  split; [exact Hsearch | exact Hhi].
Defined.

Section BudgetFacts.

(** A call of [generate] only adds requests to the log, at most as many
    as the loop test allows. *)
Lemma generate_requests_bound
      (this : GrokClient.t) (options : GrokClient.GrokGenerateOptions)
      (w : World) (s : Effects) :
  let run := GrokClient.generate this options w s in
  requestsIssued s <= requestsIssued (snd run) /\
  requestsIssued (snd run) <= requestsIssued s + GrokClient.attempts this.
Proof.
  intros run.
  destruct (retryLoop_run (GrokClient.buildRequestBody options)
              (rb_model (GrokClient.buildRequestBody options))
              (searchOf options) w (GrokClient.attempts this) 0 Undefined s)
    as (m & Hle & Hf & _).
  change (GrokClient.retryLoop _ _ _ _ _ _ w s) with run in Hf.
  unfold requestsIssued. rewrite Hf, length_app, repeat_length. lia.
Qed.

Lemma estimateCost_nonneg (usage : option Usage) (sources : nat) :
  (0 <= GrokClient.estimateCost usage sources)%Q.
Proof.
  assert (Hadd : forall a b : Q, (0 <= a -> 0 <= b -> 0 <= a + b)%Q).
  { intros a b Ha Hb. apply (Qplus_le_compat 0 a 0 b Ha Hb). }
  destruct usage as [u|]; [|apply Qle_refl]. unfold GrokClient.estimateCost.
  repeat apply Hadd;
    (apply Qmult_le_0_compat; [apply count_nonneg | discriminate]).
Qed.

End BudgetFacts.

(** X11.  When the generated content has at most 500 characters, or the
    bias level is at most 0.3, the voice enhancer is not called: the
    persona task posts the requests of its primary call and no other, and
    returns the generated content with the flag [voiceEnhanced] false. *)
Theorem generatePersonaResponse_below_gate
        (this : DebateGenerator.t) (persona : PersonaProfile) (topic : string)
        (context : option string) (useTwitterSearch : bool) (biasLevel : Q)
        (w : World) (s s' : Effects) (grokResponse : GrokClient.GrokResponse) :
  GrokClient.generate (DebateGenerator.grokClient this)
    (DebateGenerator.personaOptions persona topic context useTwitterSearch
                                    biasLevel) w s
  = (Fulfilled grokResponse, s') ->
  String.length (GrokClient.response_content grokResponse) <= 500
  \/ (biasLevel <= 3 # 10)%Q ->
  let run := DebateGenerator.generatePersonaResponse this persona topic context
               useTwitterSearch biasLevel w s in
  snd run = s' /\
  exists response,
    fst run = Fulfilled response /\
    content response = GrokClient.response_content grokResponse /\
    voiceEnhanced response = false.
Proof.
  intros Hcall Hlow run.
  assert (Hgate : substantial (GrokClient.response_content grokResponse)
                              biasLevel = false).
  { unfold substantial. destruct Hlow as [Hlen | Hbias].
    - apply Nat.ltb_ge in Hlen. now rewrite Hlen.
    - apply Qle_bool_iff in Hbias. rewrite Hbias. apply andb_false_r. }
  subst run.
  rewrite (generatePersonaResponse_plain _ _ _ _ _ _ _ _ _ _ Hcall Hgate).
  split; [reflexivity|]. eexists. repeat split; reflexivity.
Qed.

(** A generated content of 400 characters at the highest bias level: one
    request, the content as generated, the flag false. *)
Lemma generatePersonaResponse_below_gate_witness :
  let run := DebateGenerator.generatePersonaResponse routeGenerator
               (profileOf "liberal_expert" LIBERAL EXPERT) "Tax reform" None
               false 1 (scripted [reply (nCopies 400 "a"%char)]) noEffects in
  requestsIssued (snd run) = 1 /\
  exists response,
    fst run = Fulfilled response /\
    content response = nCopies 400 "a"%char /\
    voiceEnhanced response = false.
Proof.
  intros run.
  destruct (generatePersonaResponse_below_gate routeGenerator
              (profileOf "liberal_expert" LIBERAL EXPERT) "Tax reform" None
              false 1 (scripted [reply (nCopies 400 "a"%char)]) noEffects
              _ _ eq_refl) as (Hs & response & Hr & Hc & Hv).
  - left. apply Nat.leb_le. reflexivity.
  - split; [subst run; rewrite Hs; reflexivity|].
    exists response. repeat split; assumption.
Defined.

(** X12.  Whenever the persona task fulfils, its primary call fulfilled,
    and the response is built from it: token usage and sources are those
    of the primary call (the enhancement call adds nothing to them), the
    model is the one [selectModel] chose, the title is extracted from the
    final content, leaning and identifier are the persona's, the bias
    level is the one given, [twitterIntegrated] is false, and
    [voiceEnhanced] tells whether the generated content had more than 500
    characters with a bias level above 0.3. *)
Theorem generatePersonaResponse_fields
        (this : DebateGenerator.t) (profile : PersonaProfile) (topic : string)
        (context : option string) (useTwitterSearch : bool) (bias : Q)
        (w : World) (s : Effects) (response : PersonaResponse) :
  fst (DebateGenerator.generatePersonaResponse this profile topic context
         useTwitterSearch bias w s) = Fulfilled response ->
  exists grokResponse s',
    GrokClient.generate (DebateGenerator.grokClient this)
      (DebateGenerator.personaOptions profile topic context useTwitterSearch
                                      bias) w s
    = (Fulfilled grokResponse, s') /\
    tokenUsage response = GrokClient.usage grokResponse /\
    sourcesUsed response =
      match GrokClient.sources grokResponse with
      | Some l => Some (map GrokClient.url l)
      | None => None
      end /\
    modelUsed response = GrokClient.selectModel topic context /\
    title response = DebateGenerator.extractTitle (content response) /\
    perspective response = politicalLeaning profile /\
    pi_id (persona response) = personaId profile /\
    biasLevel response = bias /\
    twitterIntegrated response = false /\
    voiceEnhanced response =
      substantial (GrokClient.response_content grokResponse) bias.
Proof.
  intros Hrun.
  destruct (GrokClient.generate (DebateGenerator.grokClient this) _ w s)
    as [[g|e] s'] eqn:E.
  - exists g, s'. split; [reflexivity|].
    destruct (substantial (GrokClient.response_content g) bias) eqn:G.
    + rewrite (generatePersonaResponse_enhanced _ _ _ _ _ _ _ _ _ _ E G) in Hrun.
      cbn [fst] in Hrun. injection Hrun as <-. repeat split; reflexivity.
    + rewrite (generatePersonaResponse_plain _ _ _ _ _ _ _ _ _ _ E G) in Hrun.
      cbn [fst] in Hrun. injection Hrun as <-. repeat split; reflexivity.
  - rewrite (generatePersonaResponse_rejected _ _ _ _ _ _ _ _ _ _ E) in Hrun.
    discriminate.
Qed.

(** A task answered by 400 characters: the usage is the one the upstream
    reported for the primary call. *)
Lemma generatePersonaResponse_fields_witness :
  match fst (DebateGenerator.generatePersonaResponse routeGenerator
               (profileOf "liberal_expert" LIBERAL EXPERT) "Tax reform" None
               false 1 (scripted [reply (nCopies 400 "a"%char)]) noEffects)
  with
  | Fulfilled response =>
      modelUsed response = GrokClient.selectModel "Tax reform" None /\
      title response = DebateGenerator.extractTitle (content response) /\
      twitterIntegrated response = false
  | Rejected _ => False
  end.
Proof.
  destruct (fst (DebateGenerator.generatePersonaResponse _ _ _ _ _ _ _ _))
    as [response|e] eqn:E; [|vm_compute in E; discriminate].
  destruct (generatePersonaResponse_fields _ _ _ _ _ _ _ _ _ E)
    as (g & s' & _ & _ & _ & Hm & Ht & _ & _ & _ & Hi & _).
  repeat split; assumption.
Defined.

(** X13.  The budget of a client is the number of attempts that its loop
    test allows: [maxRetries] itself when that is a natural number.  A
    persona task posts at most that many requests for its primary call
    and, after them, at most that many for the enhancement: what it posts
    after the primary call is what [enhanceContent] posts, and that only
    when the generated content passes the gate.  When the primary call is
    rejected the task is rejected with the same error and has posted the
    requests of the primary call and no other; a rejected task has
    therefore posted at most the budget.  So a debate posts at most twice
    the budget per persona and four times the budget in all. *)
Theorem generateDebate_request_budget
        (grokClient : GrokClient.t) (config : DebateConfig)
        (clock : DebateGenerator.Clock) (world1 world2 : World)
        (firstIs1 : bool) :
  let this := DebateGenerator.constructor grokClient in
  let budget := GrokClient.attempts grokClient in
  let run := DebateGenerator.generateDebate this config clock world1 world2
               firstIs1 in
  (forall n : nat,
     (GrokClient.maxRetries grokClient == inject_Z (Z.of_nat n))%Q ->
     budget = n)
  /\ (forall persona topic context useTwitterSearch biasLevel w s,
        let primary :=
          GrokClient.generate grokClient
            (DebateGenerator.personaOptions persona topic context
               useTwitterSearch biasLevel) w s in
        let task := DebateGenerator.generatePersonaResponse this persona topic
                      context useTwitterSearch biasLevel w s in
        requestsIssued s <= requestsIssued (snd primary)
        /\ requestsIssued (snd primary) <= requestsIssued s + budget
        /\ requestsIssued (snd primary) <= requestsIssued (snd task)
        /\ requestsIssued (snd task) <= requestsIssued (snd primary) + budget
        /\ (forall g, fst primary = Fulfilled g ->
              snd task =
              if substantial (GrokClient.response_content g) biasLevel
              then snd (VoiceEnhancer.enhanceContent
                          (DebateGenerator.voiceEnhancer this)
                          (GrokClient.response_content g) persona biasLevel
                          w (snd primary))
              else snd primary)
        /\ (forall e, fst primary = Rejected e ->
              task = (Rejected e, snd primary))
        /\ (isRejected (fst task) ->
              snd task = snd primary /\
              requestsIssued (snd task) <= requestsIssued s + budget)
        /\ requestsIssued (snd task) <= requestsIssued s + 2 * budget)
  /\ requestsIssued (DebateGenerator.effects1 run) <= 2 * budget
  /\ requestsIssued (DebateGenerator.effects2 run) <= 2 * budget
  /\ requestsIssued (DebateGenerator.effects1 run)
     + requestsIssued (DebateGenerator.effects2 run) <= 4 * budget.
Proof.
  intros this budget run.
  assert (Htask : forall persona topic context useTwitterSearch biasLevel w s,
        let primary :=
          GrokClient.generate grokClient
            (DebateGenerator.personaOptions persona topic context
               useTwitterSearch biasLevel) w s in
        let task := DebateGenerator.generatePersonaResponse this persona topic
                      context useTwitterSearch biasLevel w s in
        requestsIssued s <= requestsIssued (snd primary)
        /\ requestsIssued (snd primary) <= requestsIssued s + budget
        /\ requestsIssued (snd primary) <= requestsIssued (snd task)
        /\ requestsIssued (snd task) <= requestsIssued (snd primary) + budget
        /\ (forall g, fst primary = Fulfilled g ->
              snd task =
              if substantial (GrokClient.response_content g) biasLevel
              then snd (VoiceEnhancer.enhanceContent
                          (DebateGenerator.voiceEnhancer this)
                          (GrokClient.response_content g) persona biasLevel
                          w (snd primary))
              else snd primary)
        /\ (forall e, fst primary = Rejected e ->
              task = (Rejected e, snd primary))
        /\ (isRejected (fst task) ->
              snd task = snd primary /\
              requestsIssued (snd task) <= requestsIssued s + budget)
        /\ requestsIssued (snd task) <= requestsIssued s + 2 * budget).
  { intros persona topic context useTwitterSearch biasLevel w s primary task.
    pose proof (generate_requests_bound grokClient
                  (DebateGenerator.personaOptions persona topic context
                     useTwitterSearch biasLevel) w s) as Hp.
    cbn zeta in Hp. fold primary budget in Hp. destruct Hp as [Hp1 Hp2].
    assert (E : GrokClient.generate (DebateGenerator.grokClient this)
                  (DebateGenerator.personaOptions persona topic context
                     useTwitterSearch biasLevel) w s
                = (fst primary, snd primary))
      by (subst primary; cbn; now destruct (GrokClient.generate _ _ w s)).
    destruct (fst primary) as [g|e] eqn:Ef.
    - destruct (substantial (GrokClient.response_content g) biasLevel) eqn:G.
      + assert (Ht : task = _)
          by exact (generatePersonaResponse_enhanced _ _ _ _ _ _ _ _ _ _ E G).
        cbn zeta in Ht.
        pose proof (generate_requests_bound
                      (VoiceEnhancer.grokClient (DebateGenerator.voiceEnhancer this))
                      (VoiceEnhancer.enhancementOptions
                         (take (Nat.min 600 (String.length
                                  (GrokClient.response_content g)))
                               (GrokClient.response_content g))
                         persona biasLevel) w (snd primary)) as He.
        cbn zeta in He.
        change (GrokClient.attempts _) with budget in He.
        destruct He as [He1 He2].
        rewrite Ht. cbn [fst snd].
        refine (conj Hp1 (conj Hp2 (conj He1 (conj He2
                  (conj _ (conj _ (conj _ _))))))).
        * intros g' Hg'. injection Hg' as <-. rewrite G.
          now rewrite enhanceContent_run.
        * intros e He. discriminate.
        * intros (x & Hx). discriminate.
        * lia.
      + assert (Ht : task = _)
          by exact (generatePersonaResponse_plain _ _ _ _ _ _ _ _ _ _ E G).
        rewrite Ht. cbn [fst snd].
        refine (conj Hp1 (conj Hp2 (conj _ (conj _
                  (conj _ (conj _ (conj _ _))))))); try lia.
        * intros g' Hg'. injection Hg' as <-. now rewrite G.
        * intros e He. discriminate.
        * intros (x & Hx). discriminate.
    - assert (Ht : task = _)
        by exact (generatePersonaResponse_rejected _ _ _ _ _ _ _ _ _ _ E).
      rewrite Ht. cbn [fst snd].
      refine (conj Hp1 (conj Hp2 (conj _ (conj _
                (conj _ (conj _ (conj _ _))))))); try lia.
      + intros g Hg. discriminate.
      + intros e' He'. now injection He' as <-.
      + intros _. split; [reflexivity | exact Hp2]. }
  split; [intros n Hn; now apply attempts_count|].
  split; [exact Htask|].
  assert (Hboth : requestsIssued (DebateGenerator.effects1 run) <= 2 * budget /\
                  requestsIssued (DebateGenerator.effects2 run) <= 2 * budget).
  { destruct (PersonaRegistry.validatePersonaPair
                (DebateGenerator.personaRegistry this)
                (persona1Id config) (persona2Id config)) eqn:V.
    - destruct (generateDebate_valid this config clock world1 world2 firstIs1 V)
        as (p1 & p2 & _ & _ & H1 & H2 & _).
      fold run in H1, H2. rewrite H1, H2. unfold task1, task2.
      split.
      + destruct (Htask p1 (cfg_topic config) (cfg_context config)
                    (searchEnabled config)
                    (bias_persona1 (biasLevelsOf config)) world1 noEffects)
          as (_ & _ & _ & _ & _ & _ & _ & Hb). exact Hb.
      + destruct (Htask p2 (cfg_topic config) (cfg_context config)
                    (searchEnabled config)
                    (bias_persona2 (biasLevelsOf config)) world2 noEffects)
          as (_ & _ & _ & _ & _ & _ & _ & Hb). exact Hb.
    - subst run. rewrite (generateDebate_invalid _ _ _ _ _ _ V). cbn. lia. }
  destruct Hboth as [H1 H2]. repeat split; lia.
Qed.

(** With the budget of 3 and an upstream that always answers 429, the
    first persona task gives up after the 3 requests of its primary
    call. *)
Lemma generateDebate_request_budget_witness :
  requestsIssued
    (snd (DebateGenerator.generatePersonaResponse
            (DebateGenerator.constructor routeClient)
            (profileOf "liberal_expert" LIBERAL EXPERT) "Tax reform" None
            false (5 # 10)
            (scripted [tooManyRequests; tooManyRequests; tooManyRequests])
            noEffects))
  <= requestsIssued noEffects + GrokClient.attempts routeClient.
Proof.
  apply (proj2 (proj2 (proj2 (proj2 (proj2 (proj2 (proj1 (proj2
           (generateDebate_request_budget routeClient expertDebate
              sampleClock (scripted []) (scripted []) true))
           (profileOf "liberal_expert" LIBERAL EXPERT) "Tax reform" None
           false (5 # 10)%Q
           (scripted [tooManyRequests; tooManyRequests; tooManyRequests])
           noEffects))))))).
  eexists. reflexivity.
Defined.

Section DebateResultFacts.
Import DebateGenerator.

(** A fulfilled debate is assembled from two fulfilled persona tasks. *)
Lemma generateDebate_fulfilled
      (this : DebateGenerator.t) (config : DebateConfig) (clock : Clock)
      (world1 world2 : World) (firstIs1 : bool) (result : DebateResult) :
  settled (generateDebate this config clock world1 world2 firstIs1)
  = Fulfilled result ->
  exists persona1 persona2 response1 response2,
    PersonaRegistry.validatePersonaPair (personaRegistry this)
      (persona1Id config) (persona2Id config) = true /\
    PersonaRegistry.getPersona (personaRegistry this) (persona1Id config)
      = Some persona1 /\
    PersonaRegistry.getPersona (personaRegistry this) (persona2Id config)
      = Some persona2 /\
    fst (task1 this config persona1 world1) = Fulfilled response1 /\
    fst (task2 this config persona2 world2) = Fulfilled response2 /\
    result =
      {| debateId := intToString (idTime clock) ++ "_" ++
                     persona1Id config ++ "_" ++ persona2Id config;
         dr_topic := cfg_topic config;
         dr_context := cfg_context config;
         personas1 := {| side_id := persona1Id config;
                         side_info := persona1;
                         side_content := response1 |};
         personas2 := {| side_id := persona2Id config;
                         side_info := persona2;
                         side_content := response2 |};
         generationMetadata := {|
           generationTimeSeconds :=
             (inject_Z (joinTime clock - startTime clock) / (1000 # 1))%Q;
           twitterSearchEnabled := searchEnabled config;
           meta_biasLevels := biasLevelsOf config;
           modelsUsed := (modelUsed response1, modelUsed response2) |};
         costAnalysis := {|
           totalEstimatedCost := calculateTotalCost response1 response2;
           costBreakdown := (tokenUsage response1, tokenUsage response2) |};
         dr_timestamp := isoTime clock |}.
Proof.
  unfold generateDebate, task1, task2, biasLevelsOf, searchEnabled.
  destruct (PersonaRegistry.validatePersonaPair _ _ _) eqn:V; cbn [negb];
    [|discriminate].
  destruct (PersonaRegistry.getPersona _ (persona1Id config)) as [p1|];
    [|discriminate].
  destruct (PersonaRegistry.getPersona _ (persona2Id config)) as [p2|];
    [|discriminate].
  destruct (generatePersonaResponse this p1 _ _ _ _ world1 noEffects)
    as [[r1|e1] s1] eqn:T1;
    destruct (generatePersonaResponse this p2 _ _ _ _ world2 noEffects)
      as [[r2|e2] s2] eqn:T2; cbn; try discriminate.
  intros H. injection H as <-. exists p1, p2, r1, r2.
  repeat apply conj; try reflexivity.
  - now rewrite T1.
  - now rewrite T2.
Qed.

End DebateResultFacts.

(** X14.  In every debate that [generateDebate] returns: the two personas
    resolved and are of opposing leanings, and so are the perspectives of
    the two responses; both responses were generated with the same model,
    the one [selectModel] gives for the topic and context; the identifier
    is the clock reading followed by the two requested identifiers, joined
    by underscores; the recorded search flag and bias levels are those of
    the configuration with its defaults (search on, 0.5 each); and the
    total estimated cost is the sum of the estimated costs of the two
    responses, never negative. *)
Theorem generateDebate_result
        (this : DebateGenerator.t) (config : DebateConfig)
        (clock : DebateGenerator.Clock) (world1 world2 : World)
        (firstIs1 : bool) (result : DebateResult) :
  DebateGenerator.settled
    (DebateGenerator.generateDebate this config clock world1 world2 firstIs1)
  = Fulfilled result ->
  let response1 := side_content (personas1 result) in
  let response2 := side_content (personas2 result) in
  PersonaRegistry.getPersona (DebateGenerator.personaRegistry this)
    (persona1Id config) = Some (side_info (personas1 result))
  /\ PersonaRegistry.getPersona (DebateGenerator.personaRegistry this)
       (persona2Id config) = Some (side_info (personas2 result))
  /\ perspective response1 <> perspective response2
  /\ modelsUsed (generationMetadata result) =
       (GrokClient.selectModel (cfg_topic config) (cfg_context config),
        GrokClient.selectModel (cfg_topic config) (cfg_context config))
  /\ debateId result =
       DebateGenerator.intToString (DebateGenerator.idTime clock) ++ "_" ++
       persona1Id config ++ "_" ++ persona2Id config
  /\ twitterSearchEnabled (generationMetadata result) =
       match useTwitterSearch config with Some b => b | None => true end
  /\ meta_biasLevels (generationMetadata result) =
       match biasLevels config with
       | Some b => b
       | None => {| bias_persona1 := (5 # 10)%Q; bias_persona2 := (5 # 10)%Q |}
       end
  /\ (totalEstimatedCost (costAnalysis result) ==
        GrokClient.estimateCost (tokenUsage response1)
                                (DebateGenerator.sourceCount response1)
        + GrokClient.estimateCost (tokenUsage response2)
                                  (DebateGenerator.sourceCount response2))%Q
  /\ (0 <= totalEstimatedCost (costAnalysis result))%Q.
Proof.
  intros Hrun v1 v2.
  apply generateDebate_fulfilled in Hrun
    as (p1 & p2 & r1 & r2 & V & G1 & G2 & T1 & T2 & ->).
  subst v1 v2. cbn.
  assert (Hpack : forall persona bias w response,
            fst (DebateGenerator.generatePersonaResponse this persona
                   (cfg_topic config) (cfg_context config)
                   (searchEnabled config) bias w noEffects)
            = Fulfilled response ->
            modelUsed response
            = GrokClient.selectModel (cfg_topic config) (cfg_context config)
            /\ perspective response = politicalLeaning persona).
  { intros persona bias w response Hr.
    pose proof (generatePersonaResponse_settles this persona (cfg_topic config)
                  (cfg_context config) (searchEnabled config) bias w noEffects)
      as Hs. cbn zeta in Hs.
    destruct (fst (GrokClient.generate _ _ w noEffects)) as [g|e].
    - destruct Hs as (c & f & Hs). rewrite Hs in Hr. injection Hr as <-.
      split; reflexivity.
    - rewrite Hs in Hr. discriminate. }
  apply Hpack in T1 as [M1 P1]. apply Hpack in T2 as [M2 P2].
  apply validatePersonaPair_true in V as (q1 & q2 & Q1 & Q2 & Hne).
  rewrite G1 in Q1. rewrite G2 in Q2. injection Q1 as <-. injection Q2 as <-.
  repeat apply conj; auto.
  - congruence.
  - now rewrite M1, M2.
  - unfold DebateGenerator.calculateTotalCost. apply Qeq_refl.
  - unfold DebateGenerator.calculateTotalCost.
    apply (Qplus_le_compat 0 _ 0 _); apply estimateCost_nonneg.
Qed.

(** Both experts answered at once by 400 characters: a debate with the
    identifier of the clock and the two personas. *)
Lemma generateDebate_result_witness :
  match DebateGenerator.settled
          (DebateGenerator.generateDebate routeGenerator expertDebate
             sampleClock (scripted [reply (nCopies 400 "a"%char)])
             (scripted [reply (nCopies 400 "b"%char)]) true) with
  | Fulfilled result =>
      debateId result = "1735689612000_liberal_expert_conservative_expert" /\
      perspective (side_content (personas1 result))
      <> perspective (side_content (personas2 result))
  | Rejected _ => False
  end.
Proof.
  destruct (DebateGenerator.settled _) as [result|e] eqn:E;
    [|vm_compute in E; discriminate].
  destruct (generateDebate_result _ _ _ _ _ _ _ E)
    as (_ & _ & Hp & _ & Hid & _).
  split; [|exact Hp]. rewrite Hid. reflexivity.
Defined.

(** X15.  The total cost of two responses is symmetric in them and never
    negative; it is 0 when both lack token usage, whatever their sources;
    and when both have it, it is the cost of the tokens and sources added
    up: (p1 + p2) * 0.20 / 1e6 + (c1 + c2) * 0.50 / 1e6 + (n1 + n2) *
    0.025. *)
Theorem calculateTotalCost_sum (response1 response2 : PersonaResponse) :
  (DebateGenerator.calculateTotalCost response1 response2 ==
   DebateGenerator.calculateTotalCost response2 response1)%Q
  /\ (0 <= DebateGenerator.calculateTotalCost response1 response2)%Q
  /\ (tokenUsage response1 = None -> tokenUsage response2 = None ->
      (DebateGenerator.calculateTotalCost response1 response2 == 0)%Q)
  /\ (forall u1 u2,
        tokenUsage response1 = Some u1 -> tokenUsage response2 = Some u2 ->
        (DebateGenerator.calculateTotalCost response1 response2 ==
         inject_Z (Z.of_nat (promptTokens u1 + promptTokens u2))
           * (20 # 100) / (1000000 # 1)
         + inject_Z (Z.of_nat (completionTokens u1 + completionTokens u2))
           * (50 # 100) / (1000000 # 1)
         + inject_Z (Z.of_nat (DebateGenerator.sourceCount response1
                               + DebateGenerator.sourceCount response2))
           * (25 # 1000))%Q).
Proof.
  unfold DebateGenerator.calculateTotalCost. repeat apply conj.
  - apply Qplus_comm.
  - apply (Qplus_le_compat 0 _ 0 _); apply estimateCost_nonneg.
  - intros -> ->. reflexivity.
  - intros u1 u2 -> ->. unfold GrokClient.estimateCost.
    rewrite !Nat2Z.inj_add, !inject_Z_plus. field.
Qed.

(** Two responses without usage and with three sources each cost
    nothing. *)
Lemma calculateTotalCost_sum_witness :
  DebateGenerator.sourceCount unmeteredResponse = 3 /\
  (DebateGenerator.calculateTotalCost unmeteredResponse unmeteredResponse
   == 0)%Q.
Proof.
  split; [reflexivity|].
  apply (proj1 (proj2 (proj2 (calculateTotalCost_sum _ _)))); reflexivity.
Defined.

(* ===================================================================== *)
(** * Further properties: the catalog, the routes and the persona picker *)
(* ===================================================================== *)

(** X16.  [getPersonaDisplayInfo] gives one entry per profile of the
    catalog, in the order of the catalog and with its identifier; the
    influences of an entry are the first three of the profile, so at most
    three, and all of them when the profile has no more than three. *)
Theorem getPersonaDisplayInfo_projection (m : PersonaRegistry.JsMap) :
  let all := PersonaRegistry.getAllPersonas m in
  let info := PersonaRegistry.getPersonaDisplayInfo m in
  length info = length all
  /\ map di_id info = map personaId all
  /\ (forall i p, nth_error all i = Some p ->
        exists d rest,
          nth_error info i = Some d /\
          di_id d = personaId p /\
          di_displayName d = displayName p /\
          di_politicalLeaning d = PoliticalLeaning_str (politicalLeaning p) /\
          keyInfluences p = (di_keyInfluences d ++ rest)%list /\
          length (di_keyInfluences d) = Nat.min 3 (length (keyInfluences p)))
  /\ (forall d, In d info -> length (di_keyInfluences d) <= 3).
Proof.
  intros all info. subst all info. unfold PersonaRegistry.getPersonaDisplayInfo.
  repeat apply conj.
  - apply length_map.
  - rewrite map_map. reflexivity.
  - intros i p Hp. exists (PersonaRegistry.displayInfoOf p),
      (skipn 3 (keyInfluences p)).
    repeat apply conj; try reflexivity.
    + now rewrite nth_error_map, Hp.
    + unfold PersonaRegistry.displayInfoOf, slice0. cbn [di_keyInfluences].
      symmetry. apply firstn_skipn.
    + unfold PersonaRegistry.displayInfoOf, slice0. cbn [di_keyInfluences].
      apply length_firstn.
  - intros d Hd. apply in_map_iff in Hd as (p & <- & _).
    unfold PersonaRegistry.displayInfoOf, slice0. cbn [di_keyInfluences].
    rewrite length_firstn. lia.
Qed.

(** X17.  [getPersonasByLeaning] splits the catalog: a profile is listed
    for a leaning exactly when it is in the catalog with that leaning, so
    no profile is listed for both leanings, and the two lists together
    have as many profiles as the catalog; two identifiers form a valid
    pair exactly when their profiles are listed for different leanings. *)
Theorem getPersonasByLeaning_partition (m : PersonaRegistry.JsMap) :
  (forall leaning p,
     In p (PersonaRegistry.getPersonasByLeaning m leaning) <->
     In p (PersonaRegistry.getAllPersonas m) /\ politicalLeaning p = leaning)
  /\ (forall p,
        ~ (In p (PersonaRegistry.getPersonasByLeaning m LIBERAL) /\
           In p (PersonaRegistry.getPersonasByLeaning m CONSERVATIVE)))
  /\ length (PersonaRegistry.getPersonasByLeaning m LIBERAL)
     + length (PersonaRegistry.getPersonasByLeaning m CONSERVATIVE)
     = length (PersonaRegistry.getAllPersonas m)
  /\ (forall a b p1 p2,
        PersonaRegistry.getPersona m a = Some p1 ->
        PersonaRegistry.getPersona m b = Some p2 ->
        (PersonaRegistry.validatePersonaPair m a b = true <->
         exists leaning,
           In p1 (PersonaRegistry.getPersonasByLeaning m leaning) /\
           ~ In p2 (PersonaRegistry.getPersonasByLeaning m leaning))).
Proof.
  assert (Hin : forall leaning p,
     In p (PersonaRegistry.getPersonasByLeaning m leaning) <->
     In p (PersonaRegistry.getAllPersonas m) /\ politicalLeaning p = leaning).
  { intros leaning p. unfold PersonaRegistry.getPersonasByLeaning.
    rewrite filter_In. now rewrite leaning_eqb_eq. }
  assert (Hget : forall k p, PersonaRegistry.getPersona m k = Some p ->
                             In p (PersonaRegistry.getAllPersonas m)).
  { unfold PersonaRegistry.getPersona, PersonaRegistry.getAllPersonas,
      PersonaRegistry.values.
    clear Hin. intros k p. induction m as [|[k' v] rest IH]; cbn; [discriminate|].
    destruct (String.eqb k' k); [intros H; injection H as ->; now left|].
    intros H. right. now apply IH. }
  refine (conj Hin (conj _ (conj _ _))).
  - intros p [H1 H2]. apply Hin in H1 as [_ H1]. apply Hin in H2 as [_ H2].
    congruence.
  - clear Hin Hget. unfold PersonaRegistry.getPersonasByLeaning.
    induction (PersonaRegistry.getAllPersonas m) as [|p ps IH]; [reflexivity|].
    simpl filter. destruct (politicalLeaning p); simpl; lia.
  - intros a b p1 p2 H1 H2. rewrite validatePersonaPair_true. split.
    + intros (q1 & q2 & Q1 & Q2 & Hne). rewrite H1 in Q1. rewrite H2 in Q2.
      injection Q1 as <-. injection Q2 as <-.
      exists (politicalLeaning p1). split.
      * apply Hin. split; [now apply (Hget a)|reflexivity].
      * intros H. apply Hin in H as [_ H]. congruence.
    + intros (leaning & Hp1 & Hp2). exists p1, p2. repeat split; auto.
      apply Hin in Hp1 as [_ Hl1]. intros Heq. apply Hp2, Hin.
      split; [now apply (Hget b)|congruence].
Qed.

(** In the shipped catalog the liberal expert and the conservative patriot
    are listed for different leanings. *)
Lemma getPersonasByLeaning_partition_witness :
  PersonaRegistry.validatePersonaPair PersonaRegistry.personas
    LIBERAL_EXPERT CONSERVATIVE_PATRIOT = true.
Proof.
  destruct (PersonaRegistry.getPersona PersonaRegistry.personas LIBERAL_EXPERT)
    as [p1|] eqn:E1; [|vm_compute in E1; discriminate].
  destruct (PersonaRegistry.getPersona PersonaRegistry.personas
              CONSERVATIVE_PATRIOT)
    as [p2|] eqn:E2; [|vm_compute in E2; discriminate].
  apply (proj2 (proj2 (proj2 (getPersonasByLeaning_partition
                                PersonaRegistry.personas)))
           LIBERAL_EXPERT CONSERVATIVE_PATRIOT p1 p2 E1 E2).
  exists LIBERAL.
  vm_compute in E1. injection E1 as <-. vm_compute in E2. injection E2 as <-.
  split.
  - apply (proj1 (getPersonasByLeaning_partition PersonaRegistry.personas)).
    split; [|reflexivity]. right. left. reflexivity.
  - intros H.
    apply (proj1 (getPersonasByLeaning_partition PersonaRegistry.personas)) in H.
    destruct H as [_ H]. discriminate H.
Defined.

Section PickerFacts.
Import PersonaRegistry.

Lemma get_In (m : JsMap) (k : PersonaType) (p : PersonaProfile) :
  get k m = Some p -> In (k, p) m.
Proof.
  induction m as [|[k' v] rest IH]; cbn; [discriminate|].
  destruct (String.eqb k' k) eqn:E.
  - apply String.eqb_eq in E as ->. intros H. injection H as ->. now left.
  - intros H. right. now apply IH.
Qed.

Lemma In_get (m : JsMap) (k : PersonaType) (p : PersonaProfile) :
  NoDup (map fst m) -> In (k, p) m -> get k m = Some p.
Proof.
  induction m as [|[k' v] rest IH]; cbn; [contradiction|].
  intros Hnd Hin. inversion Hnd as [|? ? Hnotin Hnd']; subst.
  destruct Hin as [Heq | Hin].
  - injection Heq as -> ->. now rewrite String.eqb_refl.
  - destruct (String.eqb k' k) eqn:E; [|now apply IH].
    apply String.eqb_eq in E as ->. exfalso. apply Hnotin.
    apply in_map_iff. now exists (k, p).
Qed.

Lemma In_values (m : JsMap) (p : PersonaProfile) :
  In p (values m) -> exists k, In (k, p) m.
Proof.
  unfold values. rewrite in_map_iff. intros ([k q] & <- & Hin). now exists k.
Qed.

Lemma elementIs_pair (x y a : string) :
  Routes.elementIs [x; y] 0 a = String.eqb x a /\
  Routes.elementIs [x; y] 1 a = String.eqb y a.
Proof. split; reflexivity. Qed.

End PickerFacts.

(** X18.  The persona picker agrees with the catalog.  For a generator
    whose catalog stores every profile under its own identifier, and the
    list of valid combinations that the personas route makes of it: two
    non-empty identifiers are a valid combination for the picker exactly
    when [validatePersonaPair] accepts them.  On any list the picker's test
    is symmetric, and it lets every selection with an empty slot pass. *)
Theorem isValidCombination_agrees
        (this : DebateGenerator.t) (persona1 persona2 : string) :
  wellKeyed (DebateGenerator.personaRegistry this) ->
  (persona1 <> EmptyString -> persona2 <> EmptyString ->
   Routes.isValidCombination (Routes.validCombinationsOf this) persona1 persona2
   = PersonaRegistry.validatePersonaPair (DebateGenerator.personaRegistry this)
       persona1 persona2)
  /\ (forall validCombinations,
        Routes.isValidCombination validCombinations persona1 persona2
        = Routes.isValidCombination validCombinations persona2 persona1)
  /\ (forall validCombinations,
        persona1 = EmptyString \/ persona2 = EmptyString ->
        Routes.isValidCombination validCombinations persona1 persona2 = true).
Proof.
  intros [Hnd Hkeys]. refine (conj _ (conj _ _)).
  - intros H1 H2. unfold Routes.isValidCombination.
    apply truthy_true in H1. apply truthy_true in H2. rewrite H1, H2. cbn [negb orb].
    apply eq_true_iff_eq. rewrite existsb_exists, validatePersonaPair_true.
    unfold Routes.validCombinationsOf, DebateGenerator.getValidCombinations,
      PersonaRegistry.getValidCombinations.
    split.
    + intros (combo & Hin & Hmatch).
      apply in_map_iff in Hin as (c & <- & Hc).
      apply combination_members in Hc as (Hp1 & Hp2 & Hd & _).
      apply In_values in Hp1 as (k1 & Hk1). apply In_values in Hp2 as (k2 & Hk2).
      pose proof (Hkeys _ _ Hk1) as E1. pose proof (Hkeys _ _ Hk2) as E2.
      apply (In_get _ _ _ Hnd) in Hk1. apply (In_get _ _ _ Hnd) in Hk2.
      assert (Hne : politicalLeaning (combo_persona1 c)
                    <> politicalLeaning (combo_persona2 c)).
      { apply leaning_eqb_neq. now apply negb_true_iff. }
      destruct (elementIs_pair (personaId (combo_persona1 c))
                  (personaId (combo_persona2 c)) persona1) as [A0 A1].
      destruct (elementIs_pair (personaId (combo_persona1 c))
                  (personaId (combo_persona2 c)) persona2) as [B0 B1].
      rewrite A0, A1, B0, B1 in Hmatch.
      apply orb_true_iff in Hmatch as [Hm | Hm];
        apply andb_true_iff in Hm as [Ha Hb];
        apply String.eqb_eq in Ha; apply String.eqb_eq in Hb;
        rewrite E1 in Ha; rewrite E2 in Hb; subst k1 k2.
      * exists (combo_persona1 c), (combo_persona2 c). auto.
      * exists (combo_persona2 c), (combo_persona1 c). auto.
    + intros (p1 & p2 & G1 & G2 & Hne).
      apply get_In in G1. apply get_In in G2.
      pose proof (Hkeys _ _ G1) as E1. pose proof (Hkeys _ _ G2) as E2.
      assert (V1 : In p1 (PersonaRegistry.values
                            (DebateGenerator.personaRegistry this))).
      { unfold PersonaRegistry.values. apply in_map_iff. now exists (persona1, p1). }
      assert (V2 : In p2 (PersonaRegistry.values
                            (DebateGenerator.personaRegistry this))).
      { unfold PersonaRegistry.values. apply in_map_iff. now exists (persona2, p2). }
      assert (Hd : differ p1 p2 = true).
      { apply negb_true_iff. now apply leaning_eqb_neq. }
      destruct (combinationsFrom_complete _ p1 p2 V1 V2 Hd) as [Hc | Hc].
      * exists [personaId p1; personaId p2]. split.
        -- apply in_map_iff. eexists. split; [|exact Hc]. reflexivity.
        -- rewrite E1, E2. cbn. now rewrite !String.eqb_refl.
      * exists [personaId p2; personaId p1]. split.
        -- apply in_map_iff. eexists. split; [|exact Hc]. reflexivity.
        -- rewrite E1, E2. cbn. rewrite !String.eqb_refl. cbn.
           apply orb_true_r.
  - intros l. unfold Routes.isValidCombination.
    rewrite (orb_comm (negb (truthy persona1))).
    destruct (negb (truthy persona2) || negb (truthy persona1)); [reflexivity|].
    induction l as [|combo l IH]; [reflexivity|]. cbn [existsb].
    rewrite IH. f_equal. apply orb_comm.
  - intros l [-> | ->]; unfold Routes.isValidCombination; cbn;
      [reflexivity | now rewrite orb_true_r].
Qed.

(** The shipped catalog stores every profile under its own identifier. *)
Lemma shipped_wellKeyed : wellKeyed PersonaRegistry.personas.
Proof.
  split.
  - vm_compute. repeat constructor; cbn; intuition discriminate.
  - intros k p Hin. vm_compute in Hin.
    destruct Hin as [H | [H | [H | [H | []]]]]; injection H as <- <-;
      reflexivity.
Qed.

(** For the shipped catalog the picker accepts the liberal expert with the
    conservative patriot, as the catalog does. *)
Lemma isValidCombination_agrees_witness :
  Routes.isValidCombination (Routes.validCombinationsOf routeGenerator)
    "liberal_expert" "conservative_patriot"
  = PersonaRegistry.validatePersonaPair PersonaRegistry.personas
      "liberal_expert" "conservative_patriot".
Proof.
  apply (proj1 (isValidCombination_agrees routeGenerator "liberal_expert"
                  "conservative_patriot" shipped_wellKeyed)); discriminate.
Defined.

Section CaseFacts.

Lemma lowerChar_upperChar (c : ascii) : lowerChar (upperChar c) = lowerChar c.
Proof. destruct c as [[] [] [] [] [] [] [] []]; reflexivity. Qed.

Lemma upperChar_lowerChar (c : ascii) : upperChar (lowerChar c) = upperChar c.
Proof. destruct c as [[] [] [] [] [] [] [] []]; reflexivity. Qed.

Lemma lowerChar_idempotent (c : ascii) : lowerChar (lowerChar c) = lowerChar c.
Proof. destruct c as [[] [] [] [] [] [] [] []]; reflexivity. Qed.

Lemma toLowerCase_toUpperCase (s : string) :
  toLowerCase (toUpperCase s) = toLowerCase s.
Proof.
  induction s as [|c s IH]; cbn; [reflexivity|].
  rewrite lowerChar_upperChar. f_equal. exact IH.
Qed.

Lemma toUpperCase_toLowerCase (s : string) :
  toUpperCase (toLowerCase s) = toUpperCase s.
Proof.
  induction s as [|c s IH]; cbn; [reflexivity|].
  rewrite upperChar_lowerChar. f_equal. exact IH.
Qed.

(** A member name of the enum is met by the upper-cased identifier exactly
    when its value is met by the lower-cased one. *)
Lemma enum_key_test (a key value : string) :
  toLowerCase key = value -> toUpperCase value = key ->
  String.eqb (toUpperCase a) key = String.eqb value (toLowerCase a).
Proof.
  intros Hl Hu. apply eq_true_iff_eq. rewrite !String.eqb_eq. split.
  - intros H. now rewrite <- Hl, <- H, toLowerCase_toUpperCase.
  - intros H. now rewrite <- Hu, H, toUpperCase_toLowerCase.
Qed.

(** The enum lookup on the upper-cased identifier finds the lower-cased
    identifier, when the catalog has it. *)
Lemma PersonaTypeOf_toUpperCase (a : string) :
  DebateGenerator.PersonaTypeOf (toUpperCase a) =
  match PersonaRegistry.get (toLowerCase a) PersonaRegistry.personas with
  | Some _ => Some (toLowerCase a)
  | None => None
  end.
Proof.
  assert (Hcat : exists p1 p2 p3 p4,
             PersonaRegistry.personas =
             [(LIBERAL_GRASSROOTS, p1); (LIBERAL_EXPERT, p2);
              (CONSERVATIVE_PATRIOT, p3); (CONSERVATIVE_EXPERT, p4)]).
  { do 4 eexists. reflexivity. }
  destruct Hcat as (p1 & p2 & p3 & p4 & ->).
  unfold DebateGenerator.PersonaTypeOf. cbn [PersonaRegistry.get].
  rewrite (enum_key_test a "LIBERAL_GRASSROOTS" LIBERAL_GRASSROOTS eq_refl eq_refl).
  rewrite (enum_key_test a "LIBERAL_EXPERT" LIBERAL_EXPERT eq_refl eq_refl).
  rewrite (enum_key_test a "CONSERVATIVE_PATRIOT" CONSERVATIVE_PATRIOT
             eq_refl eq_refl).
  rewrite (enum_key_test a "CONSERVATIVE_EXPERT" CONSERVATIVE_EXPERT
             eq_refl eq_refl).
  destruct (String.eqb LIBERAL_GRASSROOTS (toLowerCase a)) eqn:E1;
    [apply String.eqb_eq in E1; now rewrite <- E1|].
  destruct (String.eqb LIBERAL_EXPERT (toLowerCase a)) eqn:E2;
    [apply String.eqb_eq in E2; now rewrite <- E2|].
  destruct (String.eqb CONSERVATIVE_PATRIOT (toLowerCase a)) eqn:E3;
    [apply String.eqb_eq in E3; now rewrite <- E3|].
  destruct (String.eqb CONSERVATIVE_EXPERT (toLowerCase a)) eqn:E4;
    [apply String.eqb_eq in E4; now rewrite <- E4|].
  reflexivity.
Qed.

(** The selection check is the pairing rule on lower-cased identifiers. *)
Lemma validatePersonaSelection_lower
      (grokClient : GrokClient.t) (a b : string) :
  DebateGenerator.validatePersonaSelection
    (DebateGenerator.constructor grokClient) a b
  = PersonaRegistry.validatePersonaPair PersonaRegistry.personas
      (toLowerCase a) (toLowerCase b).
Proof.
  unfold DebateGenerator.validatePersonaSelection,
    DebateGenerator.validatePersonaPairOpt.
  rewrite !PersonaTypeOf_toUpperCase.
  change (DebateGenerator.personaRegistry _) with PersonaRegistry.personas.
  unfold PersonaRegistry.validatePersonaPair.
  destruct (PersonaRegistry.get (toLowerCase a) PersonaRegistry.personas) eqn:Ea;
    destruct (PersonaRegistry.get (toLowerCase b) PersonaRegistry.personas) eqn:Eb;
    try reflexivity.
  now rewrite Ea, Eb.
Qed.

End CaseFacts.

(** X19.  For a generator built by the constructor and identifiers that
    are ASCII strings, [validatePersonaSelection] is the pairing rule of
    the catalog applied to the lower-cased identifiers: it does not depend
    on the letter case of the identifiers, it is symmetric, and when it
    holds, the two enum values that the routes hand to [generateDebate]
    are the lower-cased identifiers, which pass the validation of
    [generateDebate].  (Outside ASCII the upper-casing of JavaScript is
    not a map of single characters, and the statement is not made.) *)
Theorem validatePersonaSelection_rule
        (grokClient : GrokClient.t) (persona1Id persona2Id : string) :
  isAscii persona1Id = true -> isAscii persona2Id = true ->
  let this := DebateGenerator.constructor grokClient in
  DebateGenerator.validatePersonaSelection this persona1Id persona2Id
  = PersonaRegistry.validatePersonaPair PersonaRegistry.personas
      (toLowerCase persona1Id) (toLowerCase persona2Id)
  /\ DebateGenerator.validatePersonaSelection this
       (toUpperCase persona1Id) (toUpperCase persona2Id)
     = DebateGenerator.validatePersonaSelection this persona1Id persona2Id
  /\ DebateGenerator.validatePersonaSelection this
       (toLowerCase persona1Id) (toLowerCase persona2Id)
     = DebateGenerator.validatePersonaSelection this persona1Id persona2Id
  /\ DebateGenerator.validatePersonaSelection this persona2Id persona1Id
     = DebateGenerator.validatePersonaSelection this persona1Id persona2Id
  /\ (DebateGenerator.validatePersonaSelection this persona1Id persona2Id = true ->
      DebateGenerator.PersonaTypeOf (toUpperCase persona1Id)
        = Some (toLowerCase persona1Id) /\
      DebateGenerator.PersonaTypeOf (toUpperCase persona2Id)
        = Some (toLowerCase persona2Id) /\
      PersonaRegistry.validatePersonaPair
        (DebateGenerator.personaRegistry this)
        (toLowerCase persona1Id) (toLowerCase persona2Id) = true).
Proof.
  intros _ _ this.
  assert (Hrule : forall a b,
            DebateGenerator.validatePersonaSelection this a b
            = PersonaRegistry.validatePersonaPair PersonaRegistry.personas
                (toLowerCase a) (toLowerCase b))
    by (intros a b; apply validatePersonaSelection_lower).
  repeat apply conj.
  - apply Hrule.
  - now rewrite !Hrule, !toLowerCase_toUpperCase.
  - rewrite !Hrule. unfold toLowerCase.
    assert (Hidem : forall s, mapChars lowerChar (mapChars lowerChar s)
                              = mapChars lowerChar s).
    { induction s as [|c s IH]; cbn; [reflexivity|].
      now rewrite IH, lowerChar_idempotent. }
    now rewrite !Hidem.
  - rewrite !Hrule. apply validatePersonaPair_sym.
  - intros Hok. rewrite !PersonaTypeOf_toUpperCase.
    rewrite Hrule in Hok.
    change (DebateGenerator.personaRegistry this) with PersonaRegistry.personas.
    pose proof Hok as Hok2. unfold PersonaRegistry.validatePersonaPair in Hok2.
    destruct (PersonaRegistry.get (toLowerCase persona1Id) _);
      [|discriminate].
    destruct (PersonaRegistry.get (toLowerCase persona2Id) _);
      [|discriminate].
    auto.
Qed.

(** Mixed case is accepted. *)
Lemma validatePersonaSelection_rule_witness :
  DebateGenerator.PersonaTypeOf (toUpperCase "Liberal_Expert")
  = Some (toLowerCase "Liberal_Expert") /\
  DebateGenerator.PersonaTypeOf (toUpperCase "CONSERVATIVE_patriot")
  = Some (toLowerCase "CONSERVATIVE_patriot").
Proof.
  destruct (proj2 (proj2 (proj2 (proj2
              (validatePersonaSelection_rule routeClient "Liberal_Expert"
                 "CONSERVATIVE_patriot" eq_refl eq_refl)))) eq_refl)
    as (H1 & H2 & _).
  split; [exact H1 | exact H2].
Defined.

Section RouteFacts.
Import Routes.

Lemma given_Some (x : option string) (v : string) :
  given x = Some v -> x = Some v /\ truthy v = true.
Proof.
  unfold given, orStr. destruct x as [[|c s]|]; cbn; try discriminate.
  intros H. injection H as <-. now split.
Qed.

(** The client of the route is always built: the key is not empty. *)
Lemma route_client (key : string) (address : option string) :
  truthy key = true ->
  exists client,
    GrokClient.constructor
      {| GrokClient.cfg_apiKey := key;
         GrokClient.cfg_baseUrl := address;
         GrokClient.cfg_timeout := Some 60000%Z;
         GrokClient.cfg_maxRetries := Some 3%Q |} = Fulfilled client /\
    GrokClient.maxRetries client = 3%Q.
Proof.
  intros H. unfold GrokClient.constructor. cbn. rewrite H.
  eexists. split; reflexivity.
Qed.

End RouteFacts.

(** X20.  The generate-debate route answers 200, 400 or 500, and 200
    exactly when the body is a debate.  It answers 400 for missing fields
    exactly when the topic or one of the identifiers is absent or empty,
    before it looks at the API key.  Whenever it answers 400, and whenever
    the API key is not configured, no request has been posted to the
    upstream.  A debate it returns has the requested topic; its two sides
    carry the lower-cased requested identifiers, which are a valid pair of
    the catalog.  The identifiers of the request are ASCII strings, as for
    [validatePersonaSelection]. *)
Theorem POST_responses
        (env : GrokClient.Env) (request : Routes.DebateRequest)
        (clock : DebateGenerator.Clock) (world1 world2 : World)
        (firstIs1 : bool) :
  asciiOrAbsent (Routes.req_persona1Id request) = true ->
  asciiOrAbsent (Routes.req_persona2Id request) = true ->
  let handled := Routes.POST env request clock world1 world2 firstIs1 in
  let answer := Routes.response handled in
  (Routes.status answer = 200 \/ Routes.status answer = 400
   \/ Routes.status answer = 500)
  /\ (Routes.status answer = 200 <->
      exists result, Routes.json answer = Routes.ResultBody result)
  /\ (Routes.given (Routes.req_topic request) = None \/
      Routes.given (Routes.req_persona1Id request) = None \/
      Routes.given (Routes.req_persona2Id request) = None <->
      answer = {| Routes.status := 400;
                  Routes.json := Routes.ErrorBody
                    "Missing required fields: topic, persona1Id, persona2Id"
                    None |})
  /\ (Routes.status answer = 400 \/
      Routes.given (GrokClient.XAI_API_KEY env) = None ->
      requestsIssued (Routes.handled1 handled) = 0 /\
      requestsIssued (Routes.handled2 handled) = 0)
  /\ (forall result,
        Routes.json answer = Routes.ResultBody result ->
        exists topic id1 id2,
          Routes.req_topic request = Some topic /\
          Routes.req_persona1Id request = Some id1 /\
          Routes.req_persona2Id request = Some id2 /\
          dr_topic result = topic /\
          side_id (personas1 result) = toLowerCase id1 /\
          side_id (personas2 result) = toLowerCase id2 /\
          PersonaRegistry.validatePersonaPair PersonaRegistry.personas
            (toLowerCase id1) (toLowerCase id2) = true).
Proof.
  intros _ _ handled answer. subst answer handled. unfold Routes.POST.
  destruct (Routes.given (Routes.req_topic request)) as [topic|] eqn:Gt;
    [|cbn; refine (conj _ (conj _ (conj _ (conj _ _)))); auto;
      [split; [discriminate | intros (r & Hr); discriminate]
      |split; auto
      |intros r Hr; discriminate]].
  destruct (Routes.given (Routes.req_persona1Id request)) as [id1|] eqn:G1;
    [|cbn; refine (conj _ (conj _ (conj _ (conj _ _)))); auto;
      [split; [discriminate | intros (r & Hr); discriminate]
      |split; auto
      |intros r Hr; discriminate]].
  destruct (Routes.given (Routes.req_persona2Id request)) as [id2|] eqn:G2;
    [|cbn; refine (conj _ (conj _ (conj _ (conj _ _)))); auto;
      [split; [discriminate | intros (r & Hr); discriminate]
      |split; auto
      |intros r Hr; discriminate]].
  destruct (Routes.given (GrokClient.XAI_API_KEY env)) as [key|] eqn:Gk.
  2:{ cbn. refine (conj _ (conj _ (conj _ (conj _ _)))); auto.
      - split; [discriminate | intros (r & Hr); discriminate].
      - split; [intros [H | [H | H]]; discriminate | discriminate].
      - intros r Hr. discriminate. }
  apply given_Some in Gk as [_ Hkey].
  destruct (route_client key
              (Some match Routes.given (GrokClient.XAI_BASE_URL env) with
                    | Some u => u
                    | None => "https://api.x.ai/v1"
                    end) Hkey) as (client & -> & _).
  rewrite validatePersonaSelection_lower.
  destruct (PersonaRegistry.validatePersonaPair PersonaRegistry.personas
              (toLowerCase id1) (toLowerCase id2)) eqn:V; cbn [negb].
  2:{ cbn. refine (conj _ (conj _ (conj _ (conj _ _)))); auto.
      - split; [discriminate | intros (r & Hr); discriminate].
      - split; [intros [H | [H | H]]; discriminate | discriminate].
      - intros r Hr. discriminate. }
  rewrite !PersonaTypeOf_toUpperCase.
  pose proof V as V2. unfold PersonaRegistry.validatePersonaPair in V2.
  destruct (PersonaRegistry.get (toLowerCase id1) PersonaRegistry.personas)
    as [p1|]; [|discriminate].
  destruct (PersonaRegistry.get (toLowerCase id2) PersonaRegistry.personas)
    as [p2|]; [|discriminate].
  cbn [Routes.response Routes.handled1 Routes.handled2].
  apply given_Some in Gt as [Et _]. apply given_Some in G1 as [E1 _].
  apply given_Some in G2 as [E2 _].
  destruct (DebateGenerator.settled _) as [result|e] eqn:S; cbn.
  - refine (conj _ (conj _ (conj _ (conj _ _)))); auto.
    + split; [intros _; now exists result | reflexivity].
    + split; [intros [H | [H | H]]; discriminate | discriminate].
    + intros [H | H]; discriminate.
    + intros r Hr. injection Hr as <-.
      apply generateDebate_fulfilled in S
        as (q1 & q2 & r1 & r2 & _ & _ & _ & _ & _ & ->).
      exists topic, id1, id2. cbn. repeat split; auto.
  - refine (conj _ (conj _ (conj _ (conj _ _)))); auto.
    + split; [discriminate | intros (r & Hr); discriminate].
    + split; [intros [H | [H | H]]; discriminate | discriminate].
    + intros [H | H]; discriminate.
    + intros r Hr. discriminate.
Qed.

(** A request without a topic and a server without a key: 400, not 500. *)
Lemma POST_responses_witness :
  Routes.status
    (Routes.response
       (Routes.POST noKeys topiclessRequest sampleClock (scripted [])
          (scripted []) true)) = 400 /\
  requestsIssued
    (Routes.handled1
       (Routes.POST noKeys topiclessRequest sampleClock (scripted [])
          (scripted []) true)) = 0.
Proof.
  split; [reflexivity|].
  apply (proj1 (proj2 (proj2 (proj2
           (POST_responses noKeys topiclessRequest sampleClock (scripted [])
              (scripted []) true eq_refl eq_refl))))).
  left. reflexivity.
Defined.

Section TitleShape.
Import DebateGenerator.

Lemma splitLines_noLineFeed (s : string) :
  forall line, In line (splitLines s) -> noLineFeed line = true.
Proof.
  induction s as [|c s IH]; cbn [splitLines]; intros line Hin.
  - destruct Hin as [<- | []]. reflexivity.
  - destruct (splitLines_cons s) as (l & ls & Es). rewrite Es in *.
    destruct (Ascii.eqb c newline) eqn:E.
    + destruct Hin as [<- | Hin]; [reflexivity | now apply IH].
    + destruct Hin as [<- | Hin].
      * cbn [noLineFeed]. rewrite E. cbn [negb andb]. apply IH. now left.
      * apply IH. now right.
Qed.

Lemma trimStart_noLineFeed (s : string) :
  noLineFeed s = true -> noLineFeed (trimStart s) = true.
Proof.
  induction s as [|c s IH]; cbn; [reflexivity|]. intros H.
  apply andb_true_iff in H as [Hc Hs].
  destruct (isWhiteSpace c); [now apply IH|]. cbn. now rewrite Hc, Hs.
Qed.

Lemma trimEnd_noLineFeed (s : string) :
  noLineFeed s = true -> noLineFeed (trimEnd s) = true.
Proof.
  induction s as [|c s IH]; cbn; [reflexivity|]. intros H.
  apply andb_true_iff in H as [Hc Hs]. specialize (IH Hs).
  destruct (trimEnd s) as [|d t].
  - destruct (isWhiteSpace c); cbn; [reflexivity | now rewrite Hc].
  - cbn in *. now rewrite Hc, IH.
Qed.

Lemma trimEnd_not_space (s : string) : endsWithSpace (trimEnd s) = false.
Proof.
  induction s as [|c s IH]; cbn; [reflexivity|].
  destruct (trimEnd s) as [|d t] eqn:E.
  - destruct (isWhiteSpace c) eqn:Ec; cbn; [reflexivity | exact Ec].
  - exact IH.
Qed.

Lemma trimEnd_keeps_start (s : string) :
  startsWithSpace s = false -> startsWithSpace (trimEnd s) = false.
Proof.
  destruct s as [|c s]; cbn; [reflexivity|]. intros Hc.
  destruct (trimEnd s); [now rewrite Hc | exact Hc].
Qed.

Lemma trimStart_keeps_end (s : string) :
  endsWithSpace s = false -> endsWithSpace (trimStart s) = false.
Proof.
  induction s as [|c s IH]; [reflexivity|]. intros H. cbn [trimStart].
  destruct (isWhiteSpace c) eqn:Ec; [|exact H].
  apply IH. destruct s as [|d s']; [reflexivity|]. exact H.
Qed.

Lemma suffix_keeps_end (c : ascii) (s : string) :
  endsWithSpace (String c s) = false -> endsWithSpace s = false.
Proof. destruct s as [|d s']; [reflexivity|]. now intros H. Qed.

(** A trimmed line has no white space at either end. *)
Lemma trim_shape (s : string) :
  startsWithSpace (trim s) = false /\ endsWithSpace (trim s) = false.
Proof.
  unfold trim. split.
  - apply trimEnd_keeps_start, trimStart_not_space.
  - apply trimEnd_not_space.
Qed.

Lemma stripHeading_shape (t : string) :
  startsWithSpace t = false -> endsWithSpace t = false ->
  startsWithSpace (stripHeading t) = false /\
  endsWithSpace (stripHeading t) = false.
Proof.
  intros Hs He. destruct t as [|c rest]; [now split|]. cbn [stripHeading].
  destruct (Ascii.eqb c (ascii_of_nat 35)); [|now split]. split.
  - apply trimStart_not_space.
  - apply trimStart_keeps_end. now apply (suffix_keeps_end c).
Qed.

Lemma stripHeading_noLineFeed (t : string) :
  noLineFeed t = true -> noLineFeed (stripHeading t) = true.
Proof.
  destruct t as [|c rest]; [reflexivity|]. cbn [stripHeading]. intros H.
  destruct (Ascii.eqb c (ascii_of_nat 35)); [|exact H].
  apply trimStart_noLineFeed. cbn in H. now apply andb_true_iff in H as [_ H].
Qed.

Lemma firstTitle_shape (lines : list string) :
  (forall line, In line lines -> noLineFeed line = true) ->
  noLineFeed (firstTitle lines) = true /\
  startsWithSpace (firstTitle lines) = false /\
  endsWithSpace (firstTitle lines) = false.
Proof.
  induction lines as [|l lines IH]; intros H; cbn [firstTitle].
  - repeat split; reflexivity.
  - destruct (truthy (trim l)).
    + destruct (trim_shape l) as [Hs He].
      destruct (stripHeading_shape _ Hs He) as [Hs' He'].
      repeat split; auto. apply stripHeading_noLineFeed.
      unfold trim. apply trimEnd_noLineFeed, trimStart_noLineFeed, H. now left.
    + apply IH. intros line Hin. apply H. now right.
Qed.

End TitleShape.

(** X21.  The title of any content is a single trimmed line: it contains
    no line feed and has no white space at its start or its end.  It can
    be empty: a first non-blank line made of a number sign only gives the
    empty title, not the placeholder. *)
Theorem extractTitle_shape (content : string) :
  noLineFeed (DebateGenerator.extractTitle content) = true
  /\ startsWithSpace (DebateGenerator.extractTitle content) = false
  /\ endsWithSpace (DebateGenerator.extractTitle content) = false
  /\ trim (DebateGenerator.extractTitle content)
     = DebateGenerator.extractTitle content
  /\ (forall blank rest,
        splitLines content = (blank ++ String hash EmptyString :: rest)%list ->
        (forall b, In b blank -> trim b = EmptyString) ->
        DebateGenerator.extractTitle content = EmptyString).
Proof.
  destruct (firstTitle_shape (splitLines content) (splitLines_noLineFeed content))
    as (Hn & Hs & He).
  unfold DebateGenerator.extractTitle. repeat apply conj; auto.
  - unfold trim. rewrite trimStart_fixed by exact Hs.
    clear Hn Hs. revert He.
    generalize (DebateGenerator.firstTitle (splitLines content)) as t.
    induction t as [|c t IH]; [reflexivity|]. intros He. cbn [trimEnd].
    destruct t as [|d t'].
    + cbn in *. now rewrite He.
    + rewrite IH by exact He. reflexivity.
  - intros blank rest Hsplit Hblank. rewrite Hsplit.
    rewrite firstTitle_first; auto. discriminate.
Qed.

(** A heading line that is a number sign only, after a blank line. *)
Lemma extractTitle_shape_witness :
  DebateGenerator.extractTitle "
#
Body" = EmptyString.
Proof.
  apply (proj2 (proj2 (proj2 (proj2 (extractTitle_shape _))))
           [EmptyString] ["Body"]).
  - reflexivity.
  - intros b [<- | []]. reflexivity.
Defined.

(* ===================================================================== *)
(** * Further properties: quick voice touches and prompts *)
(* ===================================================================== *)

Section TouchFacts.
Import VoiceEnhancer.

Lemma substring2_take (s : string) (n : nat) : substring2 s 0 n = take n s.
Proof.
  unfold substring2. rewrite Nat.min_0_l, Nat.max_0_l, Nat.min_0_l, Nat.sub_0_r.
  cbn [drop]. apply take_min.
Qed.

Lemma opening_given (persona : PersonaProfile) :
  orStr (getPersonaOpening persona) None = getPersonaOpening persona.
Proof.
  unfold getPersonaOpening.
  repeat (destruct (String.eqb _ _); [reflexivity|]). reflexivity.
Qed.

Lemma closing_given (persona : PersonaProfile) :
  orStr (getPersonaClosing persona) None = getPersonaClosing persona.
Proof.
  unfold getPersonaClosing.
  repeat (destruct (String.eqb _ _); [reflexivity|]). reflexivity.
Qed.

Lemma untouched_persona (persona : PersonaProfile) :
  ~ In (personaId persona) touchedIds ->
  getPersonaOpening persona = None /\ getPersonaClosing persona = None.
Proof.
  intros H. unfold getPersonaOpening, getPersonaClosing.
  assert (Hid : forall id, In id touchedIds ->
                           String.eqb (personaId persona) id = false).
  { intros id Hin. apply String.eqb_neq. intros E. apply H. now rewrite E. }
  rewrite !Hid; [now split | ..]; cbn; tauto.
Qed.

Lemma includes_suffix (a b k : string) :
  includes b k = true -> includes (a ++ b) k = true.
Proof.
  rewrite !includes_occursIn. intros (x & y & ->).
  exists (a ++ x), y. now rewrite append_assoc.
Qed.

(** The touch puts the content between an optional opening and an
    optional closing, and the closing's first characters are in the
    result. *)
Lemma addQuickVoiceTouches_run (content : string) (persona : PersonaProfile)
      (first : string) (others : list string) :
  signaturePhrases persona = first :: others ->
  exists before after,
    addQuickVoiceTouches content persona = Fulfilled (before ++ content ++ after) /\
    (before = EmptyString \/
     exists opening, getPersonaOpening persona = Some opening /\
                     before = opening ++ blankLine) /\
    (after = EmptyString \/
     exists closing, getPersonaClosing persona = Some closing /\
                     after = blankLine ++ closing) /\
    (forall closing, getPersonaClosing persona = Some closing ->
                     includes (before ++ content ++ after) (take 20 closing) = true).
Proof.
  intros Hs. unfold addQuickVoiceTouches. rewrite Hs, opening_given, closing_given.
  set (touched :=
         if negb (String.prefix (substring2 first 0 10) content)
         then match getPersonaOpening persona with
              | Some opening => opening ++ blankLine ++ content
              | None => content
              end
         else content).
  assert (Hb : exists before,
             touched = before ++ content /\
             (before = EmptyString \/
              exists opening, getPersonaOpening persona = Some opening /\
                              before = opening ++ blankLine)).
  { subst touched. destruct (negb _).
    - destruct (getPersonaOpening persona) as [opening|].
      + exists (opening ++ blankLine). split; [now rewrite append_assoc|].
        right. now exists opening.
      + exists EmptyString. split; [reflexivity | now left].
    - exists EmptyString. split; [reflexivity | now left]. }
  destruct Hb as (before & Ht & Hbefore). rewrite Ht.
  destruct (getPersonaClosing persona) as [closing|].
  - rewrite substring2_take.
    destruct (includes (before ++ content) (take 20 closing)) eqn:Ei; cbn [negb].
    + exists before, EmptyString. rewrite append_nil_r.
      repeat apply conj; auto. intros c Hc. now injection Hc as <-.
    + exists before, (blankLine ++ closing). rewrite append_assoc.
      repeat apply conj; auto.
      * right. now exists closing.
      * intros c Hc. injection Hc as <-. apply includes_suffix, includes_suffix.
        apply includes_suffix. apply includes_occursIn.
        exists EmptyString, (drop 20 closing). cbn [append].
        symmetry. apply take_drop.
  - exists before, EmptyString. rewrite append_nil_r.
    repeat apply conj; auto. intros c Hc. discriminate.
Qed.

End TouchFacts.

(** X22.  [addQuickVoiceTouches] throws for a persona without signature
    phrases.  Otherwise it returns the content as it is, with at most the
    persona's opening and a blank line before it and a blank line and the
    persona's closing after it; for a persona that is not one of the four
    known identifiers it returns the content unchanged.  After a touch the
    first 20 characters of the closing are in the text, so touching the
    result again adds nothing after it. *)
Theorem addQuickVoiceTouches_frame
        (content : string) (persona : PersonaProfile) :
  (signaturePhrases persona = [] ->
   isRejected (VoiceEnhancer.addQuickVoiceTouches content persona))
  /\ (signaturePhrases persona <> [] ->
      exists before after,
        VoiceEnhancer.addQuickVoiceTouches content persona
        = Fulfilled (before ++ content ++ after) /\
        (before = EmptyString \/
         exists opening,
           VoiceEnhancer.getPersonaOpening persona = Some opening /\
           before = opening ++ VoiceEnhancer.blankLine) /\
        (after = EmptyString \/
         exists closing,
           VoiceEnhancer.getPersonaClosing persona = Some closing /\
           after = VoiceEnhancer.blankLine ++ closing))
  /\ (signaturePhrases persona <> [] ->
      ~ In (personaId persona) touchedIds ->
      VoiceEnhancer.addQuickVoiceTouches content persona = Fulfilled content)
  /\ (forall touched again,
        VoiceEnhancer.addQuickVoiceTouches content persona = Fulfilled touched ->
        VoiceEnhancer.addQuickVoiceTouches touched persona = Fulfilled again ->
        exists before, again = before ++ touched).
Proof.
  refine (conj _ (conj _ (conj _ _))).
  - intros Hs. unfold VoiceEnhancer.addQuickVoiceTouches. rewrite Hs.
    eexists. reflexivity.
  - intros Hs. destruct (signaturePhrases persona) as [|first others] eqn:E;
      [congruence|].
    destruct (addQuickVoiceTouches_run content persona first others E)
      as (before & after & Hr & Hb & Ha & _).
    exists before, after. auto.
  - intros Hs Hid. destruct (signaturePhrases persona) as [|first others] eqn:E;
      [congruence|].
    destruct (untouched_persona persona Hid) as [Ho Hc].
    destruct (addQuickVoiceTouches_run content persona first others E)
      as (before & after & Hr & Hb & Ha & _).
    rewrite Hr.
    destruct Hb as [-> | (o & Ho' & _)]; [|congruence].
    destruct Ha as [-> | (c & Hc' & _)]; [|congruence].
    cbn. now rewrite append_nil_r.
  - intros touched again H1 H2.
    destruct (signaturePhrases persona) as [|first others] eqn:E.
    { unfold VoiceEnhancer.addQuickVoiceTouches in H1. rewrite E in H1.
      discriminate. }
    destruct (addQuickVoiceTouches_run content persona first others E)
      as (b1 & a1 & Hr1 & _ & _ & Hin1).
    rewrite Hr1 in H1. injection H1 as <-.
    destruct (addQuickVoiceTouches_run (b1 ++ content ++ a1) persona
                first others E) as (b2 & a2 & Hr2 & _ & _ & _).
    (* the second touch finds the closing and adds nothing after *)
    unfold VoiceEnhancer.addQuickVoiceTouches in H2.
    rewrite E, opening_given, closing_given in H2.
    set (touched :=
           if negb (String.prefix (substring2 first 0 10) (b1 ++ content ++ a1))
           then match VoiceEnhancer.getPersonaOpening persona with
                | Some opening =>
                    opening ++ VoiceEnhancer.blankLine ++ (b1 ++ content ++ a1)
                | None => b1 ++ content ++ a1
                end
           else b1 ++ content ++ a1) in H2.
    assert (Ht : exists before, touched = before ++ (b1 ++ content ++ a1)).
    { subst touched. destruct (negb _).
      - destruct (VoiceEnhancer.getPersonaOpening persona) as [opening|].
        + exists (opening ++ VoiceEnhancer.blankLine). now rewrite append_assoc.
        + now exists EmptyString.
      - now exists EmptyString. }
    destruct Ht as (before & Ht).
    destruct (VoiceEnhancer.getPersonaClosing persona) as [closing|] eqn:Ec.
    + rewrite substring2_take in H2.
      assert (Hfound : includes touched (take 20 closing) = true).
      { rewrite Ht. apply includes_suffix. now apply Hin1. }
      rewrite Hfound in H2. cbn [negb] in H2. injection H2 as <-.
      now exists before.
    + injection H2 as <-. now exists before.
Qed.

(** A persona outside the catalog: the text comes back as it was. *)
Lemma addQuickVoiceTouches_frame_witness :
  VoiceEnhancer.addQuickVoiceTouches "Taxes are too high."
    (profileOf "centrist_moderate" LIBERAL EXPERT)
  = Fulfilled "Taxes are too high.".
Proof.
  apply (proj1 (proj2 (proj2 (addQuickVoiceTouches_frame
                                "Taxes are too high."
                                (profileOf "centrist_moderate" LIBERAL EXPERT))))).
  - discriminate.
  - cbn. intuition discriminate.
Defined.

Section PromptFacts.
Import DebateGenerator.

Lemma template_opening (persona : PersonaProfile) (topic : string) :
  exists rest,
    (if expertise_eqb (expertiseLevel persona) EXPERT
     then getExpertPromptTemplate persona topic
     else getGrassrootsPromptTemplate persona topic)
    = "Write a comprehensive blog post about: " ++ topic ++ rest.
Proof.
  unfold getExpertPromptTemplate, getGrassrootsPromptTemplate.
  destruct (expertise_eqb _ _); eexists; reflexivity.
Qed.

End PromptFacts.

(** X23.  The prompt of a persona always begins with the request for a
    blog post about the topic; a context that is present and not empty is
    added under the heading ADDITIONAL CONTEXT, an absent or empty one
    adds nothing; the search instructions of the persona close the prompt
    exactly when search is requested.  The persona task posts this prompt
    as the user message, the last message of its request, after the system
    message of the persona if it has one. *)
Theorem constructPrompt_parts
        (persona : PersonaProfile) (topic : string) (context : option string)
        (useTwitterSearch : bool) (biasLevel : Q) :
  let prompt := DebateGenerator.constructPrompt persona topic context
                  useTwitterSearch in
  let base := DebateGenerator.constructPrompt persona topic None false in
  (exists rest,
     prompt = "Write a comprehensive blog post about: " ++ topic ++ rest)
  /\ (forall c, context = Some c -> c <> EmptyString ->
        exists rest,
          prompt = base ++ "

ADDITIONAL CONTEXT: " ++ c ++ rest)
  /\ (context = None \/ context = Some EmptyString ->
      prompt = DebateGenerator.constructPrompt persona topic None
                 useTwitterSearch)
  /\ (useTwitterSearch = true ->
      prompt = DebateGenerator.constructPrompt persona topic context false
               ++ DebateGenerator.getTwitterIntegrationPrompt persona)
  /\ (useTwitterSearch = false -> context = None -> prompt = base)
  /\ (exists before,
        messages (primaryBody persona topic context useTwitterSearch biasLevel)
        = (before ++ [ {| role := "user"; msg_content := prompt |} ])%list /\
        (before = [] \/
         exists instruction,
           systemPrompt persona = Some instruction /\
           before = [ {| role := "system"; msg_content := instruction |} ])).
Proof.
  intros prompt base. subst prompt base. unfold DebateGenerator.constructPrompt.
  destruct (template_opening persona topic) as (tail & Ht). rewrite Ht.
  refine (conj _ (conj _ (conj _ (conj _ (conj _ _))))).
  - destruct (orStr context None); destruct useTwitterSearch;
      rewrite ?append_assoc; eexists; reflexivity.
  - intros c -> Hc. destruct c as [|x c]; [congruence|]. cbn [orStr truthy].
    destruct useTwitterSearch.
    + exists (DebateGenerator.getTwitterIntegrationPrompt persona).
      now rewrite !append_assoc.
    + exists EmptyString. now rewrite append_nil_r.
  - intros [-> | ->]; reflexivity.
  - intros ->. reflexivity.
  - intros -> ->. reflexivity.
  - unfold primaryBody, GrokClient.buildRequestBody. cbn [messages].
    cbn [GrokClient.opt_systemPrompt GrokClient.prompt
         DebateGenerator.personaOptions].
    unfold DebateGenerator.constructPrompt. rewrite Ht.
    destruct (systemPrompt persona) as [[|x instruction]|]; cbn [truthy].
    + exists []. split; [reflexivity | now left].
    + eexists. split; [reflexivity|]. right. eexists. split; reflexivity.
    + exists []. split; [reflexivity | now left].
Qed.

(** With the context [In Texas] and no search, the prompt is the base
    prompt followed by the context under its heading. *)
Lemma constructPrompt_parts_witness :
  exists rest,
    DebateGenerator.constructPrompt (profileOf "liberal_expert" LIBERAL EXPERT)
      "Tax reform" (Some "In Texas") false
    = DebateGenerator.constructPrompt (profileOf "liberal_expert" LIBERAL EXPERT)
        "Tax reform" None false ++ "

ADDITIONAL CONTEXT: " ++ "In Texas" ++ rest.
Proof.
  apply (proj1 (proj2 (constructPrompt_parts
                         (profileOf "liberal_expert" LIBERAL EXPERT)
                         "Tax reform" (Some "In Texas") false (5 # 10)%Q))
           "In Texas" eq_refl).
  discriminate.
Defined.
